(** * Verification pipeline of the scribe CLI (package [verify])

    A shallow embedding of the extractors, verifiers, report builder and
    file orchestrator of [scribe/internal/verify], together with the
    parts of [scribe/internal/llm] they call, and the properties the
    pipeline is specified to have.

    Go strings are byte sequences: they are modelled by [string] (a list
    of 8-bit [ascii]).  Go [int] is taken to be 64 bits wide and is
    modelled by [Z].  Calls that leave the process (subprocesses, HTTP,
    the file system, the clock, the random UUID source) are events of a
    small free monad, answered by a handler that threads a world. *)

From Stdlib Require Import ZArith Ascii String List Bool Lia Permutation DecimalString.
From stdpp Require Import gmap strings list.

Open Scope string_scope.

(* ------------------------------------------------------------------ *)
(** ** Go strings *)

Module GoString.

Definition code (c : ascii) : N := N_of_ascii c.

Definition in_range (lo hi : N) (c : ascii) : bool :=
  ((lo <=? code c) && (code c <=? hi))%N.

Definition is_digit (c : ascii) : bool := in_range 48 57 c.
Definition is_lower (c : ascii) : bool := in_range 97 122 c.
Definition is_upper (c : ascii) : bool := in_range 65 90 c.
Definition is_letter (c : ascii) : bool := is_lower c || is_upper c.

(** ASCII lower-casing of one byte. *)
Definition to_lower (c : ascii) : ascii :=
  if is_upper c then ascii_of_N (code c + 32) else c.

(** The double quote and the backquote.  Go raw strings are delimited by
    backquotes and so never contain one; [bq] writes a text that contains
    double quotes with backquotes in their place. *)
Definition dquote : ascii := "034"%char.
Definition bquote : ascii := "096"%char.

Fixpoint bq (s : string) : string :=
  match s with
  | EmptyString => EmptyString
  | String c t => String (if Ascii.eqb c bquote then dquote else c) (bq t)
  end.

(** [len(s)]: the number of bytes. *)
Definition len (s : string) : Z := Z.of_nat (String.length s).

(** [strings.HasPrefix]. *)
Fixpoint HasPrefix (s pre : string) : bool :=
  match pre, s with
  | EmptyString, _ => true
  | String a p, String b t => Ascii.eqb a b && HasPrefix t p
  | String _ _, EmptyString => false
  end.

(** [strings.Contains] and [bytes.Contains]. *)
Fixpoint Contains (s sub : string) : bool :=
  HasPrefix s sub ||
  match s with
  | EmptyString => false
  | String _ t => Contains t sub
  end.

(** [s[:n]] for a constant [n]: [None] is the run-time panic
    "slice bounds out of range". *)
Definition slice_to (s : string) (n : nat) : option string :=
  if (n <=? String.length s)%nat then Some (substring 0 n s) else None.

Definition rev (s : string) : string :=
  string_of_list_ascii (List.rev (list_ascii_of_string s)).

(** *** UTF-8 decoding, as [for _, r := range s] performs it *)

(** Size and accepted range of the second byte for a leading byte
    (tables [first] and [acceptRanges] of [unicode/utf8]). *)
Definition utf8_lead (b0 : ascii) : option (nat * (N * N)) :=
  let c := code b0 in
  if ((194 <=? c) && (c <=? 223))%N then Some (2%nat, (128, 191)%N)
  else if (c =? 224)%N then Some (3%nat, (160, 191)%N)
  else if ((225 <=? c) && (c <=? 236))%N then Some (3%nat, (128, 191)%N)
  else if (c =? 237)%N then Some (3%nat, (128, 159)%N)
  else if ((238 <=? c) && (c <=? 239))%N then Some (3%nat, (128, 191)%N)
  else if (c =? 240)%N then Some (4%nat, (144, 191)%N)
  else if ((241 <=? c) && (c <=? 243))%N then Some (4%nat, (128, 191)%N)
  else if (c =? 244)%N then Some (4%nat, (128, 143)%N)
  else None.

Definition is_cont (c : ascii) : bool := in_range 128 191 c.

(** Width in bytes of the rune at the head of [s], and whether it is a
    valid encoding; an invalid byte decodes to U+FFFD with width 1. *)
Definition rune_width (s : string) : nat * bool :=
  match s with
  | EmptyString => (0%nat, false)
  | String b0 t =>
      if (code b0 <? 128)%N then (1%nat, true)
      else match utf8_lead b0 with
           | None => (1%nat, false)
           | Some (sz, (lo, hi)) =>
               match t with
               | String b1 t1 =>
                   if negb (in_range lo hi b1) then (1%nat, false)
                   else if (sz <=? 2)%nat then (2%nat, true)
                   else match t1 with
                        | String b2 t2 =>
                            if negb (is_cont b2) then (1%nat, false)
                            else if (sz <=? 3)%nat then (3%nat, true)
                            else match t2 with
                                 | String b3 _ =>
                                     if is_cont b3 then (4%nat, true) else (1%nat, false)
                                 | EmptyString => (1%nat, false)
                                 end
                        | EmptyString => (1%nat, false)
                        end
               | EmptyString => (1%nat, false)
               end
           end
  end.

(** The UTF-8 encoding of U+FFFD. *)
Definition rune_error : string :=
  String "239"%char (String "191"%char (String "189"%char EmptyString)).

(** The runes of [s] in order, each as the bytes of [string(r)]. *)
Fixpoint runes_from (s : string) (skip : nat) : list string :=
  match s with
  | EmptyString => []
  | String _ t =>
      match skip with
      | S k => runes_from t k
      | O =>
          let '(w, ok) := rune_width s in
          (if ok then substring 0 w s else rune_error) :: runes_from t (w - 1)
      end
  end.

Definition runes (s : string) : list string := runes_from s 0.

(** *** [strings.TrimSpace] *)

(** One-byte white space: tab, LF, VT, FF, CR, space. *)
Definition is_space1 (a : ascii) : bool :=
  in_range 9 13 a || (code a =? 32)%N.

(** Two-byte white space: U+0085 and U+00A0. *)
Definition is_space2 (a b : ascii) : bool :=
  (code a =? 194)%N && ((code b =? 133)%N || (code b =? 160)%N).

(** Three-byte white space: U+1680, U+2000..U+200A, U+2028, U+2029,
    U+202F, U+205F, U+3000. *)
Definition is_space3 (a b c : ascii) : bool :=
  let '(x, y, z) := (code a, code b, code c) in
  ((x =? 225) && (y =? 154) && (z =? 128))%N
  || ((x =? 226) && (y =? 128)
      && (((128 <=? z) && (z <=? 138)) || (z =? 168) || (z =? 169) || (z =? 175)))%N
  || ((x =? 226) && (y =? 129) && (z =? 159))%N
  || ((x =? 227) && (y =? 128) && (z =? 128))%N.

Fixpoint trim_left (s : string) : string :=
  match s with
  | EmptyString => EmptyString
  | String a t =>
      if is_space1 a then trim_left t
      else match t with
           | String b t2 =>
               if is_space2 a b then trim_left t2
               else match t2 with
                    | String c t3 => if is_space3 a b c then trim_left t3 else s
                    | EmptyString => s
                    end
           | EmptyString => s
           end
  end.

(** The same on the reversed string: the last bytes come first. *)
Fixpoint trim_left_rev (s : string) : string :=
  match s with
  | EmptyString => EmptyString
  | String a t =>
      if is_space1 a then trim_left_rev t
      else match t with
           | String b t2 =>
               if is_space2 b a then trim_left_rev t2
               else match t2 with
                    | String c t3 => if is_space3 c b a then trim_left_rev t3 else s
                    | EmptyString => s
                    end
           | EmptyString => s
           end
  end.

Definition TrimSpace (s : string) : string :=
  rev (trim_left_rev (rev (trim_left s))).

(** [strings.Index]: the offset of the first occurrence, if any. *)
Fixpoint Index (s sub : string) : option nat :=
  if HasPrefix s sub then Some 0%nat
  else match s with
       | EmptyString => None
       | String _ t => option_map S (Index t sub)
       end.

(** [strings.TrimPrefix]. *)
Definition TrimPrefix (s pre : string) : string :=
  if HasPrefix s pre
  then substring (String.length pre) (String.length s - String.length pre) s
  else s.

(** *** Numbers *)

(** [%d] of an [int]. *)
Definition Itoa (n : Z) : string := NilZero.string_of_int (Z.to_int n).

Definition MaxInt64 : Z := 9223372036854775807.

Definition digit_val (c : ascii) : Z := (Z.of_N (code c) - 48)%Z.

Definition digits_val (s : string) : Z :=
  fold_left (fun acc c => (10 * acc + digit_val c)%Z) (list_ascii_of_string s) 0%Z.

(** [n, _ := strconv.Atoi(s)] on a string of decimal digits, as the
    permalink pattern captures them: the value, or on overflow (the
    discarded error is a range error) the largest [int].  The empty
    string is a syntax error and gives 0. *)
Definition Atoi (s : string) : Z :=
  let v := digits_val s in
  if (MaxInt64 <? v)%Z then MaxInt64 else v.

End GoString.

(* ------------------------------------------------------------------ *)
(** ** Regular expressions

    The fragment of Go's [regexp] syntax that the patterns of the package
    use, matched with the leftmost-first (backtracking order) semantics of
    that library.  Repetition is only ever applied to a character class in
    these patterns, so [Rep] takes a class. *)

Module Regexp.
Import GoString.

Inductive re : Type :=
  | Eps
  | Cls (p : ascii -> bool)            (* one byte of a class *)
  | Cat (a b : re)
  | Alt (a b : re)                     (* a|b, a preferred *)
  | Rep (one : bool) (p : ascii -> bool) (* greedy p+ (one) or p* *)
  | Opt (a : re)                       (* greedy a? *)
  | Cap (n : nat) (a : re)             (* capturing group number n *)
  | WordB                              (* \b, ASCII word boundary *)
  | Bol.                               (* ^ without the m flag *)

Record mstate : Type := MState {
    m_prev : option ascii;             (* the byte before the position *)
    m_pos : nat;
    m_rest : string;
    m_caps : list (nat * (nat * nat))  (* group, start, end; newest first *)
  }.

Definition is_word (c : ascii) : bool :=
  is_digit c || is_letter c || Ascii.eqb c "_"%char.

Definition word_before (st : mstate) : bool :=
  match m_prev st with Some c => is_word c | None => false end.

Definition word_after (st : mstate) : bool :=
  match m_rest st with String c _ => is_word c | EmptyString => false end.

(** Greedy repetition of a class: take one more byte when possible, and
    fall back to stopping here ([ok] tells whether stopping is allowed). *)
Fixpoint rep (p : ascii -> bool) (k : mstate -> option mstate) (ok : bool)
    (prev : option ascii) (pos : nat) (rest : string)
    (caps : list (nat * (nat * nat))) : option mstate :=
  match rest with
  | String c t =>
      if p c then
        match rep p k true (Some c) (S pos) t caps with
        | Some r => Some r
        | None => if ok then k (MState prev pos rest caps) else None
        end
      else if ok then k (MState prev pos rest caps) else None
  | EmptyString => if ok then k (MState prev pos rest caps) else None
  end.

(** Backtracking matcher in continuation-passing style. *)
Fixpoint mt (r : re) (k : mstate -> option mstate) (st : mstate) : option mstate :=
  match r with
  | Eps => k st
  | Cls p =>
      match m_rest st with
      | String c t =>
          if p c then k (MState (Some c) (S (m_pos st)) t (m_caps st)) else None
      | EmptyString => None
      end
  | Cat a b => mt a (mt b k) st
  | Alt a b =>
      match mt a k st with
      | Some r => Some r
      | None => mt b k st
      end
  | Rep one p => rep p k (negb one) (m_prev st) (m_pos st) (m_rest st) (m_caps st)
  | Opt a =>
      match mt a k st with
      | Some r => Some r
      | None => k st
      end
  | Cap n a =>
      mt a (fun st' =>
              k (MState (m_prev st') (m_pos st') (m_rest st')
                   ((n, (m_pos st, m_pos st')) :: m_caps st'))) st
  | WordB => if xorb (word_before st) (word_after st) then k st else None
  | Bol => if (m_pos st =? 0)%nat then k st else None
  end.

(** One match: start, end and the groups. *)
Definition match_loc : Type := (nat * nat * list (nat * (nat * nat)))%type.

Definition match_at (r : re) (prev : option ascii) (pos : nat) (rest : string)
    : option match_loc :=
  match mt r Some (MState prev pos rest []) with
  | Some st => Some (pos, m_pos st, m_caps st)
  | None => None
  end.

(** All successive non-overlapping matches ([allMatches] with n = -1).
    The scan tries every rune start from left to right; [skip] bytes
    are stepped over without an attempt (the inside of the previous
    match or of a rune); an empty match directly after the previous
    match is not delivered. *)
Fixpoint all_from (r : re) (prev : option ascii) (pos : nat) (rest : string)
    (skip : nat) (prevEnd : option nat) : list match_loc :=
  match skip with
  | S j =>
      match rest with
      | String c t => all_from r (Some c) (S pos) t j prevEnd
      | EmptyString => []
      end
  | O =>
      match match_at r prev pos rest with
      | Some (s, e, caps) =>
          let found :=
            if (e =? pos)%nat && (match prevEnd with Some q => (q =? pos)%nat | None => false end)
            then [] else [(s, e, caps)] in
          match rest with
          | String c t =>
              let step := if (e =? pos)%nat then fst (rune_width rest) else (e - pos)%nat in
              (found ++ all_from r (Some c) (S pos) t (step - 1) (Some e))%list
          | EmptyString => found
          end
      | None =>
          match rest with
          | String c t => all_from r (Some c) (S pos) t (fst (rune_width rest) - 1) prevEnd
          | EmptyString => []
          end
      end
  end.

Definition find_all (r : re) (s : string) : list match_loc := all_from r None 0 s 0 None.

(** Number of capturing groups. *)
Fixpoint num_cap (r : re) : nat :=
  match r with
  | Cat a b | Alt a b => Nat.max (num_cap a) (num_cap b)
  | Opt a => num_cap a
  | Cap n a => Nat.max n (num_cap a)
  | _ => 0%nat
  end.

Fixpoint cap_lookup (n : nat) (caps : list (nat * (nat * nat))) : option (nat * nat) :=
  match caps with
  | [] => None
  | (m, se) :: rest => if (m =? n)%nat then Some se else cap_lookup n rest
  end.

(** The text of group [n]; a group that took no part in the match is
    the empty string. *)
Definition group_text (s : string) (caps : list (nat * (nat * nat))) (n : nat) : string :=
  match cap_lookup n caps with
  | Some (b, e) => substring b (e - b) s
  | None => EmptyString
  end.

Definition submatches (r : re) (s : string) (m : match_loc) : list string :=
  let '(b, e, caps) := m in
  substring b (e - b) s :: List.map (group_text s caps) (seq 1 (num_cap r)).

(** [re.MatchString(s)]. *)
Definition MatchString (r : re) (s : string) : bool :=
  match find_all r s with [] => false | _ :: _ => true end.

(** [re.FindAllString(s, -1)]. *)
Definition FindAllString (r : re) (s : string) : list string :=
  List.map (fun '(b, e, _) => substring b (e - b) s) (find_all r s).

(** [re.FindAllStringSubmatch(s, -1)]. *)
Definition FindAllStringSubmatch (r : re) (s : string) : list (list string) :=
  List.map (submatches r s) (find_all r s).

(** *** Building patterns *)

Definition chr (c : ascii) : re := Cls (Ascii.eqb c).

Fixpoint seq_of (l : list re) : re :=
  match l with
  | [] => Eps
  | [a] => a
  | a :: t => Cat a (seq_of t)
  end.

Fixpoint alt_of (l : list re) : re :=
  match l with
  | [] => Eps
  | [a] => a
  | a :: t => Alt a (alt_of t)
  end.

Definition lit (s : string) : re := seq_of (List.map chr (list_ascii_of_string s)).

(** One literal byte under the [i] flag.  Case folding is Unicode simple
    folding: besides the two ASCII cases, k also matches U+212A (Kelvin
    sign) and s also matches U+017F (long s). *)
Definition chr_ci (c : ascii) : re :=
  if is_letter c then
    let both := Cls (fun x => Ascii.eqb (to_lower x) (to_lower c)) in
    if Ascii.eqb (to_lower c) "k"%char then
      Alt both (seq_of [chr "226"%char; chr "132"%char; chr "170"%char])
    else if Ascii.eqb (to_lower c) "s"%char then
      Alt both (seq_of [chr "197"%char; chr "191"%char])
    else both
  else chr c.

Definition lit_ci (s : string) : re := seq_of (List.map chr_ci (list_ascii_of_string s)).

(** [\s]: tab, LF, FF, CR, space. *)
Definition cls_space (c : ascii) : bool :=
  let n := code c in ((n =? 9) || (n =? 10) || (n =? 12) || (n =? 13) || (n =? 32))%N.

End Regexp.

(* ------------------------------------------------------------------ *)
(** ** Effects

    Everything the package does outside the process is an [Event]; its
    type index is the type of the answer.  A program is a tree of events
    ending in a value or in a run-time panic. *)

Module Effects.

(** Result of [cmd.Run()] with both output buffers attached: [cmd_err]
    is [None] when the command ran and exited with status 0, otherwise
    the text of the error. *)
Record CmdResult : Type := {
    cmd_err : option string;
    cmd_stdout : string;
    cmd_stderr : string
  }.

(** A value or the text of a Go [error]. *)
Inductive res (A : Type) : Type :=
  | Ok (a : A)
  | Err (e : string).
Arguments Ok {A} a.
Arguments Err {A} e.

Inductive Event : Type -> Type :=
  | UuidNew : Event string                       (* uuid.New().String() *)
  | TimeNow : Event Z                            (* time.Now() *)
  | LookPath (file : string) : Event (option string)
      (* exec.LookPath: the error, None when the executable was found *)
  | CmdRun (name : string) (args : list string) : Event CmdResult
  | HttpNewRequest (method url : string) : Event (option string)
      (* http.NewRequestWithContext: the error, None when well formed *)
  | HttpDo (method url : string) : Event (res Z)
      (* client.Do: resp.StatusCode, or the transport error (time-out,
         refused connection, more than 10 redirects, ...) *)
  | ReadFile (name : string) : Event (res string)
  | OpenScan (name : string) : Event (res (list string * option string)).
      (* os.Open, then the tokens of successive scanner.Scan() calls and
         the final scanner.Err() *)

Inductive Prog (A : Type) : Type :=
  | Ret (a : A)
  | Panic (msg : string)
  | Vis {X : Type} (e : Event X) (k : X -> Prog A).
Arguments Ret {A} a.
Arguments Panic {A} msg.
Arguments Vis {A X} e k.

Fixpoint bind {A B : Type} (p : Prog A) (f : A -> Prog B) : Prog B :=
  match p with
  | Ret a => f a
  | Panic m => Panic m
  | Vis e k => Vis e (fun x => bind (k x) f)
  end.

Definition call {X : Type} (e : Event X) : Prog X := Vis e Ret.

Notation "x <- p ;; k" := (bind p (fun x => k))
  (at level 20, p at level 99, k at level 200, only parsing).

(** [for _, x := range l { acc = f(acc, x) }] with effects in the body. *)
Fixpoint foldM {A B : Type} (f : A -> B -> Prog A) (l : list B) (acc : A) : Prog A :=
  match l with
  | [] => Ret acc
  | x :: t => bind (f acc x) (foldM f t)
  end.

(** *** Running a program against a world *)

Definition Handler (W : Type) : Type := forall X : Type, Event X -> W -> X * W.

Inductive AnyEvent : Type :=
  | Any {X : Type} (e : Event X).

Inductive Outcome (A : Type) : Type :=
  | Done (a : A)
  | Panicked (msg : string).
Arguments Done {A} a.
Arguments Panicked {A} msg.

Record Run (W A : Type) : Type := MkRun {
    out : Outcome A;
    world : W;
    log : list AnyEvent              (* the events performed, in order *)
  }.
Arguments MkRun {W A} out world log.
Arguments out {W A} r.
Arguments world {W A} r.
Arguments log {W A} r.

Fixpoint run {W A : Type} (h : Handler W) (p : Prog A) (w : W) : Run W A :=
  match p with
  | Ret a => MkRun (Done a) w []
  | Panic m => MkRun (Panicked m) w []
  | Vis e k =>
      let xw := h _ e w in
      let r := run h (k (fst xw)) (snd xw) in
      MkRun (out r) (world r) (Any e :: log r)
  end.

(** [ensures p Q]: whatever the world answers, a value returned by [p]
    satisfies [Q]. *)
Fixpoint ensures {A : Type} (p : Prog A) (Q : A -> Prop) : Prop :=
  match p with
  | Ret a => Q a
  | Panic _ => True
  | Vis e k => forall x, ensures (k x) Q
  end.

(** A world in which an executable is missing: every [LookPath] for it
    fails. *)
Definition missing {W : Type} (h : Handler W) (file : string) : Prop :=
  forall w, fst (h _ (LookPath file) w) <> None.

Definition installed {W : Type} (h : Handler W) (file : string) : Prop :=
  forall w, fst (h _ (LookPath file) w) = None.

End Effects.

(* ------------------------------------------------------------------ *)
(** ** Library functions used through their results only *)

Module Lib.
Import Effects.

(** [llm.ClaimAnalysisResult]. *)
Record ClaimAnalysisResult : Type := {
    NeedsCitation : bool;
    Confidence : string;
    Reason : string;
    SuggestedAction : string
  }.

Class GoLib : Type := {
    (** [strconv.Quote], the [%q] verb. *)
    Quote : string -> string;
    (** [json.Unmarshal] into [struct { Size int }]: the field [Size]. *)
    UnmarshalSize : string -> res Z;
    (** [json.Unmarshal] into [ClaimAnalysisResult]. *)
    UnmarshalAnalysis : string -> res ClaimAnalysisResult
  }.

End Lib.

(* ------------------------------------------------------------------ *)
(** ** Package [llm] (scribe/internal/llm/client.go) *)

Module llm.
Import GoString Effects Lib.

Record Client : Type := {
    provider : string;                 (* the name of the CLI: claude or ollama *)
    model : string
  }.

(** [NewClient]: prefers the claude CLI, falls back to ollama. *)
Definition NewClient : Prog (res Client) :=
  e <- call (LookPath "claude");;
  match e with
  | None => Ret (Ok {| provider := "claude"; model := "" |})
  | Some _ =>
      e' <- call (LookPath "ollama");;
      match e' with
      | None => Ret (Ok {| provider := "ollama"; model := "llama3.2" |})
      | Some _ => Ret (Err "no LLM provider available: install claude CLI or ollama")
      end
  end.

Definition NewClientWithProvider (provider model : string) : Client :=
  {| provider := provider; model := model |}.

Definition IsAvailable : Prog bool :=
  c <- NewClient;;
  Ret (match c with Ok _ => true | Err _ => false end).

Definition completeClaude (c : Client) (prompt : string) : Prog (res string) :=
  r <- call (CmdRun "claude" ["-p"; prompt; "--model"; "claude-haiku-4-20250514"]);;
  match cmd_err r with
  | Some err => Ret (Err ("claude CLI error: " +:+ err +:+ ": " +:+ cmd_stderr r))
  | None => Ret (Ok (TrimSpace (cmd_stdout r)))
  end.

Definition completeOllama (c : Client) (prompt : string) : Prog (res string) :=
  r <- call (CmdRun "ollama" ["run"; model c; prompt]);;
  match cmd_err r with
  | Some err => Ret (Err ("ollama error: " +:+ err +:+ ": " +:+ cmd_stderr r))
  | None => Ret (Ok (TrimSpace (cmd_stdout r)))
  end.

Definition Complete (c : Client) (prompt : string) : Prog (res string) :=
  if String.eqb (provider c) "claude" then completeClaude c prompt
  else if String.eqb (provider c) "ollama" then completeOllama c prompt
  else Ret (Err ("unknown provider: " +:+ provider c)).

(** [extractJSON]: drops a surrounding markdown code fence. *)
Definition extractJSON (s : string) : string :=
  let s := TrimSpace s in
  let unfence (fence : string) :=
    let s := TrimPrefix s fence in
    match Index s "```" with
    | Some idx => substring 0 idx s
    | None => s
    end in
  let s :=
    if HasPrefix s "```json" then unfence "```json"
    else if HasPrefix s "```" then unfence "```"
    else s in
  TrimSpace s.

Section WithLib.
Context `{GoLib}.

(** The prompt of [AnalyzeClaim]; double quotes are written as
    backquotes and restored by [bq]. *)
Definition prompt_of (sentence : string) : string :=
  "Analyze if this sentence from a scientific document is a factual claim that requires a citation.

Sentence: " +:+ Quote sentence +:+ bq "

Respond with JSON only:
{
  `needs_citation`: true/false,
  `confidence`: `high`/`medium`/`low`,
  `reason`: `brief explanation`,
  `suggested_action`: `add citation` or `no action needed` or `review manually`
}

Guidelines:
- Performance comparisons (`X is faster than Y`) NEED citations
- Attribution of discoveries (`discovered by`, `introduced by`) NEED citations
- Quantitative claims (numbers, percentages) NEED citations
- Definitions (`is defined as`) do NOT need citations
- Examples (`for example`, `e.g.`) do NOT need citations
- Transitional prose (`in this section`) does NOT need citations".

Definition AnalyzeClaim (c : Client) (sentence : string)
    : Prog (res ClaimAnalysisResult) :=
  response <- Complete c (prompt_of sentence);;
  match response with
  | Err err => Ret (Err ("LLM analysis failed: " +:+ err))
  | Ok response =>
      match UnmarshalAnalysis (extractJSON response) with
      | Err err => Ret (Err ("parse LLM response: " +:+ err))
      | Ok result => Ret (Ok result)
      end
  end.

End WithLib.

End llm.

(* ------------------------------------------------------------------ *)
(** ** Package [verify] *)

Module verify.
Import GoString Regexp Effects Lib.

(** *** types.go *)

(** [CheckType] and [CheckStatus] are string types with named
    constants; any string is a value of them. *)
Definition CheckTypeCitation : string := "citation".
Definition CheckTypeURL : string := "url".
Definition CheckTypeCodeLink : string := "code-link".
Definition CheckTypeClaim : string := "claim".
Definition CheckTypeTodoMarker : string := "todo-marker".

Definition CheckStatusPass : string := "pass".
Definition CheckStatusFail : string := "fail".
Definition CheckStatusWarn : string := "warn".

Record VerificationTarget : Type := {
    File : string;
    Line : Z;
    Text : string
  }.

Record CitationDetails : Type := {
    PaperID : string;
    Resolved : bool
  }.

Record URLDetails : Type := {
    Url : string;                      (* field URL *)
    HTTPStatus : option Z;
    Error : option string
  }.

Record CodeLinkDetails : Type := {
    Permalink : string;
    FileExists : bool;
    LineRangeValid : bool
  }.

Record ClaimDetails : Type := {
    ClaimText : string;
    Confidence : string;
    SuggestedAction : string
  }.

Record VerificationDetails : Type := {
    Citation : option CitationDetails;
    URL : option URLDetails;
    CodeLink : option CodeLinkDetails;
    Claim : option ClaimDetails
  }.

Definition noDetails : VerificationDetails :=
  {| Citation := None; URL := None; CodeLink := None; Claim := None |}.

Record VerificationResult : Type := {
    CheckID : string;
    CheckType : string;
    Target : VerificationTarget;
    Status : string;
    Message : string;
    Details : VerificationDetails;
    CheckedAt : Z
  }.

Record ReportSummary : Type := {
    TotalChecks : Z;
    Passed : Z;
    Failed : Z;
    Warnings : Z
  }.

Record VerificationReport : Type := {
    ReportID : string;
    GeneratedAt : Z;
    ContentFiles : list string;
    Summary : ReportSummary;
    Results : list VerificationResult;
    ExitCode : Z
  }.

(** *** The patterns *)

Definition cls_cite (c : ascii) : bool :=
  is_letter c || is_digit c || Ascii.eqb c "_"%char || Ascii.eqb c "-"%char.
Definition cls_hex (c : ascii) : bool := in_range 97 102 c || is_digit c.
Definition cls_not (x : ascii) (c : ascii) : bool := negb (Ascii.eqb c x).
Definition cls_url (c : ascii) : bool :=
  negb (cls_space c || Ascii.eqb c ")"%char || Ascii.eqb c "]"%char || Ascii.eqb c ">"%char).

(** [@paper:([a-zA-Z0-9_-]+)] *)
Definition citationPattern : re :=
  Cat (lit "@paper:") (Cap 1 (Rep true cls_cite)).

(** [https?://[^\s\)\]>]+] *)
Definition urlPattern : re :=
  seq_of [lit "http"; Opt (chr "s"); lit "://"; Rep true cls_url].

(** [https://github\.com/([^/]+)/([^/]+)/blob/([a-f0-9]+)/([^#]+)#L(\d+)(?:-L(\d+))?] *)
Definition githubPermalinkPattern : re :=
  seq_of [lit "https://github.com/";
          Cap 1 (Rep true (cls_not "/")); chr "/";
          Cap 2 (Rep true (cls_not "/")); lit "/blob/";
          Cap 3 (Rep true cls_hex); chr "/";
          Cap 4 (Rep true (cls_not "#")); lit "#L";
          Cap 5 (Rep true is_digit);
          Opt (Cat (lit "-L") (Cap 6 (Rep true is_digit)))].

(** [(?i)\b(TODO|FIXME|XXX|HACK)\b:?\s*] *)
Definition todoMarkerPattern : re :=
  seq_of [WordB;
          Cap 1 (alt_of [lit_ci "TODO"; lit_ci "FIXME"; lit_ci "XXX"; lit_ci "HACK"]);
          WordB; Opt (chr ":"); Rep false cls_space].

Definition sp : re := Rep true cls_space.          (* \s+ *)
Definition digits : re := Rep true is_digit.       (* \d+ *)

Definition mustCitePatterns : list re := [
    (* (?i)\b(\d+%|\d+x|faster|slower|better|worse)\s+(than|compared to) *)
    seq_of [WordB;
            Cap 1 (alt_of [Cat digits (chr "%"); Cat digits (chr_ci "x");
                           lit_ci "faster"; lit_ci "slower"; lit_ci "better"; lit_ci "worse"]);
            sp; Cap 2 (alt_of [lit_ci "than"; lit_ci "compared to"])];
    (* (?i)\b(discovered|introduced|invented|developed)\s+by *)
    seq_of [WordB;
            Cap 1 (alt_of [lit_ci "discovered"; lit_ci "introduced"; lit_ci "invented";
                           lit_ci "developed"]);
            sp; lit_ci "by"];
    (* (?i)\b(as shown|as described|according to|as demonstrated)\s+(in|by) *)
    seq_of [WordB;
            Cap 1 (alt_of [lit_ci "as shown"; lit_ci "as described"; lit_ci "according to";
                           lit_ci "as demonstrated"]);
            sp; Cap 2 (alt_of [lit_ci "in"; lit_ci "by"])];
    (* (?i)\bstudies\s+(have\s+)?(shown|demonstrated|found|revealed) *)
    seq_of [WordB; lit_ci "studies"; sp;
            Opt (Cap 1 (Cat (lit_ci "have") sp));
            Cap 2 (alt_of [lit_ci "shown"; lit_ci "demonstrated"; lit_ci "found";
                           lit_ci "revealed"])]
  ].

Definition shouldCitePatterns : list re := [
    (* (?i)\b(causes?|leads?\s+to|results?\s+in)\b *)
    seq_of [WordB;
            Cap 1 (alt_of [Cat (lit_ci "cause") (Opt (chr_ci "s"));
                           seq_of [lit_ci "lead"; Opt (chr_ci "s"); sp; lit_ci "to"];
                           seq_of [lit_ci "result"; Opt (chr_ci "s"); sp; lit_ci "in"]]);
            WordB];
    (* (?i)\b(O\(n|O\(log|complexity\s+of) *)
    seq_of [WordB;
            Cap 1 (alt_of [lit_ci "O(n"; lit_ci "O(log";
                           seq_of [lit_ci "complexity"; sp; lit_ci "of"]])];
    (* (?i)\b(historically|traditionally|originally)\b *)
    seq_of [WordB;
            Cap 1 (alt_of [lit_ci "historically"; lit_ci "traditionally"; lit_ci "originally"]);
            WordB]
  ].

Definition exemptPatterns : list re := [
    (* (?i)\b(is\s+defined\s+as|refers?\s+to|means?)\b *)
    seq_of [WordB;
            Cap 1 (alt_of [seq_of [lit_ci "is"; sp; lit_ci "defined"; sp; lit_ci "as"];
                           seq_of [lit_ci "refer"; Opt (chr_ci "s"); sp; lit_ci "to"];
                           Cat (lit_ci "mean") (Opt (chr_ci "s"))]);
            WordB];
    (* (?i)\b(for\s+example|e\.g\.|such\s+as|i\.e\.)\b *)
    seq_of [WordB;
            Cap 1 (alt_of [seq_of [lit_ci "for"; sp; lit_ci "example"];
                           lit_ci "e.g.";
                           seq_of [lit_ci "such"; sp; lit_ci "as"];
                           lit_ci "i.e."]);
            WordB];
    (* (?i)\b(in\s+this\s+(section|chapter)|we\s+now|let\s+us)\b *)
    seq_of [WordB;
            Cap 1 (alt_of [seq_of [lit_ci "in"; sp; lit_ci "this"; sp;
                                   Cap 2 (alt_of [lit_ci "section"; lit_ci "chapter"])];
                           seq_of [lit_ci "we"; sp; lit_ci "now"];
                           seq_of [lit_ci "let"; sp; lit_ci "us"]]);
            WordB];
    (* ^``` *)
    Cat Bol (lit "```")
  ].

(** *** Extractors *)

(** [m[i]] of a submatch slice; the pattern fixes the length, so the
    default is never used behind the length tests of the callers. *)
Definition at_ (m : list string) (i : nat) : string := nth i m EmptyString.

(** citations.go *)
Definition ExtractCitations (content : string) : list string :=
  let matches := FindAllStringSubmatch citationPattern content in
  snd (fold_left
         (fun '(seen, citations) m =>
            if (1 <? Z.of_nat (length m))%Z && negb (default false ((seen : gmap string bool) !! at_ m 1))
            then (<[at_ m 1 := true]> seen, (citations ++ [at_ m 1])%list)
            else (seen, citations))
         matches (∅, [])).

(** urls.go *)
Definition ExtractURLs (content : string) : list string :=
  FindAllString urlPattern content.

Definition ExtractTodoMarkers (content : string) : list string :=
  FindAllString todoMarkerPattern content.

(** codelinks.go *)
Record CodeLinkMatch : Type := {
    FullURL : string;
    Owner : string;
    Repo : string;
    CommitSHA : string;
    FilePath : string;
    StartLine : Z;
    EndLine : Z
  }.

Definition ExtractCodeLinks (content : string) : list CodeLinkMatch :=
  let matches := FindAllStringSubmatch githubPermalinkPattern content in
  fold_left
    (fun links m =>
       if (Z.of_nat (length m) <? 6)%Z then links
       else
         let startLine := Atoi (at_ m 5) in
         let endLine :=
           if (6 <? Z.of_nat (length m))%Z && negb (String.eqb (at_ m 6) "")
           then Atoi (at_ m 6) else startLine in
         (links ++ [{| FullURL := at_ m 0; Owner := at_ m 1; Repo := at_ m 2;
                       CommitSHA := at_ m 3; FilePath := at_ m 4;
                       StartLine := startLine; EndLine := endLine |}])%list)
    matches [].

(** *** Verifiers *)

(** The part every verifier starts with: a result carrying a fresh
    identifier, the check type, the target and the time, with status,
    message and details still at their zero values. *)
Definition newResult (checkType file : string) (line : Z) (text : string)
    : Prog VerificationResult :=
  id <- call UuidNew;;
  now <- call TimeNow;;
  Ret {| CheckID := id; CheckType := checkType;
         Target := {| File := file; Line := line; Text := text |};
         Status := ""; Message := ""; Details := noDetails; CheckedAt := now |}.

(** Assignment of [result.Status], [result.Message], [result.Details]. *)
Definition conclude (r : VerificationResult) (status message : string)
    (details : VerificationDetails) : VerificationResult :=
  {| CheckID := CheckID r; CheckType := CheckType r; Target := Target r;
     Status := status; Message := message; Details := details;
     CheckedAt := CheckedAt r |}.

Definition VerifyTodoMarker (marker file : string) (line : Z) (text : string)
    : Prog VerificationResult :=
  r <- newResult CheckTypeTodoMarker file line text;;
  Ret (conclude r CheckStatusFail "TODO/FIXME marker found - remove before publishing"
         noDetails).

Definition AnalyzeClaimWithHeuristics (sentence : string) : bool * string * string :=
  let sentence := TrimSpace sentence in
  if existsb (fun p => MatchString p sentence) exemptPatterns then
    (false, "high", "Sentence is a definition, example, or transitional prose")
  else if existsb (fun p => MatchString p sentence) mustCitePatterns then
    (true, "high", "Sentence contains comparison, attribution, or cites prior work")
  else if existsb (fun p => MatchString p sentence) shouldCitePatterns then
    (true, "medium", "Sentence contains causal claim or complexity statement")
  else (false, "low", "No citation-requiring patterns detected").

Section WithLib.
Context `{GoLib}.

(** citations.go *)
Definition lookupPaperInBipartite (paperID : string) : Prog (res bool) :=
  e <- call (LookPath "bip");;
  match e with
  | Some err => Ret (Err ("bip CLI not found: " +:+ err))
  | None =>
      r <- call (CmdRun "bip" ["s2"; "get"; paperID]);;
      match cmd_err r with
      | Some _ =>
          let stderrStr := cmd_stderr r in
          if Contains stderrStr "not found" || Contains stderrStr "no such"
          then Ret (Ok false)
          else Ret (Err ("bip lookup failed: " +:+ stderrStr))
      | None => Ret (Ok true)
      end
  end.

Definition citationDetails (paperID : string) (resolved : bool) : VerificationDetails :=
  {| Citation := Some {| PaperID := paperID; Resolved := resolved |};
     URL := None; CodeLink := None; Claim := None |}.

Definition VerifyCitation (paperID file : string) (line : Z) (text : string)
    : Prog VerificationResult :=
  r <- newResult CheckTypeCitation file line text;;
  l <- lookupPaperInBipartite paperID;;
  match l with
  | Err err =>
      Ret (conclude r CheckStatusFail
             ("Failed to verify paper ID " +:+ Quote paperID +:+ ": " +:+ err)
             (citationDetails paperID false))
  | Ok resolved =>
      if resolved then
        Ret (conclude r CheckStatusPass
               ("Paper ID " +:+ Quote paperID +:+ " resolved successfully")
               (citationDetails paperID resolved))
      else
        Ret (conclude r CheckStatusFail
               ("Paper ID " +:+ Quote paperID +:+ " not found in bipartite")
               (citationDetails paperID resolved))
  end.

(** urls.go *)
Definition urlDetails (url : string) (status : option Z) (err : option string)
    : VerificationDetails :=
  {| Citation := None;
     URL := Some {| Url := url; HTTPStatus := status; Error := err |};
     CodeLink := None; Claim := None |}.

Definition VerifyURL (url file : string) (line : Z) (text : string)
    : Prog VerificationResult :=
  r <- newResult CheckTypeURL file line text;;
  e <- call (HttpNewRequest "HEAD" url);;
  match e with
  | Some err =>
      Ret (conclude r CheckStatusFail
             ("Invalid URL " +:+ Quote url +:+ ": " +:+ err)
             (urlDetails url None (Some err)))
  | None =>
      first <- call (HttpDo "HEAD" url);;
      (* some servers do not support HEAD: one retry with GET; the GET
         request is built from the url whose HEAD request was well formed,
         and the source discards its error *)
      resp <- match first with
             | Ok code => Ret (Ok code)
             | Err _ => call (HttpDo "GET" url)
             end;;
      match resp with
      | Err err =>
          Ret (conclude r CheckStatusFail
                 ("URL " +:+ Quote url +:+ " is not accessible: " +:+ err)
                 (urlDetails url None (Some err)))
      | Ok statusCode =>
          if (200 <=? statusCode)%Z && (statusCode <? 400)%Z then
            Ret (conclude r CheckStatusPass
                   ("URL " +:+ Quote url +:+ " is accessible (HTTP "
                      +:+ Itoa statusCode +:+ ")")
                   (urlDetails url (Some statusCode) None))
          else if (400 <=? statusCode)%Z && (statusCode <? 500)%Z then
            Ret (conclude r CheckStatusFail
                   ("URL " +:+ Quote url +:+ " returned client error (HTTP "
                      +:+ Itoa statusCode +:+ ")")
                   (urlDetails url (Some statusCode) None))
          else
            Ret (conclude r CheckStatusWarn
                   ("URL " +:+ Quote url +:+ " returned unexpected status (HTTP "
                      +:+ Itoa statusCode +:+ ")")
                   (urlDetails url (Some statusCode) None))
      end
  end.

(** codelinks.go, the version with [estimatedCharsPerLine] *)
Definition estimatedCharsPerLine : Z := 30.

Definition codeLinkDetails (permalink : string) (fileExists lineRangeValid : bool)
    : VerificationDetails :=
  {| Citation := None; URL := None;
     CodeLink := Some {| Permalink := permalink; FileExists := fileExists;
                         LineRangeValid := lineRangeValid |};
     Claim := None |}.

Definition apiPath (owner repo sha filePath : string) : string :=
  "repos/" +:+ owner +:+ "/" +:+ repo +:+ "/contents/" +:+ filePath +:+ "?ref=" +:+ sha.

(** Returns exists, lineCount, isEstimated. *)
Definition checkFileExistsAtCommit (owner repo sha filePath : string)
    : Prog (res (bool * Z * bool)) :=
  r <- call (CmdRun "gh" ["api"; apiPath owner repo sha filePath]);;
  match cmd_err r with
  | Some _ =>
      if Contains (cmd_stderr r) "404" || Contains (cmd_stderr r) "Not Found"
      then Ret (Ok (false, 0%Z, false))
      else Ret (Err ("gh api error: " +:+ cmd_stderr r))
  | None =>
      match UnmarshalSize (cmd_stdout r) with
      | Err err => Ret (Err ("parse response: " +:+ err))
      | Ok size =>
          let estimatedLines := (size ÷ estimatedCharsPerLine)%Z in
          let estimatedLines := if (estimatedLines <? 1)%Z then 1%Z else estimatedLines in
          (* always marked as estimated *)
          Ret (Ok (true, estimatedLines, true))
      end
  end.

Definition VerifyCodeLink (link : CodeLinkMatch) (file : string) (line : Z)
    (text : string) : Prog VerificationResult :=
  r <- newResult CheckTypeCodeLink file line text;;
  e <- call (LookPath "gh");;
  match e with
  | Some _ =>
      Ret (conclude r CheckStatusWarn
             ("Cannot verify code link " +:+ Quote (FullURL link) +:+ ": gh CLI not found")
             (codeLinkDetails (FullURL link) false false))
  | None =>
      c <- checkFileExistsAtCommit (Owner link) (Repo link) (CommitSHA link) (FilePath link);;
      match c with
      | Err err =>
          Ret (conclude r CheckStatusFail
                 ("Failed to verify code link " +:+ Quote (FullURL link) +:+ ": " +:+ err)
                 (codeLinkDetails (FullURL link) false false))
      | Ok (fileExists, estimatedLineCount, isEstimated) =>
          let lineRangeSkipped := fileExists && isEstimated in
          let lineRangeValid :=
            fileExists && negb isEstimated && (0 <? estimatedLineCount)%Z
            && (StartLine link <=? estimatedLineCount)%Z
            && (EndLine link <=? estimatedLineCount)%Z in
          if negb fileExists then
            match slice_to (CommitSHA link) 8 with
            | None => Panic "runtime error: slice bounds out of range"
            | Some sha8 =>
                Ret (conclude r CheckStatusFail
                       ("File " +:+ Quote (FilePath link)
                          +:+ " does not exist at commit " +:+ sha8)
                       (codeLinkDetails (FullURL link) fileExists lineRangeValid))
            end
          else if lineRangeSkipped then
            Ret (conclude r CheckStatusWarn
                   ("Code link " +:+ Quote (FullURL link)
                      +:+ ": file exists but line range L" +:+ Itoa (StartLine link)
                      +:+ "-L" +:+ Itoa (EndLine link)
                      +:+ " could not be verified (line count estimated)")
                   (codeLinkDetails (FullURL link) fileExists true))
          else if negb lineRangeValid then
            Ret (conclude r CheckStatusFail
                   ("Line range L" +:+ Itoa (StartLine link) +:+ "-L"
                      +:+ Itoa (EndLine link) +:+ " exceeds file length ("
                      +:+ Itoa estimatedLineCount +:+ " lines)")
                   (codeLinkDetails (FullURL link) fileExists lineRangeValid))
          else
            Ret (conclude r CheckStatusPass
                   ("Code link " +:+ Quote (FullURL link) +:+ " is valid")
                   (codeLinkDetails (FullURL link) fileExists lineRangeValid))
      end
  end.

(** claims.go *)
Definition claimDetails (claimText confidence suggestedAction : string)
    : VerificationDetails :=
  {| Citation := None; URL := None; CodeLink := None;
     Claim := Some {| ClaimText := claimText; Confidence := confidence;
                      SuggestedAction := suggestedAction |} |}.

Definition VerifyClaim (sentence file : string) (line : Z)
    (hasCitation useLLM : bool) : Prog VerificationResult :=
  r <- newResult CheckTypeClaim file line sentence;;
  if hasCitation then
    Ret (conclude r CheckStatusPass "Claim has citation"
           (claimDetails sentence "high" "no action needed"))
  else
    let heuristics := AnalyzeClaimWithHeuristics sentence in
    let confidence := snd (fst heuristics) in
    (* confidence == "low" && useLLM && llm.IsAvailable() *)
    verdict <-
      (if String.eqb confidence "low" && useLLM then
         available <- llm.IsAvailable;;
         if available then
           client <- llm.NewClient;;
           match client with
           | Err _ => Ret heuristics
           | Ok client =>
               analysis <- llm.AnalyzeClaim client sentence;;
               match analysis with
               | Err _ => Ret heuristics
               | Ok analysis =>
                   Ret (Lib.NeedsCitation analysis, Lib.Confidence analysis,
                        Lib.Reason analysis)
               end
           end
         else Ret heuristics
       else Ret heuristics);;
    let '(needsCitation, confidence, reason) := verdict in
    if needsCitation then
      Ret (conclude r CheckStatusFail "Uncited factual claim detected"
             (claimDetails sentence confidence "add citation"))
    else
      Ret (conclude r CheckStatusPass reason
             (claimDetails sentence confidence "no action needed")).

(** *** report.go *)

Record ReportBuilder : Type := {
    files : list string;
    results : list VerificationResult
  }.

Definition NewReportBuilder : ReportBuilder := {| files := []; results := [] |}.

Definition AddFile (b : ReportBuilder) (file : string) : ReportBuilder :=
  {| files := (files b ++ [file])%list; results := results b |}.

Definition AddResult (b : ReportBuilder) (result : VerificationResult) : ReportBuilder :=
  {| files := files b; results := (results b ++ [result])%list |}.

(** One turn of the [switch r.Status] loop of [Build]. *)
Definition tally (summary : ReportSummary) (r : VerificationResult) : ReportSummary :=
  if String.eqb (Status r) CheckStatusPass then
    {| TotalChecks := TotalChecks summary; Passed := (Passed summary + 1)%Z;
       Failed := Failed summary; Warnings := Warnings summary |}
  else if String.eqb (Status r) CheckStatusFail then
    {| TotalChecks := TotalChecks summary; Passed := Passed summary;
       Failed := (Failed summary + 1)%Z; Warnings := Warnings summary |}
  else if String.eqb (Status r) CheckStatusWarn then
    {| TotalChecks := TotalChecks summary; Passed := Passed summary;
       Failed := Failed summary; Warnings := (Warnings summary + 1)%Z |}
  else summary.

Definition Build (b : ReportBuilder) : Prog VerificationReport :=
  let summary :=
    {| TotalChecks := Z.of_nat (length (results b));
       Passed := 0; Failed := 0; Warnings := 0 |} in
  let summary := fold_left tally (results b) summary in
  let exitCode := if (0 <? Failed summary)%Z then 1%Z else 0%Z in
  id <- call UuidNew;;
  now <- call TimeNow;;
  Ret {| ReportID := id; GeneratedAt := now; ContentFiles := files b;
         Summary := summary; Results := results b; ExitCode := exitCode |}.

(** *** verify.go *)

Record Options : Type := { UseLLM : bool }.

Definition DefaultOptions : Options := {| UseLLM := true |}.

(** The 1-based number of the first line containing [substr], or 0. *)
Fixpoint findLineNumber_from (i : Z) (lines : list string) (substr : string) : Z :=
  match lines with
  | [] => 0%Z
  | line :: rest =>
      if Contains line substr then (i + 1)%Z
      else findLineNumber_from (i + 1) rest substr
  end.

Definition findLineNumber (lines : list string) (substr : string) : Z :=
  findLineNumber_from 0 lines substr.

Definition is_terminal (r : string) : bool :=
  String.eqb r "." || String.eqb r "?" || String.eqb r "!".

Definition splitSentences (text : string) : list string :=
  let '(sentences, current) :=
    fold_left
      (fun '(sentences, current) r =>
         let current := current +:+ r in
         if is_terminal r then
           let s := TrimSpace current in
           ((if (0 <? len s)%Z then sentences ++ [s] else sentences)%list, "")
         else (sentences, current))
      (runes text) ([], "") in
  let s := TrimSpace current in
  if (0 <? len s)%Z then (sentences ++ [s])%list else sentences.

(** [lines[lineNum-1]] behind the guard
    [lineNum > 0 && lineNum <= len(lines)]. *)
Definition lineText (lines : list string) (lineNum : Z) : string :=
  if (0 <? lineNum)%Z && (lineNum <=? Z.of_nat (length lines))%Z
  then nth (Z.to_nat (lineNum - 1)) lines ""
  else "".

(** The value of [hasCitation] in the claim loop of [VerifyFile]. *)
Definition hasCitation (lines : list string) (lineNum : Z) (sentence : string) : bool :=
  MatchString citationPattern sentence
  || ((0 <? lineNum)%Z && (lineNum <=? Z.of_nat (length lines))%Z
      && MatchString citationPattern (nth (Z.to_nat (lineNum - 1)) lines "")).

(** Lines the claim loop does not look at: front matter, code fences,
    headers and blank lines. *)
Definition skipped (line : string) : bool :=
  HasPrefix line "---" || HasPrefix line "```" || HasPrefix line "#"
  || String.eqb (TrimSpace line) "".

Definition VerifyFile (filePath : string) (opts : Options)
    : Prog (res (list VerificationResult)) :=
  content <- call (ReadFile filePath);;
  match content with
  | Err err => Ret (Err err)
  | Ok contentStr =>
      scanned <- call (OpenScan filePath);;
      match scanned with
      | Err err => Ret (Err err)
      | Ok (lines, scanErr) =>
          (* TODO markers, line by line while scanning *)
          results <-
            foldM (fun results '(i, line) =>
                     let lineNum := (Z.of_nat i + 1)%Z in
                     if MatchString todoMarkerPattern line then
                       foldM (fun results marker =>
                                r <- VerifyTodoMarker marker filePath lineNum line;;
                                Ret (results ++ [r])%list)
                             (FindAllString todoMarkerPattern line) results
                     else Ret results)
                  (combine (seq 0 (length lines)) lines) [];;
          match scanErr with
          | Some err => Ret (Err err)
          | None =>
              (* citations of the whole content *)
              results <-
                foldM (fun results citation =>
                         let lineNum := findLineNumber lines ("@paper:" +:+ citation) in
                         r <- VerifyCitation citation filePath lineNum
                                (lineText lines lineNum);;
                         Ret (results ++ [r])%list)
                      (ExtractCitations contentStr) results;;
              (* URLs; GitHub blob URLs are left to the code link checker *)
              results <-
                foldM (fun results url =>
                         if Contains url "github.com" && Contains url "/blob/"
                         then Ret results
                         else
                           let lineNum := findLineNumber lines url in
                           r <- VerifyURL url filePath lineNum (lineText lines lineNum);;
                           Ret (results ++ [r])%list)
                      (ExtractURLs contentStr) results;;
              (* code links *)
              results <-
                foldM (fun results link =>
                         let lineNum := findLineNumber lines (FullURL link) in
                         r <- VerifyCodeLink link filePath lineNum
                                (lineText lines lineNum);;
                         Ret (results ++ [r])%list)
                      (ExtractCodeLinks contentStr) results;;
              (* uncited claims, sentence by sentence *)
              results <-
                foldM (fun results '(i, line) =>
                         let lineNum := (Z.of_nat i + 1)%Z in
                         if skipped line then Ret results
                         else
                           foldM (fun results sentence =>
                                    let sentence := TrimSpace sentence in
                                    if (len sentence <? 20)%Z then Ret results
                                    else
                                      r <- VerifyClaim sentence filePath lineNum
                                             (hasCitation lines lineNum sentence)
                                             (UseLLM opts);;
                                      (* only failed claim checks are added *)
                                      if String.eqb (Status r) CheckStatusFail
                                      then Ret (results ++ [r])%list
                                      else Ret results)
                                 (splitSentences line) results)
                      (combine (seq 0 (length lines)) lines) results;;
              Ret (Ok results)
          end
      end
  end.

Definition fileErrorResult (file err : string) : VerificationResult :=
  {| CheckID := ""; CheckType := CheckTypeCitation;
     Target := {| File := file; Line := 0; Text := "" |};
     Status := CheckStatusFail; Message := err; Details := noDetails;
     CheckedAt := 0 |}.

Definition VerifyFiles (files : list string) (opts : Options) : Prog VerificationReport :=
  builder <-
    foldM (fun builder file =>
             let builder := AddFile builder file in
             outcome <- VerifyFile file opts;;
             match outcome with
             | Err err => Ret (AddResult builder (fileErrorResult file err))
             | Ok results => Ret (fold_left AddResult results builder)
             end)
          files NewReportBuilder;;
  Build builder.

End WithLib.

(** *** codelinks.go as it stood before [estimatedCharsPerLine]

    The earlier text of the same file: the line count is the same
    estimate, but it is compared with the line range as if it were
    exact. *)
Module strict.
Section WithLib.
Context `{GoLib}.

(** Returns exists, lineCount. *)
Definition checkFileAtCommit (owner repo sha filePath : string)
    : Prog (res (bool * Z)) :=
  r <- call (CmdRun "gh" ["api"; apiPath owner repo sha filePath]);;
  match cmd_err r with
  | Some _ =>
      if Contains (cmd_stderr r) "404" || Contains (cmd_stderr r) "Not Found"
      then Ret (Ok (false, 0%Z))
      else Ret (Err ("gh api error: " +:+ cmd_stderr r))
  | None =>
      match UnmarshalSize (cmd_stdout r) with
      | Err err => Ret (Err ("parse response: " +:+ err))
      | Ok size =>
          let estimatedLines := (size ÷ 30)%Z in
          let estimatedLines := if (estimatedLines <? 1)%Z then 1%Z else estimatedLines in
          Ret (Ok (true, estimatedLines))
      end
  end.

Definition VerifyCodeLink (link : CodeLinkMatch) (file : string) (line : Z)
    (text : string) : Prog VerificationResult :=
  r <- newResult CheckTypeCodeLink file line text;;
  e <- call (LookPath "gh");;
  match e with
  | Some _ =>
      Ret (conclude r CheckStatusWarn
             ("Cannot verify code link " +:+ Quote (FullURL link)
                +:+ ": gh CLI not found")
             (codeLinkDetails (FullURL link) false false))
  | None =>
      c <- checkFileAtCommit (Owner link) (Repo link) (CommitSHA link) (FilePath link);;
      match c with
      | Err err =>
          Ret (conclude r CheckStatusFail
                 ("Failed to verify code link " +:+ Quote (FullURL link) +:+ ": " +:+ err)
                 (codeLinkDetails (FullURL link) false false))
      | Ok (fileExists, lineCount) =>
          let lineRangeValid :=
            fileExists && (0 <? lineCount)%Z
            && (StartLine link <=? lineCount)%Z && (EndLine link <=? lineCount)%Z in
          if fileExists && lineRangeValid then
            Ret (conclude r CheckStatusPass
                   ("Code link " +:+ Quote (FullURL link) +:+ " is valid")
                   (codeLinkDetails (FullURL link) fileExists lineRangeValid))
          else if negb fileExists then
            match slice_to (CommitSHA link) 8 with
            | None => Panic "runtime error: slice bounds out of range"
            | Some sha8 =>
                Ret (conclude r CheckStatusFail
                       ("File " +:+ Quote (FilePath link)
                          +:+ " does not exist at commit " +:+ sha8)
                       (codeLinkDetails (FullURL link) fileExists lineRangeValid))
            end
          else
            Ret (conclude r CheckStatusFail
                   ("Line range L" +:+ Itoa (StartLine link) +:+ "-L"
                      +:+ Itoa (EndLine link) +:+ " exceeds file length ("
                      +:+ Itoa lineCount +:+ " lines)")
                   (codeLinkDetails (FullURL link) fileExists lineRangeValid))
      end
  end.

End WithLib.
End strict.

End verify.

(* ------------------------------------------------------------------ *)
(** ** Words of the specification, and a sample world *)

Module Spec.
Import GoString Regexp Effects Lib verify.

(** The number of results with a given status. *)
Definition count_status (status : string) (rs : list VerificationResult) : Z :=
  Z.of_nat (length (List.filter (fun r => String.eqb (Status r) status) rs)).

(** A result list without its warnings. *)
Definition without_warnings (rs : list VerificationResult) : list VerificationResult :=
  List.filter (fun r => negb (String.eqb (Status r) CheckStatusWarn)) rs.

(** "De-duplicates by token while preserving first-seen order": every
    token stays at its first occurrence, later occurrences go. *)
Definition first_seen (tokens : list string) : list string :=
  fold_right (fun x rest => x :: List.filter (fun y => negb (String.eqb y x)) rest) [] tokens.

(** The citation tokens of a text, one per marker, in text order. *)
Definition citation_tokens (content : string) : list string :=
  List.map (fun m => at_ m 1) (FindAllStringSubmatch citationPattern content).

(** The text [needle] occurs in [s]. *)
Definition embeds (s needle : string) : Prop :=
  exists before after, s = before +:+ needle +:+ after.

(** An event that consults the LLM oracle: looking for one of its
    command lines, or running one. *)
Definition is_llm_event (e : AnyEvent) : bool :=
  match e with
  | Any (LookPath f) => String.eqb f "claude" || String.eqb f "ollama"
  | Any (CmdRun n _) => String.eqb n "claude" || String.eqb n "ollama"
  | Any _ => false
  end.

(** The file-metadata call for a link says "no such file". *)
Definition reports_absent {W : Type} (h : Handler W) (link : CodeLinkMatch) : Prop :=
  forall w,
    let r := fst (h _ (CmdRun "gh" ["api"; apiPath (Owner link) (Repo link)
                                             (CommitSHA link) (FilePath link)]) w) in
    cmd_err r <> None
    /\ Contains (cmd_stderr r) "404" || Contains (cmd_stderr r) "Not Found" = true.

(** The file-metadata call for a link succeeds and carries a size. *)
Definition reports_present `{GoLib} {W : Type} (h : Handler W) (link : CodeLinkMatch) : Prop :=
  forall w,
    let r := fst (h _ (CmdRun "gh" ["api"; apiPath (Owner link) (Repo link)
                                             (CommitSHA link) (FilePath link)]) w) in
    cmd_err r = None /\ exists size, UnmarshalSize (cmd_stdout r) = Ok size.

(** The probe of [url] obtains a response with status [code]: from the
    HEAD request, or from the GET request after a failed HEAD. *)
Definition responds {W : Type} (h : Handler W) (url : string) (code : Z) : Prop :=
  (forall w, fst (h _ (HttpNewRequest "HEAD" url) w) = None)
  /\ forall w,
       fst (h _ (HttpDo "HEAD" url) w) = Ok code
       \/ ((exists e, fst (h _ (HttpDo "HEAD" url) w) = Err e)
           /\ forall w', fst (h _ (HttpDo "GET" url) w') = Ok code).

Definition inb (x : string) (l : list string) : bool := existsb (String.eqb x) l.

(** The loop of [ExtractCitations] on the tokens themselves. *)
Definition step (st : gmap string bool * list string) (t : string)
    : gmap string bool * list string :=
  if negb (default false (st.1 !! t)) then (<[t := true]> st.1, (st.2 ++ [t])%list) else st.

Definition agrees (seen : gmap string bool) (acc : list string) : Prop :=
  forall x, default false (seen !! x) = inb x acc.

(** The loop of [ExtractCodeLinks] appends one link per submatch slice
    of at least six entries. *)
Definition linkOf (m : list string) : CodeLinkMatch :=
  {| FullURL := at_ m 0; Owner := at_ m 1; Repo := at_ m 2;
     CommitSHA := at_ m 3; FilePath := at_ m 4;
     StartLine := Atoi (at_ m 5);
     EndLine := if (6 <? Z.of_nat (length m))%Z && negb (String.eqb (at_ m 6) "")
                then Atoi (at_ m 6) else Atoi (at_ m 5) |}.

(** No passing or warning claim check: every result of type claim has
    status fail. *)
Definition claims_failed (rs : list VerificationResult) : Prop :=
  List.Forall (fun r => CheckType r = CheckTypeClaim -> Status r = CheckStatusFail) rs.

Section Start.
Context {W : Type} (h : Handler W).

(** The two answers every verifier asks for first, and the world after
    them. *)
Definition uuid_at (w : W) : string := (h _ UuidNew w).1.
Definition after_uuid (w : W) : W := (h _ UuidNew w).2.
Definition time_at (w : W) : Z := (h _ TimeNow (after_uuid w)).1.
Definition started (w : W) : W := (h _ TimeNow (after_uuid w)).2.

Definition fresh (checkType file : string) (line : Z) (text : string) (w : W)
    : VerificationResult :=
  {| CheckID := uuid_at w; CheckType := checkType;
     Target := {| File := file; Line := line; Text := text |};
     Status := ""; Message := ""; Details := noDetails; CheckedAt := time_at w |}.

End Start.

Arguments uuid_at {W} h w : simpl never.
Arguments time_at {W} h w : simpl never.
Arguments started {W} h w : simpl never.
Arguments fresh {W} h checkType file line text w : simpl never.

End Spec.

Module Sample.
Import GoString Regexp Effects Lib verify.

(** [bufio.ScanLines] on a complete text: the lines without their
    terminators (LF, or CR LF); a final line without LF counts. *)
Fixpoint scan_lines (s : string) (current : string) : list string :=
  match s with
  | EmptyString => if String.eqb current "" then [] else [current]
  | String c t =>
      if Ascii.eqb c "010"%char then
        (let n := String.length current in
         if HasPrefix (rev current) (String "013"%char "")
         then substring 0 (n - 1) current else current) :: scan_lines t ""
      else scan_lines t (current +:+ String c "")
  end.

(** A quoting that only wraps in double quotes, and JSON readers that
    only read a bare number, resp. the words yes and no. *)
#[local] Instance lib : GoLib := {
    Quote s := String dquote s +:+ String dquote "";
    UnmarshalSize s :=
      if String.eqb s "" then Err "unexpected end of JSON input" else Ok (Atoi s);
    UnmarshalAnalysis s :=
      if String.eqb s "yes"
      then Ok {| NeedsCitation := true; Lib.Confidence := "high";
                 Reason := "factual"; Lib.SuggestedAction := "add citation" |}
      else if String.eqb s "no"
      then Ok {| NeedsCitation := false; Lib.Confidence := "high";
                 Reason := "prose"; Lib.SuggestedAction := "no action needed" |}
      else Err "invalid character"
  }.

(** A fixed environment: which executables exist, what commands and
    HTTP requests answer, what the files hold. *)
Record Env : Type := {
    tools : list string;
    commands : string -> list string -> CmdResult;
    http : string -> string -> res Z;
    disk : string -> res string
  }.

(** The world is a counter from which identifiers and times are drawn. *)
Definition handler (env : Env) : Handler nat :=
  fun X e =>
    match e in Event X return nat -> X * nat with
    | UuidNew => fun w => ("id-" +:+ Itoa (Z.of_nat w), S w)
    | TimeNow => fun w => (Z.of_nat w, S w)
    | LookPath f =>
        fun w => (if existsb (String.eqb f) (tools env) then None
                  else Some "executable file not found in $PATH", w)
    | CmdRun name args => fun w => (commands env name args, w)
    | HttpNewRequest _ _ => fun w => (None, w)
    | HttpDo method url => fun w => (http env method url, w)
    | ReadFile name => fun w => (disk env name, w)
    | OpenScan name =>
        fun w => (match disk env name with
                  | Ok content => Ok (scan_lines content "", None)
                  | Err err => Err err
                  end, w)
    end.

Definition exit0 (stdout : string) : CmdResult :=
  {| cmd_err := None; cmd_stdout := stdout; cmd_stderr := "" |}.
Definition exit1 (stderr : string) : CmdResult :=
  {| cmd_err := Some "exit status 1"; cmd_stdout := ""; cmd_stderr := stderr |}.

(** No backend tool at all, one file of two lines. *)
Definition two_lines : string :=
  "See [@paper:tavare1986] for details.
Method A is 40% faster than method B.".

Definition bare : Env := {|
    tools := [];
    commands := fun _ _ => exit1 "";
    http := fun _ _ => Err "dial tcp: no route to host";
    disk := fun name => if String.eqb name "notes.qmd" then Ok two_lines
                        else Err ("open " +:+ name +:+ ": no such file or directory")
  |}.

(** gh is installed; the repository has a file of 30 bytes and nothing
    else. *)
Definition small_file : string := "repos/owner/repo/contents/file.go?ref=abc123def456".

Definition with_gh : Env := {|
    tools := ["gh"];
    commands := fun name args =>
      if String.eqb name "gh" && String.eqb (at_ args 1) small_file
      then exit0 "30" else exit1 "gh: Not Found (HTTP 404)";
    http := fun _ url => if String.eqb url "https://example.org/gone" then Ok 404%Z
                         else Ok 200%Z;
    disk := fun name => Err ("open " +:+ name +:+ ": no such file or directory")
  |}.

Definition link_to (sha : string) (startLine endLine : Z) : CodeLinkMatch :=
  {| FullURL := "https://github.com/owner/repo/blob/" +:+ sha +:+ "/file.go#L"
                  +:+ Itoa startLine +:+ "-L" +:+ Itoa endLine;
     Owner := "owner"; Repo := "repo"; CommitSHA := sha; FilePath := "file.go";
     StartLine := startLine; EndLine := endLine |}.

(** The single-anchor link of the test of the package. *)
Definition line_42 : CodeLinkMatch :=
  {| FullURL := "https://github.com/owner/repo/blob/abc123def456/path/to/file.c#L42";
     Owner := "owner"; Repo := "repo"; CommitSHA := "abc123def456";
     FilePath := "path/to/file.c"; StartLine := 42; EndLine := 42 |}.

(** Only the claude CLI is installed, and it always gives [reply]. *)
Definition with_claude (reply : CmdResult) : Env := {|
    tools := ["claude"];
    commands := fun name _ => if String.eqb name "claude" then reply else exit1 "";
    http := fun _ _ => Err "dial tcp: no route to host";
    disk := fun name => Err ("open " +:+ name +:+ ": no such file or directory")
  |}.

(** A line of prose with a URL in parentheses, a citation and a
    permalink. *)
Definition prose : string :=
  "See (https://example.org/a.) and @paper:tavare1986, then https://github.com/owner/repo/blob/abc123def456/file.go#L10-L20 now.".

(** A sentence on which no heuristic pattern fires. *)
Definition plain_sentence : string := "The tree has many leaves and branches.".

(** Three results, one of each status. *)
Definition sample_result (id checkType status : string) : VerificationResult :=
  {| CheckID := id; CheckType := checkType;
     Target := {| File := "notes.qmd"; Line := 0; Text := "" |};
     Status := status; Message := ""; Details := noDetails; CheckedAt := 0 |}.

Definition three_results : list VerificationResult :=
  [sample_result "1" CheckTypeCitation CheckStatusPass;
   sample_result "2" CheckTypeURL CheckStatusFail;
   sample_result "3" CheckTypeCodeLink CheckStatusWarn].

End Sample.

(* ------------------------------------------------------------------ *)
(** ** The rest of report.go, and the sweep checks that call the package *)

Module report.
Import GoString Effects Lib verify.

(** [FilterByStatus]: the results with the given status. *)
Definition FilterByStatus (r : VerificationReport) (status : string)
    : list VerificationResult :=
  fold_left (fun filtered result =>
               if String.eqb (Status result) status
               then (filtered ++ [result])%list else filtered)
            (Results r) [].

(** [FilterByType]: the results with the given check type. *)
Definition FilterByType (r : VerificationReport) (checkType : string)
    : list VerificationResult :=
  fold_left (fun filtered result =>
               if String.eqb (CheckType result) checkType
               then (filtered ++ [result])%list else filtered)
            (Results r) [].

End report.

Module sweep.
Import GoString Regexp Effects Lib.

(** sweep/types.go *)
Definition CheckTypeClaimConsistency : string := "claim-consistency".
Definition CheckTypeRepoFreshness : string := "repo-freshness".
Definition CheckTypeCodeLinks : string := "code-links".
Definition CheckTypeCoverage : string := "coverage".

Definition SweepStatusOK : string := "ok".
Definition SweepStatusWarning : string := "warning".
Definition SweepStatusIssue : string := "issue".

(** A value of a [map[string]any] as the checks fill it. *)
Inductive any : Type :=
| AString (s : string)
| AInt (n : Z)
| ABool (b : bool).

Record SweepResult : Type := {
  CheckType : string;
  Status : string;
  Target : string;
  File : string;
  Line : Z;
  Message : string;
  Details : gmap string any;
  SuggestedFix : string;
  CheckedAt : Z
}.

Section WithLib.
Context `{GoLib}.

(** sweep/codelinks.go *)
Definition checkSingleCodeLink (link : verify.CodeLinkMatch) (file : string)
    : Prog SweepResult :=
  now <- call TimeNow;;
  let details : gmap string any :=
    <["end_line" := AInt (verify.EndLine link)]>
      (<["start_line" := AInt (verify.StartLine link)]>
         (<["file_path" := AString (verify.FilePath link)]>
            (<["commit_sha" := AString (verify.CommitSHA link)]>
               (<["repo" := AString (verify.Repo link)]>
                  (<["owner" := AString (verify.Owner link)]> ∅))))) in
  verifyResult <- verify.VerifyCodeLink link file 0 "";;
  let result status message suggestedFix :=
    {| CheckType := CheckTypeCodeLinks; Status := status;
       Target := verify.FullURL link; File := file; Line := 0;
       Message := message; Details := details; SuggestedFix := suggestedFix;
       CheckedAt := now |} in
  if String.eqb (verify.Status verifyResult) verify.CheckStatusPass then
    Ret (result SweepStatusOK "Code link is valid" "")
  else if String.eqb (verify.Status verifyResult) verify.CheckStatusFail then
    Ret (result SweepStatusIssue (verify.Message verifyResult)
           "Update the permalink to point to the current location")
  else if String.eqb (verify.Status verifyResult) verify.CheckStatusWarn then
    Ret (result SweepStatusWarning (verify.Message verifyResult) "")
  else Ret (result "" "" "").

Definition CheckCodeLinks (content file : string) : Prog (list SweepResult) :=
  foldM (fun results link =>
           result <- checkSingleCodeLink link file;;
           Ret (results ++ [result])%list)
        (verify.ExtractCodeLinks content) [].

Definition CheckCodeLinksAtHead (content file : string) : Prog (list SweepResult) :=
  foldM (fun results link =>
           now <- call TimeNow;;
           match slice_to (verify.CommitSHA link) 8 with
           | None => Panic "runtime error: slice bounds out of range"
           | Some sha8 =>
               Ret (results ++
                    [{| CheckType := CheckTypeCodeLinks; Status := SweepStatusWarning;
                        Target := verify.FullURL link; File := file; Line := 0;
                        Message := "Code link points to commit " +:+ sha8
                                   +:+ " - verify file still exists at HEAD";
                        Details := <["file_path" := AString (verify.FilePath link)]>
                                     (<["commit_sha" := AString (verify.CommitSHA link)]> ∅);
                        SuggestedFix :=
                          "Run `gh api repos/{owner}/{repo}/contents/{path}` to check if file exists at HEAD";
                        CheckedAt := now |}])%list
           end)
        (verify.ExtractCodeLinks content) [].

(** sweep/consistency.go *)
Definition CheckClaimConsistency (content file : string) : Prog (list SweepResult) :=
  let citations := verify.ExtractCitations content in
  if (Z.of_nat (length citations) =? 0)%Z then Ret []
  else
    foldM (fun results citation =>
             now <- call TimeNow;;
             Ret (results ++
                  [{| CheckType := CheckTypeClaimConsistency; Status := SweepStatusOK;
                      Target := citation; File := file; Line := 0;
                      Message := "Citation " +:+ citation
                                 +:+ " exists - manual consistency check recommended";
                      Details := <["needs_review" := ABool true]>
                                   (<["citation_id" := AString citation]> ∅);
                      SuggestedFix :=
                        "Use Asta snippet search to verify the cited paper still supports the claim";
                      CheckedAt := now |}])%list)
          citations [].

End WithLib.
End sweep.

(* ------------------------------------------------------------------ *)
(** ** Further words for the properties of the pipeline *)

Module Props.
Import GoString Regexp Effects Lib verify.

Definition check_types : list string :=
  [CheckTypeCitation; CheckTypeURL; CheckTypeCodeLink; CheckTypeClaim; CheckTypeTodoMarker].

Definition check_statuses : list string :=
  [CheckStatusPass; CheckStatusFail; CheckStatusWarn].

(** A result as a verifier leaves it: its own check type, the target it
    was given, and one of the statuses listed. *)
Definition stamped (checkType file : string) (line : Z) (text : string)
    (statuses : list string) (r : VerificationResult) : Prop :=
  CheckType r = checkType
  /\ Target r = {| File := file; Line := line; Text := text |}
  /\ In (Status r) statuses.

(** A result as [VerifyFile] reports it for [filePath]. *)
Definition reported_for (filePath : string) (r : VerificationResult) : Prop :=
  File (Target r) = filePath
  /\ (0 <= Line (Target r))%Z
  /\ In (CheckType r) check_types
  /\ In (Status r) check_statuses
  /\ (CheckType r = CheckTypeTodoMarker ->
      Status r = CheckStatusFail /\ (1 <= Line (Target r))%Z)
  /\ (CheckType r = CheckTypeCodeLink -> Status r <> CheckStatusPass)
  /\ (CheckType r = CheckTypeCitation -> Status r <> CheckStatusWarn).

(** The results of a list that carry a given key, for each key in turn. *)
Definition buckets (key : VerificationResult -> string) (keys : list string)
    (rs : list VerificationResult) : list VerificationResult :=
  concat (List.map (fun k => List.filter (fun r => String.eqb (key r) k) rs) keys).

(** A result as [VerifyFile] reports it for one of the files. *)
Definition from_files (files : list string) (r : VerificationResult) : Prop :=
  exists f, In f files /\ reported_for f r.

(** What [os.ReadFile] answers for each file of the list in turn, in a
    run of [VerifyFiles] from the world [w] in which no file is read
    successfully (nothing else happens between two reads then). *)
Fixpoint read_answers {W : Type} (h : Handler W) (files : list string) (w : W)
    : list (res string) :=
  match files with
  | [] => []
  | f :: rest => (h _ (ReadFile f) w).1 :: read_answers h rest (h _ (ReadFile f) w).2
  end.

(** Every file of the list fails to be read, in every state of the world. *)
Definition unreadable {W : Type} (h : Handler W) (files : list string) : Prop :=
  forall f, In f files -> forall w, exists err, fst (h _ (ReadFile f) w) = Err err.

(** The world answers the event [e] with [x] in every state. *)
Definition always {W X : Type} (h : Handler W) (e : Event X) (x : X) : Prop :=
  forall w, fst (h _ e w) = x.

(** The status a run ends with, if it ends with a result. *)
Definition status_of {W : Type} (r : Run W VerificationResult) : option string :=
  match out r with
  | Done x => Some (Status x)
  | Panicked _ => None
  end.

(** The same permalink with another line range. *)
Definition with_lines (link : CodeLinkMatch) (startLine endLine : Z) : CodeLinkMatch :=
  {| FullURL := FullURL link; Owner := Owner link; Repo := Repo link;
     CommitSHA := CommitSHA link; FilePath := FilePath link;
     StartLine := startLine; EndLine := endLine |}.

(** The metadata call that [VerifyCodeLink] makes for a link. *)
Definition metadata_call (link : CodeLinkMatch) : Event CmdResult :=
  CmdRun "gh" ["api"; apiPath (Owner link) (Repo link) (CommitSHA link) (FilePath link)].

(** The command line [AnalyzeClaim] runs with the claude provider. *)
Definition claude_call `{GoLib} (sentence : string) : Event CmdResult :=
  CmdRun "claude" ["-p"; llm.prompt_of sentence; "--model"; "claude-haiku-4-20250514"].

(** A program that asks for nothing but events accepted by [allowed],
    whatever the answers are. *)
Fixpoint asks_only {A : Type} (allowed : AnyEvent -> bool) (p : Prog A) : Prop :=
  match p with
  | Ret _ => True
  | Panic _ => True
  | Vis e k => allowed (Any e) = true /\ forall x, asks_only allowed (k x)
  end.

(** Reading the clock. *)
Definition is_clock (e : AnyEvent) : bool :=
  match e with
  | Any TimeNow => true
  | Any _ => false
  end.

(** A commit identifier long enough for the slice [CommitSHA[:8]]. *)
Definition long_sha (link : CodeLinkMatch) : bool :=
  (8 <=? String.length (CommitSHA link))%nat.

(** A program without a reachable panic, whatever the answers are. *)
Fixpoint never_panics {A : Type} (p : Prog A) : Prop :=
  match p with
  | Ret _ => True
  | Panic _ => False
  | Vis e k => forall x, never_panics (k x)
  end.

(** Every permalink in what the files hold has a commit identifier of
    at least 8 bytes. *)
Definition links_long {W : Type} (h : Handler W) (files : list string) : Prop :=
  forall f, In f files ->
    forall w content, fst (h _ (ReadFile f) w) = Ok content ->
      forallb long_sha (ExtractCodeLinks content) = true.

(** Every byte of [s] is in the class [p]. *)
Definition all_bytes (p : ascii -> bool) (s : string) : bool :=
  forallb p (list_ascii_of_string s).

(** [rest] is what [content] holds from the offset [pos] on. *)
Definition located (content : string) (pos : nat) (rest : string) : Prop :=
  exists pre, content = pre +:+ rest /\ String.length pre = pos.

(** What follows a maximal run of bytes of a class: the end of the
    text, or a byte outside the class. *)
Definition stops (p : ascii -> bool) (rest : string) : Prop :=
  match rest with
  | String c _ => p c = false
  | EmptyString => True
  end.





End Props.

(* ------------------------------------------------------------------ *)
(** ** Facts about programs *)

Module EffectsFacts.
Import Effects.

Lemma run_bind {W A B : Type} (h : Handler W) (p : Prog A) (f : A -> Prog B) (w : W) :
  run h (bind p f) w =
  match out (run h p w) with
  | Done a =>
      let r := run h (f a) (world (run h p w)) in
      MkRun (out r) (world r) (log (run h p w) ++ log r)%list
  | Panicked m => MkRun (Panicked m) (world (run h p w)) (log (run h p w))
  end.
Proof.
  revert w. induction p as [a | m | X e k IH]; intros w; simpl.
  - destruct (run h (f a) w); reflexivity.
  - reflexivity.
  - rewrite IH. destruct (out (run h (k (h X e w).1) (h X e w).2)); reflexivity.
Qed.

Lemma ensures_weaken {A : Type} (p : Prog A) (P Q : A -> Prop) :
  ensures p P -> (forall a, P a -> Q a) -> ensures p Q.
Proof.
  intros HP HPQ. induction p as [a | m | X e k IH]; simpl in *.
  - now apply HPQ.
  - exact I.
  - intros x. now apply IH.
Qed.

Lemma ensures_bind {A B : Type} (p : Prog A) (f : A -> Prog B) (Q : B -> Prop) :
  ensures p (fun a => ensures (f a) Q) -> ensures (bind p f) Q.
Proof.
  intros HP. induction p as [a | m | X e k IH]; simpl in *.
  - exact HP.
  - exact I.
  - intros x. apply IH, HP.
Qed.

Lemma ensures_foldM {A B : Type} (f : A -> B -> Prog A) (I : A -> Prop) (l : list B) :
  (forall acc x, I acc -> ensures (f acc x) I) ->
  forall acc, I acc -> ensures (foldM f l acc) I.
Proof.
  intros Hf. induction l as [| x t IH]; simpl; intros acc Hacc.
  - exact Hacc.
  - apply ensures_bind. apply ensures_weaken with (P := I).
    + now apply Hf.
    + exact IH.
Qed.

Lemma ensures_run {A : Type} (p : Prog A) (Q : A -> Prop) :
  ensures p Q ->
  forall (W : Type) (h : Handler W) (w : W) (a : A), out (run h p w) = Done a -> Q a.
Proof.
  intros HP W h. induction p as [a | m | X e k IH]; simpl in *; intros w b Hrun.
  - congruence.
  - discriminate.
  - eapply IH; [apply HP | exact Hrun].
Qed.

End EffectsFacts.

(* ------------------------------------------------------------------ *)
(** ** The report builder *)

Module ReportFacts.
Import GoString Effects Lib verify Spec.

Lemma results_fold_AddResult (rs : list VerificationResult) (b : ReportBuilder) :
  results (fold_left AddResult rs b) = (results b ++ rs)%list.
Proof.
  revert b. induction rs as [| r rs IH]; intros b; simpl.
  - now rewrite app_nil_r.
  - rewrite IH. simpl. now rewrite <- app_assoc.
Qed.

Lemma results_of_sequence (rs : list VerificationResult) :
  results (fold_left AddResult rs NewReportBuilder) = rs.
Proof. now rewrite results_fold_AddResult. Qed.

Lemma count_status_cons (status : string) (r : VerificationResult) rs :
  count_status status (r :: rs) =
  ((if String.eqb (Status r) status then 1 else 0) + count_status status rs)%Z.
Proof.
  unfold count_status. simpl. destruct (String.eqb (Status r) status); simpl; lia.
Qed.

(** The loop of [Build] adds, to each counter, the number of results
    of its status; the three constants are distinct strings. *)
Lemma fold_tally (rs : list VerificationResult) (s : ReportSummary) :
  fold_left tally rs s =
  {| TotalChecks := TotalChecks s;
     Passed := Passed s + count_status CheckStatusPass rs;
     Failed := Failed s + count_status CheckStatusFail rs;
     Warnings := Warnings s + count_status CheckStatusWarn rs |}.
Proof.
  revert s. induction rs as [| r rs IH]; intros s.
  - destruct s; simpl. unfold count_status; simpl. f_equal; lia.
  - simpl fold_left. rewrite IH. rewrite !count_status_cons. unfold tally.
    destruct (String.eqb_spec (Status r) CheckStatusPass) as [E | _].
    { rewrite E. simpl. f_equal; lia. }
    destruct (String.eqb_spec (Status r) CheckStatusFail) as [E | _].
    { rewrite E. simpl. f_equal; lia. }
    destruct (String.eqb_spec (Status r) CheckStatusWarn) as [E | _].
    { simpl. f_equal; lia. }
    simpl. f_equal; lia.
Qed.

Lemma count_status_nonneg (status : string) rs : (0 <= count_status status rs)%Z.
Proof. unfold count_status. lia. Qed.

Lemma count_status_perm (status : string) rs rs' :
  Permutation rs rs' -> count_status status rs = count_status status rs'.
Proof.
  induction 1 as [| x l l' _ IH | x y l | l l' l'' _ IH1 _ IH2].
  - reflexivity.
  - rewrite !count_status_cons. lia.
  - rewrite !count_status_cons. lia.
  - congruence.
Qed.

Lemma count_fail_without_warnings rs :
  count_status CheckStatusFail (without_warnings rs) = count_status CheckStatusFail rs.
Proof.
  induction rs as [| r rs IH]; [reflexivity |].
  unfold without_warnings in *. simpl.
  destruct (String.eqb_spec (Status r) CheckStatusWarn) as [E | _]; simpl.
  - rewrite count_status_cons, E. simpl. exact IH.
  - rewrite !count_status_cons. rewrite IH. reflexivity.
Qed.

(** What [Build] returns, in any world. *)
Lemma Build_run {W : Type} (h : Handler W) (w : W) (b : ReportBuilder) :
  exists id now,
    out (run h (Build b) w) =
    Done {| ReportID := id; GeneratedAt := now; ContentFiles := files b;
            Summary :=
              {| TotalChecks := Z.of_nat (length (results b));
                 Passed := count_status CheckStatusPass (results b);
                 Failed := count_status CheckStatusFail (results b);
                 Warnings := count_status CheckStatusWarn (results b) |};
            Results := results b;
            ExitCode := if (0 <? count_status CheckStatusFail (results b))%Z
                        then 1%Z else 0%Z |}.
Proof.
  unfold Build. simpl. rewrite fold_tally. simpl. eauto.
Qed.

(** C1. For every sequence of results added to a ReportBuilder, Build
    returns a report whose ExitCode is 1 when the number of results with
    status fail is greater than 0 and 0 otherwise; it is the ExitCode of
    the same sequence with every result of status warn left out, so the
    warnings never affect it. *)
Theorem C1_exit_code_law :
  forall (W : Type) (h : Handler W) (w : W) (rs : list VerificationResult),
  exists report report',
    out (run h (Build (fold_left AddResult rs NewReportBuilder)) w) = Done report
    /\ ExitCode report
       = (if (0 <? count_status CheckStatusFail rs)%Z then 1%Z else 0%Z)
    /\ (ExitCode report = 0%Z <-> Failed (Summary report) = 0%Z)
    /\ out (run h (Build (fold_left AddResult (without_warnings rs) NewReportBuilder)) w)
       = Done report'
    /\ ExitCode report' = ExitCode report.
Proof.
  intros W h w rs.
  destruct (Build_run h w (fold_left AddResult rs NewReportBuilder)) as (id & now & E).
  destruct (Build_run h w (fold_left AddResult (without_warnings rs) NewReportBuilder))
    as (id' & now' & E').
  rewrite results_of_sequence in E, E'.
  eexists; eexists. split; [exact E |]. split; [reflexivity |].
  split; [| split; [exact E' |]]; simpl.
  - pose proof (count_status_nonneg CheckStatusFail rs).
    destruct (Z.ltb_spec 0 (count_status CheckStatusFail rs)); split; intros; lia.
  - now rewrite count_fail_without_warnings.
Qed.

(** C8. For every report produced by Build, the summary counts are the
    partition of the report's result list by status (Passed, Failed and
    Warnings count the results of status pass, fail and warn, TotalChecks
    is the length of the list), the list is the sequence of AddResult
    calls, and adding the same results in another order gives the same
    summary. *)
Theorem C8_summary_partition :
  forall (W : Type) (h : Handler W) (w : W) (rs rs' : list VerificationResult),
  Permutation rs rs' ->
  exists report report',
    out (run h (Build (fold_left AddResult rs NewReportBuilder)) w) = Done report
    /\ Results report = rs
    /\ Passed (Summary report) = count_status CheckStatusPass (Results report)
    /\ Failed (Summary report) = count_status CheckStatusFail (Results report)
    /\ Warnings (Summary report) = count_status CheckStatusWarn (Results report)
    /\ TotalChecks (Summary report) = Z.of_nat (length (Results report))
    /\ out (run h (Build (fold_left AddResult rs' NewReportBuilder)) w) = Done report'
    /\ Summary report' = Summary report.
Proof.
  intros W h w rs rs' HP.
  destruct (Build_run h w (fold_left AddResult rs NewReportBuilder)) as (id & now & E).
  destruct (Build_run h w (fold_left AddResult rs' NewReportBuilder)) as (id' & now' & E').
  rewrite results_of_sequence in E, E'.
  eexists; eexists. split; [exact E |]. simpl.
  do 5 (split; [reflexivity |]). split; [exact E' |]. simpl.
  rewrite <- (count_status_perm CheckStatusPass _ _ HP).
  rewrite <- (count_status_perm CheckStatusFail _ _ HP).
  rewrite <- (count_status_perm CheckStatusWarn _ _ HP).
  now rewrite <- (Permutation_length HP).
Qed.

(** When every status is one of the three constants, the three counts
    add up to the total. *)
Lemma summary_counts_add_up (rs : list VerificationResult) :
  Forall (fun r => Status r = CheckStatusPass \/ Status r = CheckStatusFail
                   \/ Status r = CheckStatusWarn) rs ->
  (count_status CheckStatusPass rs + count_status CheckStatusFail rs
   + count_status CheckStatusWarn rs = Z.of_nat (length rs))%Z.
Proof.
  induction 1 as [| r rs Hr _ IH]; [reflexivity |].
  rewrite !count_status_cons. simpl length.
  destruct Hr as [E | [E | E]]; rewrite E; simpl; lia.
Qed.

End ReportFacts.

(* ------------------------------------------------------------------ *)
(** ** The extractors *)

Module ExtractFacts.
Import GoString Regexp Effects Lib verify Spec.

(** Every element of [FindAllStringSubmatch] has one entry for the
    whole match and one per group. *)
Lemma submatch_length (r : re) (s : string) (m : list string) :
  In m (FindAllStringSubmatch r s) -> length m = S (num_cap r).
Proof.
  unfold FindAllStringSubmatch. rewrite in_map_iff.
  intros ([[b e] caps] & <- & _). simpl.
  now rewrite length_map, length_seq.
Qed.


Lemma inb_In (x : string) (l : list string) : inb x l = true <-> In x l.
Proof.
  unfold inb. rewrite existsb_exists. split.
  - intros (y & Hy & E). apply String.eqb_eq in E. now subst.
  - intros Hx. exists x. split; [exact Hx | apply String.eqb_refl].
Qed.


Lemma agrees_insert seen acc t :
  agrees seen acc -> agrees (<[t := true]> seen) (acc ++ [t]).
Proof.
  intros Ha x. unfold inb. rewrite existsb_app. simpl. rewrite orb_false_r.
  destruct (String.eqb_spec x t) as [-> | Hne].
  - rewrite lookup_insert_eq. simpl. now rewrite orb_true_r.
  - rewrite lookup_insert_ne by congruence. rewrite orb_false_r. apply Ha.
Qed.

Lemma filter_filter_notin (acc : list string) (t : string) (l : list string) :
  List.filter (fun y => negb (inb y (acc ++ [t]))) l
  = List.filter (fun y => negb (inb y acc))
      (List.filter (fun y => negb (String.eqb y t)) l).
Proof.
  induction l as [| y l IH]; [reflexivity |]. simpl.
  unfold inb at 1. rewrite existsb_app. simpl. rewrite orb_false_r.
  fold (inb y acc). destruct (String.eqb y t); simpl.
  - rewrite orb_true_r. simpl. exact IH.
  - rewrite orb_false_r. destruct (inb y acc); simpl; now rewrite IH.
Qed.

Lemma filter_seen_drops (acc : list string) (t : string) (l : list string) :
  inb t acc = true ->
  List.filter (fun y => negb (inb y acc)) (List.filter (fun y => negb (String.eqb y t)) l)
  = List.filter (fun y => negb (inb y acc)) l.
Proof.
  intros Ht. induction l as [| y l IH]; [reflexivity |]. simpl.
  destruct (String.eqb_spec y t) as [-> | Hne]; simpl.
  - rewrite Ht. simpl. exact IH.
  - now rewrite IH.
Qed.

Lemma fold_step (ts : list string) :
  forall seen acc, agrees seen acc ->
    (fold_left step ts (seen, acc)).2
    = (acc ++ List.filter (fun y => negb (inb y acc)) (first_seen ts))%list.
Proof.
  induction ts as [| t ts IH]; intros seen acc Ha.
  - simpl. now rewrite app_nil_r.
  - simpl fold_left. unfold step at 2. simpl fst; simpl snd.
    rewrite (Ha t). simpl first_seen. simpl List.filter.
    destruct (inb t acc) eqn:Ht; simpl negb; cbv iota.
    + rewrite (IH seen acc Ha). now rewrite filter_seen_drops.
    + rewrite (IH _ _ (agrees_insert seen acc t Ha)).
      rewrite <- app_assoc. simpl. now rewrite filter_filter_notin.
Qed.

(** The loop over the submatch slices is the loop over their tokens. *)
Lemma fold_matches (ms : list (list string)) :
  Forall (fun m => length m = 2%nat) ms ->
  forall st,
    fold_left
      (fun '(seen, citations) m =>
         if (1 <? Z.of_nat (length m))%Z
            && negb (default false ((seen : gmap string bool) !! at_ m 1))
         then (<[at_ m 1 := true]> seen, (citations ++ [at_ m 1])%list)
         else (seen, citations)) ms st
    = fold_left step (List.map (fun m => at_ m 1) ms) st.
Proof.
  induction 1 as [| m ms Hm _ IH]; intros [seen acc]; [reflexivity |].
  simpl. rewrite <- IH. f_equal. unfold step. simpl. rewrite Hm. simpl.
  destruct (default false (seen !! at_ m 1)); reflexivity.
Qed.

Lemma ExtractCitations_first_seen (content : string) :
  ExtractCitations content = first_seen (citation_tokens content).
Proof.
  unfold ExtractCitations, citation_tokens.
  assert (Hlen : Forall (fun m => length m = 2%nat)
                   (FindAllStringSubmatch citationPattern content)).
  { apply List.Forall_forall. intros m Hm. exact (submatch_length _ _ _ Hm). }
  revert Hlen. generalize (FindAllStringSubmatch citationPattern content) as ms.
  intros ms Hlen. rewrite (fold_matches ms Hlen).
  rewrite fold_step by (intros x; now rewrite lookup_empty).
  rewrite app_nil_l.
  induction (first_seen _) as [| y l IH]; simpl; [reflexivity | now f_equal].
Qed.

Lemma first_seen_In (ts : list string) (x : string) :
  In x (first_seen ts) <-> In x ts.
Proof.
  induction ts as [| t ts IH]; simpl; [tauto |].
  rewrite filter_In, IH. destruct (String.eqb_spec x t) as [-> | Hne]; simpl.
  - tauto.
  - split; [tauto | intros [E | Hx]; [congruence | tauto]].
Qed.

Lemma first_seen_NoDup (ts : list string) : List.NoDup (first_seen ts).
Proof.
  induction ts as [| t ts IH]; simpl; constructor.
  - rewrite filter_In. intros [_ Ht]. now rewrite String.eqb_refl in Ht.
  - now apply List.NoDup_filter.
Qed.

(** C7. For every text T, ExtractCitations(T) has no duplicates, holds
    exactly the tokens of the markers of T, each at the place of its
    first occurrence (first-seen order), and is determined by the
    sequence of marker tokens alone: two texts with the same tokens, in
    particular the same text twice, give the identical list. *)
Theorem C7_citations_unique_in_first_seen_order :
  forall T : string,
    List.NoDup (ExtractCitations T)
    /\ (forall x, In x (ExtractCitations T) <-> In x (citation_tokens T))
    /\ ExtractCitations T = first_seen (citation_tokens T)
    /\ (forall T', citation_tokens T' = citation_tokens T ->
                   ExtractCitations T' = ExtractCitations T).
Proof.
  intros T. rewrite ExtractCitations_first_seen.
  split; [apply first_seen_NoDup |].
  split; [apply first_seen_In |].
  split; [reflexivity |].
  intros T' E. rewrite ExtractCitations_first_seen. now rewrite E.
Qed.


Lemma fold_links (ms : list (list string)) (acc : list CodeLinkMatch) :
  fold_left
    (fun links m =>
       if (Z.of_nat (length m) <? 6)%Z then links
       else
         let startLine := Atoi (at_ m 5) in
         let endLine :=
           if (6 <? Z.of_nat (length m))%Z && negb (String.eqb (at_ m 6) "")
           then Atoi (at_ m 6) else startLine in
         (links ++ [{| FullURL := at_ m 0; Owner := at_ m 1; Repo := at_ m 2;
                       CommitSHA := at_ m 3; FilePath := at_ m 4;
                       StartLine := startLine; EndLine := endLine |}])%list)
    ms acc
  = (acc ++ List.map linkOf
              (List.filter (fun m => negb (Z.of_nat (length m) <? 6)%Z) ms))%list.
Proof.
  revert acc. induction ms as [| m ms IH]; intros acc; simpl.
  - now rewrite app_nil_r.
  - rewrite IH. destruct (Z.of_nat (length m) <? 6)%Z; simpl; [reflexivity |].
    now rewrite <- app_assoc.
Qed.

(** C4, as the code has it. Every occurrence produced by
    ExtractCodeLinks comes from one match of the permalink pattern;
    StartLine is the number of the first anchor; when the URL carries
    only that anchor (the group of the end line is empty) EndLine equals
    StartLine, hence StartLine <= EndLine; when a second anchor is there,
    EndLine is its number as written, whatever its order to StartLine. *)
Theorem C4_single_anchor_end_is_start :
  forall (content : string) (l : CodeLinkMatch),
    In l (ExtractCodeLinks content) ->
    exists m,
      In m (FindAllStringSubmatch githubPermalinkPattern content)
      /\ length m = 7%nat
      /\ FullURL l = at_ m 0
      /\ StartLine l = Atoi (at_ m 5)
      /\ (at_ m 6 = "" -> EndLine l = StartLine l /\ (StartLine l <= EndLine l)%Z)
      /\ (at_ m 6 <> "" -> EndLine l = Atoi (at_ m 6)).
Proof.
  intros content l. unfold ExtractCodeLinks. rewrite fold_links, app_nil_l.
  assert (Hlen : forall m, In m (FindAllStringSubmatch githubPermalinkPattern content) ->
                           length m = 7%nat).
  { intros m Hm. exact (submatch_length _ _ _ Hm). }
  revert Hlen. generalize (FindAllStringSubmatch githubPermalinkPattern content) as ms.
  intros ms Hlen. rewrite in_map_iff. intros (m & <- & Hm).
  apply filter_In in Hm as [Hm _].
  exists m. specialize (Hlen m Hm).
  split; [exact Hm |]. split; [exact Hlen |]. split; [reflexivity |].
  split; [reflexivity |]. unfold linkOf; simpl. rewrite Hlen. simpl.
  split.
  - intros E. rewrite E. simpl. split; [reflexivity | lia].
  - intros Hne. destruct (String.eqb_spec (at_ m 6) "") as [E | _]; [contradiction |].
    reflexivity.
Qed.

(** C4 in the wording of the specification does not hold: a second
    anchor smaller than the first is taken as it is written. *)
Lemma C4_counterexample :
  ~ (forall (content : string) (l : CodeLinkMatch),
       In l (ExtractCodeLinks content) -> (StartLine l <= EndLine l)%Z).
Proof.
  intros Hall.
  specialize (Hall "See https://github.com/owner/repo/blob/abc123/file.go#L20-L10"
                {| FullURL := "https://github.com/owner/repo/blob/abc123/file.go#L20-L10";
                   Owner := "owner"; Repo := "repo"; CommitSHA := "abc123";
                   FilePath := "file.go"; StartLine := 20; EndLine := 10 |}).
  assert (20 <= 10)%Z as Habs; [| lia].
  apply Hall. vm_compute. left. reflexivity.
Qed.

End ExtractFacts.

(* ------------------------------------------------------------------ *)
(** ** The verifiers *)

Module VerifierFacts.
Import GoString Regexp Effects Lib verify Spec EffectsFacts.

Lemma append_assoc (a b c : string) : (a +:+ b) +:+ c = a +:+ (b +:+ c).
Proof.
  induction a as [| x a IH]; [reflexivity |].
  change (String x ((a +:+ b) +:+ c) = String x (a +:+ (b +:+ c))). now rewrite IH.
Qed.

Lemma embeds_middle (a needle c : string) : embeds (a +:+ needle +:+ c) needle.
Proof. now exists a, c. Qed.

Lemma embeds_prepend (a s needle : string) : embeds s needle -> embeds (a +:+ s) needle.
Proof.
  intros (before & after & ->). exists (a +:+ before), after.
  symmetry. apply append_assoc.
Qed.

Section WithLib.
Context `{GoLib}.
Context {W : Type} (h : Handler W).

Lemma run_newResult checkType file line text (w : W) :
  run h (newResult checkType file line text) w
  = MkRun (Done (fresh h checkType file line text w)) (started h w) [Any UuidNew; Any TimeNow].
Proof. reflexivity. Qed.

(** Running a verifier: first the fresh result, then the rest. *)
Lemma run_after_newResult {A : Type} checkType file line text
    (f : VerificationResult -> Prog A) (w : W) :
  run h (bind (newResult checkType file line text) f) w
  = let r := run h (f (fresh h checkType file line text w)) (started h w) in
    MkRun (out r) (world r) (Any UuidNew :: Any TimeNow :: log r).
Proof. rewrite run_bind, run_newResult. reflexivity. Qed.

Lemma missing_answer (file : string) (w : W) :
  missing h file -> exists err, (h _ (LookPath file) w).1 = Some err.
Proof.
  intros Hm. specialize (Hm w). destruct (h _ (LookPath file) w).1 as [err |]; eauto.
  contradiction.
Qed.

(** Without a provider, [llm.IsAvailable] answers false. *)
Lemma IsAvailable_missing (w : W) :
  missing h "claude" -> missing h "ollama" ->
  exists w', run h llm.IsAvailable w
             = MkRun (Done false) w' [Any (LookPath "claude"); Any (LookPath "ollama")].
Proof.
  intros Hc Ho. unfold llm.IsAvailable, llm.NewClient. simpl.
  destruct (missing_answer "claude" w Hc) as (e1 & ->).
  simpl.
  destruct (missing_answer "ollama" (h _ (LookPath "claude") w).2 Ho) as (e2 & ->).
  simpl. eauto.
Qed.

(** *** Missing tools *)

Lemma VerifyCodeLink_gh_missing link file line text (w : W) :
  missing h "gh" ->
  exists r, out (run h (VerifyCodeLink link file line text) w) = Done r
            /\ Status r = CheckStatusWarn
            /\ embeds (Message r) "gh CLI not found".
Proof.
  intros Hm. unfold VerifyCodeLink. rewrite run_after_newResult.
  destruct (missing_answer "gh" (started h w) Hm) as (e & He).
  simpl. rewrite He. simpl. eexists. split; [reflexivity |]. split; [reflexivity |].
  simpl. do 2 apply embeds_prepend. exists ": ", "". reflexivity.
Qed.

Lemma strict_VerifyCodeLink_gh_missing link file line text (w : W) :
  missing h "gh" ->
  exists r, out (run h (strict.VerifyCodeLink link file line text) w) = Done r
            /\ Status r = CheckStatusWarn.
Proof.
  intros Hm. unfold strict.VerifyCodeLink. rewrite run_after_newResult.
  destruct (missing_answer "gh" (started h w) Hm) as (e & He).
  simpl. rewrite He. simpl. eauto.
Qed.

Lemma VerifyCitation_bip_missing paperID file line text (w : W) :
  missing h "bip" ->
  exists r, out (run h (VerifyCitation paperID file line text) w) = Done r
            /\ Status r = CheckStatusFail
            /\ embeds (Message r) "bip CLI not found".
Proof.
  intros Hm. unfold VerifyCitation, lookupPaperInBipartite.
  rewrite run_after_newResult.
  destruct (missing_answer "bip" (started h w) Hm) as (e & He).
  simpl. rewrite He. simpl. eexists. split; [reflexivity |]. split; [reflexivity |].
  simpl. do 3 apply embeds_prepend. exists "", (": " +:+ e). reflexivity.
Qed.

(** The outcome of the claim check from the verdict of the heuristics. *)
Lemma VerifyClaim_no_provider sentence file line useLLM (w : W) :
  missing h "claude" -> missing h "ollama" ->
  exists r, out (run h (VerifyClaim sentence file line false useLLM) w) = Done r
            /\ Status r = (if (AnalyzeClaimWithHeuristics sentence).1.1
                           then CheckStatusFail else CheckStatusPass).
Proof.
  intros Hc Ho. unfold VerifyClaim. rewrite run_after_newResult.
  cbv beta iota zeta.
  destruct (AnalyzeClaimWithHeuristics sentence) as [[needs confidence] reason].
  cbn [fst snd].
  destruct (String.eqb confidence "low" && useLLM).
  - rewrite run_bind, run_bind.
    destruct (IsAvailable_missing (started h w) Hc Ho) as (w' & ->).
    cbn [out world log]. simpl run. cbn [out world log].
    destruct needs; simpl; eauto.
  - simpl. destruct needs; simpl; eauto.
Qed.

(** C3, as the code has it. A missing gh CLI makes the code-permalink
    verifier return warn. A missing bip CLI makes the citation verifier
    return fail, with the text of the error in the message. Without an
    LLM provider (neither claude nor ollama) the claim verifier returns
    what the heuristics decide for a sentence without citation: fail if
    they ask for a citation, pass otherwise, and never warn. *)
Theorem C3_missing_tool_outcomes :
  forall w : W,
    (missing h "gh" ->
     forall link file line text,
     exists r, out (run h (VerifyCodeLink link file line text) w) = Done r
               /\ Status r = CheckStatusWarn)
    /\ (missing h "bip" ->
        forall paperID file line text,
        exists r, out (run h (VerifyCitation paperID file line text) w) = Done r
                  /\ Status r = CheckStatusFail
                  /\ embeds (Message r) "bip CLI not found")
    /\ (missing h "claude" -> missing h "ollama" ->
        forall sentence file line useLLM,
        exists r, out (run h (VerifyClaim sentence file line false useLLM) w) = Done r
                  /\ Status r = (if (AnalyzeClaimWithHeuristics sentence).1.1
                                 then CheckStatusFail else CheckStatusPass)
                  /\ Status r <> CheckStatusWarn).
Proof.
  intros w. split; [| split].
  - intros Hm link file line text.
    destruct (VerifyCodeLink_gh_missing link file line text w Hm) as (r & E & S & _).
    eauto.
  - intros Hm paperID file line text.
    exact (VerifyCitation_bip_missing paperID file line text w Hm).
  - intros Hc Ho sentence file line useLLM.
    destruct (VerifyClaim_no_provider sentence file line useLLM w Hc Ho) as (r & E & S).
    exists r. split; [exact E |]. split; [exact S |].
    rewrite S. destruct (AnalyzeClaimWithHeuristics sentence).1.1; discriminate.
Qed.

(** *** URL probes *)

(** C5. For every URL probe that obtains an HTTP response, VerifyURL
    returns pass for a status code in 200..399, fail for one in 400..499
    with the code in the message (so 404 gives a message that embeds
    404), and warn for every other code; the code is recorded in the
    details. *)
Theorem C5_url_status_classes :
  forall (url file : string) (line : Z) (text : string) (code : Z) (w : W),
    responds h url code ->
    exists r, out (run h (VerifyURL url file line text) w) = Done r
      /\ ((200 <= code < 400)%Z -> Status r = CheckStatusPass)
      /\ ((400 <= code < 500)%Z ->
          Status r = CheckStatusFail /\ embeds (Message r) (Itoa code))
      /\ (code = 404%Z -> Status r = CheckStatusFail /\ embeds (Message r) "404")
      /\ ((code < 200 \/ 500 <= code)%Z -> Status r = CheckStatusWarn)
      /\ URL (Details r) = Some {| Url := url; HTTPStatus := Some code; Error := None |}.
Proof.
  intros url file line text code w [Hreq Hresp].
  unfold VerifyURL. rewrite run_after_newResult. simpl. rewrite Hreq. simpl.
  assert (Hclass :
    forall r0 : VerificationResult,
    exists r,
      (if (200 <=? code)%Z && (code <? 400)%Z then
         Ret (conclude r0 CheckStatusPass
                ("URL " +:+ Quote url +:+ " is accessible (HTTP " +:+ Itoa code +:+ ")")
                (urlDetails url (Some code) None))
       else if (400 <=? code)%Z && (code <? 500)%Z then
         Ret (conclude r0 CheckStatusFail
                ("URL " +:+ Quote url +:+ " returned client error (HTTP "
                   +:+ Itoa code +:+ ")")
                (urlDetails url (Some code) None))
       else
         Ret (conclude r0 CheckStatusWarn
                ("URL " +:+ Quote url +:+ " returned unexpected status (HTTP "
                   +:+ Itoa code +:+ ")")
                (urlDetails url (Some code) None))) = Ret r
      /\ ((200 <= code < 400)%Z -> Status r = CheckStatusPass)
      /\ ((400 <= code < 500)%Z ->
          Status r = CheckStatusFail /\ embeds (Message r) (Itoa code))
      /\ (code = 404%Z -> Status r = CheckStatusFail /\ embeds (Message r) "404")
      /\ ((code < 200 \/ 500 <= code)%Z -> Status r = CheckStatusWarn)
      /\ URL (Details r) = Some {| Url := url; HTTPStatus := Some code; Error := None |}).
  { intros r0.
    destruct ((200 <=? code)%Z && (code <? 400)%Z) eqn:E1.
    { apply andb_true_iff in E1 as [E1 E1']. apply Z.leb_le in E1. apply Z.ltb_lt in E1'.
      eexists. split; [reflexivity |]. simpl.
      split; [reflexivity |]. split; [intros; lia |]. split; [intros; lia |].
      split; [intros; lia | reflexivity]. }
    assert (Hout : ~ (200 <= code < 400)%Z).
    { intros [Ha Hb]. apply Z.leb_le in Ha. apply Z.ltb_lt in Hb.
      rewrite Ha, Hb in E1. discriminate. }
    destruct ((400 <=? code)%Z && (code <? 500)%Z) eqn:E2.
    { apply andb_true_iff in E2 as [E2 E2']. apply Z.leb_le in E2. apply Z.ltb_lt in E2'.
      eexists. split; [reflexivity |]. simpl.
      split; [intros; lia |].
      split; [intros _; split; [reflexivity |] |].
      { do 3 apply embeds_prepend. exists "", ")". reflexivity. }
      split; [intros ->; split; [reflexivity |] |].
      { do 3 apply embeds_prepend. exists "", ")". reflexivity. }
      split; [intros; lia | reflexivity]. }
    assert (Hout' : ~ (400 <= code < 500)%Z).
    { intros [Ha Hb]. apply Z.leb_le in Ha. apply Z.ltb_lt in Hb.
      rewrite Ha, Hb in E2. discriminate. }
    eexists. split; [reflexivity |]. simpl.
    split; [intros; lia |]. split; [intros; lia |]. split; [intros; lia |].
    split; [reflexivity | reflexivity]. }
  match goal with
  | |- context [ (h _ (HttpDo "HEAD" url) ?w1).1 ] =>
      destruct (Hresp w1) as [E | [(e & E) Hget]]; rewrite E; simpl;
      try rewrite Hget; simpl
  end.
  - match goal with
    | |- context [ conclude ?r0 _ _ _ ] => destruct (Hclass r0) as (r & -> & Hr)
    end.
    simpl. eauto.
  - match goal with
    | |- context [ conclude ?r0 _ _ _ ] => destruct (Hclass r0) as (r & -> & Hr)
    end.
    simpl. eauto.
Qed.

(** *** Code permalinks *)

Lemma installed_answer (file : string) (w : W) :
  installed h file -> (h _ (LookPath file) w).1 = None.
Proof. intros Hi. apply Hi. Qed.

(** With the version of codelinks.go that marks its line count as
    estimated: a file that exists gives warn and a line range reported
    as valid, whatever the size and the line range are. *)
Lemma VerifyCodeLink_estimated_warns link file line text (w : W) :
  installed h "gh" -> reports_present h link ->
  exists r, out (run h (VerifyCodeLink link file line text) w) = Done r
            /\ Status r = CheckStatusWarn
            /\ CodeLink (Details r)
               = Some {| Permalink := FullURL link; FileExists := true;
                         LineRangeValid := true |}.
Proof.
  intros Hgh Hfile. unfold VerifyCodeLink, checkFileExistsAtCommit.
  rewrite run_after_newResult. simpl. rewrite (installed_answer "gh" _ Hgh). simpl.
  match goal with
  | |- context [ h _ (CmdRun "gh" ?args) ?w1 ] =>
      destruct (Hfile w1) as (Herr & size & Hsize)
  end.
  simpl in Herr, Hsize. rewrite Herr. simpl. rewrite Hsize. simpl. eauto.
Qed.

(** In that version no answer of the world turns an existing file into a
    failure: a result of status fail says that the file does not exist. *)
Lemma VerifyCodeLink_fail_means_absent link file line text :
  ensures (VerifyCodeLink link file line text)
    (fun r => Status r = CheckStatusFail ->
              exists d, CodeLink (Details r) = Some d /\ FileExists d = false).
Proof.
  unfold VerifyCodeLink, checkFileExistsAtCommit, newResult. simpl.
  intros id now e. destruct e as [err |]; simpl; [discriminate |].
  intros r. destruct (cmd_err r) as [err |]; simpl.
  - destruct (Contains (cmd_stderr r) "404" || Contains (cmd_stderr r) "Not Found"); simpl.
    + destruct (slice_to (CommitSHA link) 8); simpl; [eauto | exact I].
    + eauto.
  - destruct (UnmarshalSize (cmd_stdout r)); simpl; [discriminate | eauto].
Qed.

(** C2. For every code permalink whose file exists at the commit, with
    gh installed and a metadata call that succeeds with a size: the line
    count that checkFileExistsAtCommit returns is the estimate size / 30,
    at least 1, marked as estimated; VerifyCodeLink returns warn, not
    fail, and reports the line range as valid, whatever the line range
    and the size are.  And whatever gh answers, a result of status fail
    reports the file as absent: an estimated line count never produces a
    fail outcome. *)
Theorem C2_estimated_count_warns :
  forall (link : CodeLinkMatch) (file : string) (line : Z) (text : string) (w : W),
    installed h "gh" -> reports_present h link ->
    (forall w', exists size,
       out (run h (checkFileExistsAtCommit (Owner link) (Repo link) (CommitSHA link)
                     (FilePath link)) w')
       = Done (Ok (true, Z.max 1 (size ÷ estimatedCharsPerLine), true)))
    /\ (exists r,
          out (run h (VerifyCodeLink link file line text) w) = Done r
          /\ Status r = CheckStatusWarn
          /\ Status r <> CheckStatusFail
          /\ CodeLink (Details r)
             = Some {| Permalink := FullURL link; FileExists := true;
                       LineRangeValid := true |})
    /\ ensures (VerifyCodeLink link file line text)
         (fun r => Status r = CheckStatusFail ->
                   exists d, CodeLink (Details r) = Some d /\ FileExists d = false).
Proof.
  intros link file line text w Hgh Hfile. split; [| split].
  - intros w'. destruct (Hfile w') as (Herr & size & Hsize). exists size.
    unfold checkFileExistsAtCommit, call. cbn [bind run]. cbv zeta.
    cbn [fst] in Herr, Hsize. rewrite Herr. cbn [bind run]. rewrite Hsize.
    cbn [bind run out]. do 3 f_equal.
    destruct (Z.ltb_spec (size ÷ estimatedCharsPerLine) 1); f_equal; lia.
  - destruct (VerifyCodeLink_estimated_warns link file line text w Hgh Hfile)
      as (r & Hrun & Hwarn & Hdetails).
    exists r. split; [exact Hrun |]. split; [exact Hwarn |]. split; [| exact Hdetails].
    rewrite Hwarn. discriminate.
  - apply VerifyCodeLink_fail_means_absent.
Qed.

(** C9. For every code permalink whose commit identifier is shorter than
    8 bytes and whose file the metadata call reports as absent, both
    versions of VerifyCodeLink panic on the slice CommitSHA[:8] in place
    of returning a fail outcome; the extraction pattern does produce such
    identifiers. *)
Theorem C9_short_commit_panics :
  forall (link : CodeLinkMatch) (file : string) (line : Z) (text : string) (w : W),
    installed h "gh" -> reports_absent h link ->
    (String.length (CommitSHA link) < 8)%nat ->
    (exists msg, out (run h (VerifyCodeLink link file line text) w) = Panicked msg)
    /\ (exists msg, out (run h (strict.VerifyCodeLink link file line text) w) = Panicked msg)
    /\ (exists content l, In l (ExtractCodeLinks content)
                          /\ (String.length (CommitSHA l) < 8)%nat).
Proof.
  intros link file line text w Hgh Habsent Hshort.
  assert (Hslice : slice_to (CommitSHA link) 8 = None).
  { unfold slice_to. destruct (Nat.leb_spec 8 (String.length (CommitSHA link))); [lia |].
    reflexivity. }
  split; [| split].
  - unfold VerifyCodeLink, checkFileExistsAtCommit.
    rewrite run_after_newResult. simpl. rewrite (installed_answer "gh" _ Hgh). simpl.
    match goal with
    | |- context [ h _ (CmdRun "gh" ?args) ?w1 ] => destruct (Habsent w1) as (Herr & H404)
    end.
    simpl in Herr, H404. destruct (cmd_err _); [| contradiction]. simpl.
    rewrite H404. simpl. rewrite Hslice. simpl. eauto.
  - unfold strict.VerifyCodeLink, strict.checkFileAtCommit.
    rewrite run_after_newResult. simpl. rewrite (installed_answer "gh" _ Hgh). simpl.
    match goal with
    | |- context [ h _ (CmdRun "gh" ?args) ?w1 ] => destruct (Habsent w1) as (Herr & H404)
    end.
    simpl in Herr, H404. destruct (cmd_err _); [| contradiction]. simpl.
    rewrite H404. simpl. rewrite Hslice. simpl. eauto.
  - exists "See https://github.com/owner/repo/blob/abc123/file.go#L10-L20".
    eexists. split; [vm_compute; left; reflexivity |]. simpl. lia.
Qed.

(** With an identifier of 8 bytes or more the same answer gives the
    fail outcome. *)
Lemma VerifyCodeLink_absent_fails link file line text (w : W) :
  installed h "gh" -> reports_absent h link ->
  (8 <= String.length (CommitSHA link))%nat ->
  exists r, out (run h (VerifyCodeLink link file line text) w) = Done r
            /\ Status r = CheckStatusFail.
Proof.
  intros Hgh Habsent Hlong.
  assert (Hslice : slice_to (CommitSHA link) 8
                   = Some (substring 0 8 (CommitSHA link))).
  { unfold slice_to. destruct (Nat.leb_spec 8 (String.length (CommitSHA link))); [| lia].
    reflexivity. }
  unfold VerifyCodeLink, checkFileExistsAtCommit.
  rewrite run_after_newResult. simpl. rewrite (installed_answer "gh" _ Hgh). simpl.
  match goal with
  | |- context [ h _ (CmdRun "gh" ?args) ?w1 ] => destruct (Habsent w1) as (Herr & H404)
  end.
  simpl in Herr, H404. destruct (cmd_err _); [| contradiction]. simpl.
  rewrite H404. simpl. rewrite Hslice. simpl. eauto.
Qed.

(** *** Claims *)

(** C6, as the code has it. When a citation marker occurs in the
    sentence itself or anywhere on the line the sentence stands on,
    VerifyFile calls VerifyClaim with hasCitation set, and VerifyClaim
    then returns pass whatever the must-cite and should-cite patterns
    say; the only events are the identifier and the clock, so the LLM
    oracle is not consulted. *)
Theorem C6_cited_sentence_passes :
  forall (lines : list string) (i : nat) (line sentence file : string)
         (useLLM : bool) (w : W),
    nth_error lines i = Some line ->
    MatchString citationPattern sentence = true
    \/ MatchString citationPattern line = true ->
    let lineNum := (Z.of_nat i + 1)%Z in
    hasCitation lines lineNum sentence = true
    /\ exists r,
         out (run h (VerifyClaim sentence file lineNum
                       (hasCitation lines lineNum sentence) useLLM) w) = Done r
         /\ Status r = CheckStatusPass
         /\ Message r = "Claim has citation"
         /\ log (run h (VerifyClaim sentence file lineNum
                          (hasCitation lines lineNum sentence) useLLM) w)
            = [Any UuidNew; Any TimeNow]
         /\ existsb is_llm_event
              (log (run h (VerifyClaim sentence file lineNum
                             (hasCitation lines lineNum sentence) useLLM) w)) = false.
Proof.
  intros lines i line sentence file useLLM w Hline Hmark lineNum.
  assert (Hcit : hasCitation lines lineNum sentence = true).
  { unfold hasCitation. destruct Hmark as [-> | Hl]; [reflexivity |].
    apply orb_true_iff. right.
    assert (Hi : (i < length lines)%nat) by (apply nth_error_Some; congruence).
    replace (Z.to_nat (lineNum - 1)) with i by (unfold lineNum; lia).
    rewrite (nth_error_nth _ _ "" Hline), Hl.
    unfold lineNum.
    destruct (Z.ltb_spec 0 (Z.of_nat i + 1)); [| lia].
    destruct (Z.leb_spec (Z.of_nat i + 1) (Z.of_nat (length lines))); [reflexivity | lia]. }
  split; [exact Hcit |]. rewrite Hcit.
  unfold VerifyClaim. rewrite run_after_newResult. simpl. eauto 10.
Qed.

End WithLib.
End VerifierFacts.

(* ------------------------------------------------------------------ *)
(** ** The file orchestrator *)

Module FileFacts.
Import GoString Regexp Effects Lib verify Spec EffectsFacts.

Lemma ensures_call_bind {X A : Type} (e : Event X) (f : X -> Prog A) (Q : A -> Prop) :
  (forall x, ensures (f x) Q) -> ensures (bind (call e) f) Q.
Proof. intros Hf. simpl. exact Hf. Qed.

Lemma ensures_any {A : Type} (p : Prog A) (Q : A -> Prop) :
  (forall a, Q a) -> ensures p Q.
Proof.
  intros HQ. induction p as [a | m | X e k IH]; simpl; [apply HQ | exact I | exact IH].
Qed.

Lemma claims_failed_snoc (rs : list VerificationResult) (r : VerificationResult) :
  claims_failed rs ->
  (CheckType r = CheckTypeClaim -> Status r = CheckStatusFail) ->
  claims_failed (rs ++ [r]).
Proof.
  intros Hrs Hr. apply List.Forall_app. split; [exact Hrs |].
  constructor; [exact Hr | constructor].
Qed.

Lemma claims_failed_app (rs rs' : list VerificationResult) :
  claims_failed rs -> claims_failed rs' -> claims_failed (rs ++ rs').
Proof. intros Hrs Hrs'. apply List.Forall_app. now split. Qed.

Ltac by_cases :=
  repeat (simpl;
          match goal with
          | |- forall _, _ => intro
          | |- True => exact I
          | |- context [match ?x with _ => _ end] => destruct x
          end);
  try reflexivity.

Section WithLib.
Context `{GoLib}.

(** Each verifier stamps its own check type, whatever the world answers. *)
Lemma VerifyTodoMarker_type marker file line text :
  ensures (VerifyTodoMarker marker file line text)
    (fun r => CheckType r = CheckTypeTodoMarker).
Proof. unfold VerifyTodoMarker, newResult. by_cases. Qed.

Lemma VerifyCitation_type paperID file line text :
  ensures (VerifyCitation paperID file line text)
    (fun r => CheckType r = CheckTypeCitation).
Proof. unfold VerifyCitation, lookupPaperInBipartite, newResult. by_cases. Qed.

Lemma VerifyURL_type url file line text :
  ensures (VerifyURL url file line text) (fun r => CheckType r = CheckTypeURL).
Proof. unfold VerifyURL, newResult. by_cases. Qed.

Lemma VerifyCodeLink_type link file line text :
  ensures (VerifyCodeLink link file line text)
    (fun r => CheckType r = CheckTypeCodeLink).
Proof. unfold VerifyCodeLink, checkFileExistsAtCommit, newResult. by_cases. Qed.

(** Appending the result of a verifier of another type keeps the
    invariant. *)
Lemma append_other_type (p : Prog VerificationResult) (checkType : string)
    (results : list VerificationResult) :
  checkType <> CheckTypeClaim ->
  ensures p (fun r => CheckType r = checkType) ->
  claims_failed results ->
  ensures (bind p (fun r => Ret (results ++ [r])%list)) claims_failed.
Proof.
  intros Hne Hp Hrs. apply ensures_bind. eapply ensures_weaken; [exact Hp |].
  intros r Hr. simpl. apply claims_failed_snoc; [exact Hrs |]. congruence.
Qed.

Lemma VerifyFile_claims_failed (filePath : string) (opts : Options) :
  ensures (VerifyFile filePath opts)
    (fun outcome => match outcome with
                    | Ok results => claims_failed results
                    | Err _ => True
                    end).
Proof.
  unfold VerifyFile.
  apply ensures_call_bind; intros content.
  destruct content as [contentStr | err]; [| exact I].
  apply ensures_call_bind; intros scanned.
  destruct scanned as [[lines scanErr] | err]; [| exact I].
  (* TODO markers *)
  apply ensures_bind.
  eapply ensures_weaken with (P := claims_failed).
  { apply ensures_foldM; [| constructor].
    intros results [i line] Hrs.
    destruct (MatchString todoMarkerPattern line); [| exact Hrs].
    apply ensures_foldM; [| exact Hrs].
    intros results' marker Hrs'.
    apply append_other_type with (checkType := CheckTypeTodoMarker);
      [discriminate | apply VerifyTodoMarker_type | exact Hrs']. }
  intros results Hrs. destruct scanErr as [err |]; [exact I |].
  (* citations *)
  apply ensures_bind.
  eapply ensures_weaken with (P := claims_failed).
  { apply ensures_foldM; [| exact Hrs].
    intros results' citation Hrs'.
    apply append_other_type with (checkType := CheckTypeCitation);
      [discriminate | apply VerifyCitation_type | exact Hrs']. }
  clear results Hrs. intros results Hrs.
  (* URLs *)
  apply ensures_bind.
  eapply ensures_weaken with (P := claims_failed).
  { apply ensures_foldM; [| exact Hrs].
    intros results' url Hrs'.
    destruct (Contains url "github.com" && Contains url "/blob/"); [exact Hrs' |].
    apply append_other_type with (checkType := CheckTypeURL);
      [discriminate | apply VerifyURL_type | exact Hrs']. }
  clear results Hrs. intros results Hrs.
  (* code links *)
  apply ensures_bind.
  eapply ensures_weaken with (P := claims_failed).
  { apply ensures_foldM; [| exact Hrs].
    intros results' link Hrs'.
    apply append_other_type with (checkType := CheckTypeCodeLink);
      [discriminate | apply VerifyCodeLink_type | exact Hrs']. }
  clear results Hrs. intros results Hrs.
  (* claims: only the failed ones are appended *)
  apply ensures_bind.
  eapply ensures_weaken with (P := claims_failed).
  { apply ensures_foldM; [| exact Hrs].
    intros results' [i line] Hrs'.
    destruct (skipped line); [exact Hrs' |].
    apply ensures_foldM; [| exact Hrs'].
    intros results'' sentence Hrs''.
    destruct (len (TrimSpace sentence) <? 20)%Z; [exact Hrs'' |].
    apply ensures_bind. apply ensures_any. intros r.
    destruct (String.eqb_spec (Status r) CheckStatusFail) as [E | _]; simpl.
    - apply claims_failed_snoc; [exact Hrs'' | intros _; exact E].
    - exact Hrs''. }
  intros results' Hrs'. exact Hrs'.
Qed.

Lemma VerifyFiles_claims_failed (files : list string) (opts : Options) :
  ensures (VerifyFiles files opts) (fun report => claims_failed (Results report)).
Proof.
  unfold VerifyFiles. apply ensures_bind.
  eapply ensures_weaken with (P := fun b => claims_failed (results b)).
  { apply ensures_foldM; [| constructor].
    intros b file Hb. apply ensures_bind.
    eapply ensures_weaken; [apply VerifyFile_claims_failed |].
    intros [rs | err] Hrs; simpl.
    - rewrite ReportFacts.results_fold_AddResult. simpl. now apply claims_failed_app.
    - apply claims_failed_snoc; [exact Hb | discriminate]. }
  intros b Hb. unfold Build. simpl. intros id now. exact Hb.
Qed.

(** C10. For every input file, the result list returned by VerifyFile
    holds no result of type claim with status pass or warn: every claim
    result in it has status fail. The same holds of the results of the
    report VerifyFiles builds, so a passing claim check is in no report
    and in no summary count. *)
Theorem C10_only_failed_claims_reported :
  forall (W : Type) (h : Handler W) (w : W) (opts : Options),
    (forall filePath results,
       out (run h (VerifyFile filePath opts) w) = Done (Ok results) ->
       forall r, In r results -> CheckType r = CheckTypeClaim ->
                 Status r = CheckStatusFail
                 /\ Status r <> CheckStatusPass /\ Status r <> CheckStatusWarn)
    /\ (forall files report,
          out (run h (VerifyFiles files opts) w) = Done report ->
          forall r, In r (Results report) -> CheckType r = CheckTypeClaim ->
                    Status r = CheckStatusFail).
Proof.
  intros W h w opts. split.
  - intros filePath results Hrun r Hin Hclaim.
    pose proof (ensures_run _ _ (VerifyFile_claims_failed filePath opts) W h w _ Hrun)
      as Hall.
    simpl in Hall. unfold claims_failed in Hall. rewrite List.Forall_forall in Hall.
    rewrite (Hall r Hin Hclaim). repeat split; discriminate.
  - intros files report Hrun r Hin Hclaim.
    pose proof (ensures_run _ _ (VerifyFiles_claims_failed files opts) W h w _ Hrun)
      as Hall.
    simpl in Hall. unfold claims_failed in Hall. rewrite List.Forall_forall in Hall.
    exact (Hall r Hin Hclaim).
Qed.

End WithLib.
End FileFacts.

(* ------------------------------------------------------------------ *)
(** ** The properties on the sample world *)

Module Examples.
Import GoString Regexp Effects Lib verify Spec Sample.
Import ReportFacts ExtractFacts VerifierFacts FileFacts.

Lemma bare_has_no_tool (file : string) : missing (handler bare) file.
Proof. intros w. simpl. discriminate. Qed.

Lemma with_gh_has_gh : installed (handler with_gh) "gh".
Proof. intros w. reflexivity. Qed.

(** The builder on the results of the test of the package. *)
Example Build_three_results :
  exists id now,
    out (run (handler bare) (Build (fold_left AddResult three_results NewReportBuilder)) 7%nat)
    = Done {| ReportID := id; GeneratedAt := now; ContentFiles := [];
              Summary := {| TotalChecks := 3; Passed := 1; Failed := 1; Warnings := 1 |};
              Results := three_results; ExitCode := 1 |}.
Proof. eexists. eexists. vm_compute. reflexivity. Qed.

Lemma C8_witness :
  Permutation three_results (List.rev three_results)
  /\ exists report report',
       out (run (handler bare)
              (Build (fold_left AddResult three_results NewReportBuilder)) 0%nat)
       = Done report
       /\ Results report = three_results
       /\ Passed (Summary report) = count_status CheckStatusPass (Results report)
       /\ Failed (Summary report) = count_status CheckStatusFail (Results report)
       /\ Warnings (Summary report) = count_status CheckStatusWarn (Results report)
       /\ TotalChecks (Summary report) = Z.of_nat (length (Results report))
       /\ out (run (handler bare)
                 (Build (fold_left AddResult (List.rev three_results) NewReportBuilder))
                 0%nat) = Done report'
       /\ Summary report' = Summary report.
Proof.
  split.
  - apply Permutation_rev.
  - apply (C8_summary_partition nat (handler bare) 0%nat three_results
             (List.rev three_results)).
    apply Permutation_rev.
Defined.

Lemma C7_witness :
  citation_tokens "@paper:a, then @paper:a"
  = citation_tokens "Compare @paper:a and @paper:a again."
  /\ ExtractCitations "@paper:a, then @paper:a"
     = ExtractCitations "Compare @paper:a and @paper:a again.".
Proof.
  split.
  - vm_compute. reflexivity.
  - apply (C7_citations_unique_in_first_seen_order "Compare @paper:a and @paper:a again.").
    vm_compute. reflexivity.
Defined.

Lemma C4_witness :
  In line_42
    (ExtractCodeLinks "See https://github.com/owner/repo/blob/abc123def456/path/to/file.c#L42")
  /\ exists m,
       In m (FindAllStringSubmatch githubPermalinkPattern
               "See https://github.com/owner/repo/blob/abc123def456/path/to/file.c#L42")
       /\ length m = 7%nat
       /\ FullURL line_42 = at_ m 0
       /\ StartLine line_42 = Atoi (at_ m 5)
       /\ (at_ m 6 = "" ->
           EndLine line_42 = StartLine line_42 /\ (StartLine line_42 <= EndLine line_42)%Z)
       /\ (at_ m 6 <> "" -> EndLine line_42 = Atoi (at_ m 6)).
Proof.
  assert (Hin : In line_42
    (ExtractCodeLinks
       "See https://github.com/owner/repo/blob/abc123def456/path/to/file.c#L42")).
  { vm_compute. left. reflexivity. }
  split; [exact Hin |].
  exact (C4_single_anchor_end_is_start _ _ Hin).
Defined.

(** C3 in the wording of the specification does not hold for the
    citation verifier: without the bip CLI the outcome is fail, not warn. *)
Lemma C3_counterexample :
  ~ (forall (W : Type) (h : Handler W) (w : W) (paperID file : string) (line : Z)
            (text : string) (r : VerificationResult),
       missing h "bip" ->
       out (run h (@VerifyCitation lib paperID file line text) w) = Done r ->
       Status r = CheckStatusWarn).
Proof.
  intros Hall.
  destruct (VerifyCitation_bip_missing (H := lib) (handler bare) "tavare1986" "notes.qmd" 1
              "See [@paper:tavare1986] for details." 0%nat (bare_has_no_tool "bip"))
    as (r & Hrun & Hfail & _).
  specialize (Hall nat (handler bare) 0%nat "tavare1986" "notes.qmd" 1%Z
                "See [@paper:tavare1986] for details." r (bare_has_no_tool "bip") Hrun).
  rewrite Hfail in Hall. discriminate.
Qed.

Lemma C3_witness :
  missing (handler bare) "gh" /\ missing (handler bare) "bip"
  /\ missing (handler bare) "claude" /\ missing (handler bare) "ollama"
  /\ (exists r, out (run (handler bare)
                       (@VerifyCodeLink lib (link_to "abc123def456" 10 20) "notes.qmd" 1 "")
                       0%nat) = Done r
                /\ Status r = CheckStatusWarn)
  /\ (exists r, out (run (handler bare)
                       (@VerifyCitation lib "tavare1986" "notes.qmd" 1 "") 0%nat) = Done r
                /\ Status r = CheckStatusFail
                /\ embeds (Message r) "bip CLI not found")
  /\ (exists r, out (run (handler bare)
                       (@VerifyClaim lib "Method A is 40% faster than method B."
                          "notes.qmd" 2 false true) 0%nat) = Done r
                /\ Status r
                   = (if (AnalyzeClaimWithHeuristics
                            "Method A is 40% faster than method B.").1.1
                      then CheckStatusFail else CheckStatusPass)
                /\ Status r <> CheckStatusWarn).
Proof.
  pose proof (C3_missing_tool_outcomes (H := lib) (handler bare) 0%nat) as (Hgh & Hbip & Hllm).
  repeat (split; [apply bare_has_no_tool |]).
  split; [| split].
  - apply Hgh, bare_has_no_tool.
  - apply Hbip, bare_has_no_tool.
  - apply Hllm; apply bare_has_no_tool.
Defined.

Lemma with_gh_responds_404 : responds (handler with_gh) "https://example.org/gone" 404.
Proof. split; intros w; [reflexivity | left; reflexivity]. Qed.

Lemma C5_witness :
  responds (handler with_gh) "https://example.org/gone" 404
  /\ exists r,
       out (run (handler with_gh)
              (@VerifyURL lib "https://example.org/gone" "notes.qmd" 3 "") 0%nat) = Done r
       /\ ((200 <= 404 < 400)%Z -> Status r = CheckStatusPass)
       /\ ((400 <= 404 < 500)%Z ->
           Status r = CheckStatusFail /\ embeds (Message r) (Itoa 404))
       /\ (404%Z = 404%Z -> Status r = CheckStatusFail /\ embeds (Message r) "404")
       /\ ((404 < 200 \/ 500 <= 404)%Z -> Status r = CheckStatusWarn)
       /\ URL (Details r)
          = Some {| Url := "https://example.org/gone"; HTTPStatus := Some 404%Z;
                    Error := None |}.
Proof.
  split; [exact with_gh_responds_404 |].
  exact (C5_url_status_classes (H := lib) (handler with_gh) "https://example.org/gone"
           "notes.qmd" 3 "" 404 0%nat with_gh_responds_404).
Defined.

(** The 30 bytes of the sample file are one estimated line; the link
    asks for lines 10 to 20. *)
Lemma with_gh_reports_present :
  reports_present (H := lib) (handler with_gh) (link_to "abc123def456" 10 20).
Proof. intros w. simpl. split; [reflexivity | eexists; reflexivity]. Qed.

Lemma with_gh_reports_absent : reports_absent (handler with_gh) (link_to "abc123" 10 20).
Proof. intros w. simpl. split; [discriminate | reflexivity]. Qed.

(** The earlier text of codelinks.go on the same kind of input: the
    file exists, its line count is only the estimate size / 30, and the
    outcome is fail with the line range reported invalid. *)
Example strict_fails_on_estimated_count :
  installed (handler with_gh) "gh"
  /\ reports_present (H := lib) (handler with_gh) (link_to "abc123def456" 10 20)
  /\ exists r,
       out (run (handler with_gh)
              (@strict.VerifyCodeLink lib (link_to "abc123def456" 10 20) "notes.qmd" 1 "")
              0%nat) = Done r
       /\ Status r = CheckStatusFail
       /\ Message r = "Line range L10-L20 exceeds file length (1 lines)"
       /\ CodeLink (Details r)
          = Some {| Permalink := FullURL (link_to "abc123def456" 10 20);
                    FileExists := true; LineRangeValid := false |}.
Proof.
  split; [exact with_gh_has_gh |]. split; [exact with_gh_reports_present |].
  eexists. split; [vm_compute; reflexivity |].
  split; [reflexivity |]. split; [reflexivity |]. vm_compute. reflexivity.
Qed.

(** The text with [estimatedCharsPerLine] on that input: a file of 30
    bytes, lines 10 to 20 asked for; warn, line range reported valid. *)
Lemma C2_witness :
  installed (handler with_gh) "gh"
  /\ reports_present (H := lib) (handler with_gh) (link_to "abc123def456" 10 20)
  /\ exists r,
       out (run (handler with_gh)
              (@VerifyCodeLink lib (link_to "abc123def456" 10 20) "notes.qmd" 1 "") 0%nat)
       = Done r
       /\ Status r = CheckStatusWarn
       /\ Status r <> CheckStatusFail
       /\ CodeLink (Details r)
          = Some {| Permalink := FullURL (link_to "abc123def456" 10 20);
                    FileExists := true; LineRangeValid := true |}.
Proof.
  split; [exact with_gh_has_gh |]. split; [exact with_gh_reports_present |].
  exact (proj1 (proj2 (C2_estimated_count_warns (H := lib) (handler with_gh)
                         (link_to "abc123def456" 10 20) "notes.qmd" 1 "" 0%nat
                         with_gh_has_gh with_gh_reports_present))).
Defined.

Lemma C9_witness :
  installed (handler with_gh) "gh"
  /\ reports_absent (handler with_gh) (link_to "abc123" 10 20)
  /\ (String.length (CommitSHA (link_to "abc123" 10 20)) < 8)%nat
  /\ (exists msg,
        out (run (handler with_gh)
               (@VerifyCodeLink lib (link_to "abc123" 10 20) "notes.qmd" 1 "") 0%nat)
        = Panicked msg)
  /\ (exists msg,
        out (run (handler with_gh)
               (@strict.VerifyCodeLink lib (link_to "abc123" 10 20) "notes.qmd" 1 "") 0%nat)
        = Panicked msg)
  /\ (exists content l, In l (ExtractCodeLinks content)
                        /\ (String.length (CommitSHA l) < 8)%nat).
Proof.
  split; [exact with_gh_has_gh |]. split; [exact with_gh_reports_absent |].
  split; [simpl; lia |].
  apply (C9_short_commit_panics (H := lib) (handler with_gh) (link_to "abc123" 10 20)
           "notes.qmd" 1 "" 0%nat with_gh_has_gh with_gh_reports_absent).
  simpl. lia.
Defined.

(** C6 in the wording of the specification does not hold for a marker on
    the immediately preceding line: the sentence of line 2 below has the
    marker of line 1 right above it, and its claim check is a failure, in
    VerifyClaim as VerifyFile calls it and in the results of VerifyFile. *)
Lemma C6_counterexample :
  MatchString citationPattern "See [@paper:tavare1986] for details." = true
  /\ hasCitation ["See [@paper:tavare1986] for details.";
                  "Method A is 40% faster than method B."] 2
       "Method A is 40% faster than method B." = false
  /\ (exists r,
        out (run (handler bare)
               (@VerifyClaim lib "Method A is 40% faster than method B." "notes.qmd" 2
                  (hasCitation ["See [@paper:tavare1986] for details.";
                                "Method A is 40% faster than method B."] 2
                     "Method A is 40% faster than method B.") true) 0%nat) = Done r
        /\ Status r = CheckStatusFail)
  /\ (exists results r,
        out (run (handler bare) (@VerifyFile lib "notes.qmd" DefaultOptions) 0%nat)
        = Done (Ok results)
        /\ In r results
        /\ CheckType r = CheckTypeClaim
        /\ Target r = {| File := "notes.qmd"; Line := 2;
                         Text := "Method A is 40% faster than method B." |}
        /\ Status r = CheckStatusFail).
Proof.
  split; [vm_compute; reflexivity |]. split; [vm_compute; reflexivity |]. split.
  - eexists. split; [vm_compute; reflexivity |]. reflexivity.
  - eexists. eexists. split; [vm_compute; reflexivity |].
    split; [right; left; reflexivity |]. repeat split.
Qed.

Lemma C6_witness :
  nth_error ["Method A is 40% faster than method B [@paper:smith2020]."] 0
  = Some "Method A is 40% faster than method B [@paper:smith2020]."
  /\ (MatchString citationPattern "Method A is 40% faster than method B [@paper:smith2020]."
      = true
      \/ MatchString citationPattern
           "Method A is 40% faster than method B [@paper:smith2020]." = true)
  /\ exists r,
       out (run (handler bare)
              (@VerifyClaim lib "Method A is 40% faster than method B [@paper:smith2020]."
                 "notes.qmd" 1
                 (hasCitation ["Method A is 40% faster than method B [@paper:smith2020]."]
                    1 "Method A is 40% faster than method B [@paper:smith2020].") true)
              0%nat) = Done r
       /\ Status r = CheckStatusPass.
Proof.
  assert (Hm : MatchString citationPattern
                 "Method A is 40% faster than method B [@paper:smith2020]." = true).
  { vm_compute. reflexivity. }
  split; [reflexivity |]. split; [left; exact Hm |].
  destruct (C6_cited_sentence_passes (H := lib) (handler bare)
              ["Method A is 40% faster than method B [@paper:smith2020]."] 0
              "Method A is 40% faster than method B [@paper:smith2020]."
              "Method A is 40% faster than method B [@paper:smith2020]."
              "notes.qmd" true 0%nat eq_refl (or_introl Hm))
    as (_ & r & Hrun & Hpass & _).
  exists r. split; [exact Hrun | exact Hpass].
Defined.

Lemma C10_witness :
  exists results,
    out (run (handler bare) (@VerifyFile lib "notes.qmd" DefaultOptions) 0%nat)
    = Done (Ok results)
    /\ (exists r, In r results /\ CheckType r = CheckTypeClaim)
    /\ forall r, In r results -> CheckType r = CheckTypeClaim ->
                 Status r = CheckStatusFail
                 /\ Status r <> CheckStatusPass /\ Status r <> CheckStatusWarn.
Proof.
  eexists. split; [vm_compute; reflexivity |]. split.
  - eexists. split; [right; left; reflexivity | reflexivity].
  - apply (proj1 (C10_only_failed_claims_reported (H := lib) nat (handler bare) 0%nat
                    DefaultOptions) "notes.qmd").
    vm_compute. reflexivity.
Defined.

End Examples.

(* ------------------------------------------------------------------ *)
(** ** Reports: filters and well-formed results *)

Module ReportMore.
Import GoString Regexp Effects Lib verify report Spec Props EffectsFacts.

Lemma fold_filter_append {A : Type} (f : A -> bool) (l acc : list A) :
  fold_left (fun filtered x => if f x then (filtered ++ [x])%list else filtered) l acc
  = (acc ++ List.filter f l)%list.
Proof.
  revert acc. induction l as [| x l IH]; intros acc; simpl.
  - now rewrite app_nil_r.
  - rewrite IH. destruct (f x); [now rewrite <- app_assoc | reflexivity].
Qed.

Lemma FilterByStatus_filter (r : VerificationReport) (status : string) :
  FilterByStatus r status
  = List.filter (fun x => String.eqb (Status x) status) (Results r).
Proof. unfold FilterByStatus. now rewrite fold_filter_append. Qed.

Lemma FilterByType_filter (r : VerificationReport) (checkType : string) :
  FilterByType r checkType
  = List.filter (fun x => String.eqb (CheckType x) checkType) (Results r).
Proof. unfold FilterByType. now rewrite fold_filter_append. Qed.

(** X1. For the report Build makes of any sequence of results, the
    lists FilterByStatus returns for pass, fail and warn have the lengths
    the summary gives; a result is in the list of a status exactly when it
    was added with that status; and the exit code is 0 exactly when the
    list of failures is empty. *)
Theorem FilterByStatus_matches_summary :
  forall (W : Type) (h : Handler W) (w : W) (rs : list VerificationResult),
  exists report,
    out (run h (Build (fold_left AddResult rs NewReportBuilder)) w) = Done report
    /\ Z.of_nat (length (FilterByStatus report CheckStatusPass)) = Passed (Summary report)
    /\ Z.of_nat (length (FilterByStatus report CheckStatusFail)) = Failed (Summary report)
    /\ Z.of_nat (length (FilterByStatus report CheckStatusWarn)) = Warnings (Summary report)
    /\ (forall status r,
          In r (FilterByStatus report status) <-> In r rs /\ Status r = status)
    /\ (ExitCode report = 0%Z <-> FilterByStatus report CheckStatusFail = []).
Proof.
  intros W h w rs.
  destruct (ReportFacts.Build_run h w (fold_left AddResult rs NewReportBuilder))
    as (id & now & E).
  rewrite ReportFacts.results_of_sequence in E.
  eexists. split; [exact E |].
  rewrite !FilterByStatus_filter. simpl.
  split; [reflexivity |]. split; [reflexivity |]. split; [reflexivity |]. split.
  - intros status r. rewrite FilterByStatus_filter. simpl.
    rewrite filter_In, String.eqb_eq. reflexivity.
  - unfold count_status.
    destruct (List.filter _ rs) as [| x l] eqn:Ef; simpl.
    + split; reflexivity.
    + split; [intros Habs | discriminate].
      destruct (Z.ltb_spec 0 (Z.of_nat (S (length l)))); [discriminate | lia].
Qed.

End ReportMore.

(* ------------------------------------------------------------------ *)
(** ** What every verifier leaves in its result *)

Module StampFacts.
Import GoString Regexp Effects Lib verify Spec Props EffectsFacts.

Ltac all_answers :=
  repeat (simpl;
          match goal with
          | |- forall _, _ => intro
          | |- True => exact I
          | |- context [match ?x with _ => _ end] => destruct x
          end).

Ltac stamp := unfold stamped; simpl; repeat split; auto.

Section WithLib.
Context `{GoLib}.

Lemma VerifyTodoMarker_stamped marker file line text :
  ensures (VerifyTodoMarker marker file line text)
    (stamped CheckTypeTodoMarker file line text [CheckStatusFail]).
Proof. unfold VerifyTodoMarker, newResult. all_answers. stamp. Qed.

Lemma VerifyCitation_stamped paperID file line text :
  ensures (VerifyCitation paperID file line text)
    (stamped CheckTypeCitation file line text [CheckStatusPass; CheckStatusFail]).
Proof.
  unfold VerifyCitation, lookupPaperInBipartite, newResult. all_answers; stamp.
Qed.

Lemma VerifyURL_stamped url file line text :
  ensures (VerifyURL url file line text)
    (stamped CheckTypeURL file line text check_statuses).
Proof. unfold VerifyURL, newResult. all_answers; stamp. Qed.

Lemma VerifyCodeLink_stamped link file line text :
  ensures (VerifyCodeLink link file line text)
    (stamped CheckTypeCodeLink file line text [CheckStatusFail; CheckStatusWarn]).
Proof.
  unfold VerifyCodeLink, checkFileExistsAtCommit, newResult. all_answers; stamp.
Qed.

Lemma VerifyClaim_stamped sentence file line hasCit useLLM :
  ensures (VerifyClaim sentence file line hasCit useLLM)
    (stamped CheckTypeClaim file line sentence [CheckStatusPass; CheckStatusFail]).
Proof.
  unfold VerifyClaim. apply ensures_bind. unfold newResult. simpl. intros id now.
  destruct hasCit; [stamp |].
  apply ensures_bind. apply FileFacts.ensures_any. intros [[needs confidence] reason].
  destruct needs; stamp.
Qed.

End WithLib.
End StampFacts.

(* ------------------------------------------------------------------ *)
(** ** The results of a run over files *)

Module PipelineFacts.
Import GoString Regexp Effects Lib verify report Spec Props EffectsFacts StampFacts.

Lemma findLineNumber_from_range (lines : list string) (substr : string) (i : Z) :
  findLineNumber_from i lines substr = 0%Z
  \/ (i < findLineNumber_from i lines substr <= i + Z.of_nat (length lines))%Z.
Proof.
  revert i. induction lines as [| line rest IH]; intros i; simpl; [now left |].
  destruct (Contains line substr); [right; lia |].
  destruct (IH (i + 1)%Z) as [E | Hr]; [now left | right; lia].
Qed.

Lemma findLineNumber_nonneg (lines : list string) (substr : string) :
  (0 <= findLineNumber lines substr)%Z.
Proof.
  unfold findLineNumber. destruct (findLineNumber_from_range lines substr 0); lia.
Qed.

Lemma stamped_reported checkType file line text statuses r :
  stamped checkType file line text statuses r ->
  (0 <= line)%Z ->
  In checkType check_types ->
  incl statuses check_statuses ->
  (checkType = CheckTypeTodoMarker -> statuses = [CheckStatusFail] /\ (1 <= line)%Z) ->
  (checkType = CheckTypeCodeLink -> ~ In CheckStatusPass statuses) ->
  (checkType = CheckTypeCitation -> ~ In CheckStatusWarn statuses) ->
  reported_for file r.
Proof.
  intros (Ht & Htarget & Hs) Hline Htype Hincl Htodo Hlink Hcit.
  unfold reported_for. rewrite Htarget, Ht. simpl.
  split; [reflexivity |]. split; [exact Hline |]. split; [exact Htype |].
  split; [now apply Hincl |]. split; [| split].
  - intros E. destruct (Htodo E) as [-> Hl]. split; [| exact Hl].
    destruct Hs as [<- | []]. reflexivity.
  - intros E Hp. apply (Hlink E). now rewrite <- Hp.
  - intros E Hw. apply (Hcit E). now rewrite <- Hw.
Qed.

Ltac side_conditions :=
  try (intros x [<- | [<- | []]]; simpl; tauto);
  try (intros x [<- | []]; simpl; tauto);
  try (simpl; tauto);
  try discriminate;
  try (intros _; simpl; intros [E | [E | []]]; discriminate E).

Section WithLib.
Context `{GoLib}.

(** Appending what a verifier returns keeps the results well formed. *)
Lemma append_stamped (p : Prog VerificationResult) checkType file line text statuses
    (results : list VerificationResult) :
  ensures p (stamped checkType file line text statuses) ->
  (forall r, stamped checkType file line text statuses r -> reported_for file r) ->
  List.Forall (reported_for file) results ->
  ensures (bind p (fun r => Ret (results ++ [r])%list)) (List.Forall (reported_for file)).
Proof.
  intros Hp Hr Hrs. apply ensures_bind. eapply ensures_weaken; [exact Hp |].
  intros r Hst. simpl. apply List.Forall_app. split; [exact Hrs |].
  constructor; [now apply Hr | constructor].
Qed.

Lemma VerifyFile_reported (filePath : string) (opts : Options) :
  ensures (VerifyFile filePath opts)
    (fun outcome => match outcome with
                    | Ok results => List.Forall (reported_for filePath) results
                    | Err _ => True
                    end).
Proof.
  unfold VerifyFile.
  apply FileFacts.ensures_call_bind; intros content.
  destruct content as [contentStr | err]; [| exact I].
  apply FileFacts.ensures_call_bind; intros scanned.
  destruct scanned as [[lines scanErr] | err]; [| exact I].
  apply ensures_bind.
  eapply ensures_weaken with (P := List.Forall (reported_for filePath)).
  { apply ensures_foldM; [| constructor].
    intros results [i line] Hrs.
    destruct (MatchString todoMarkerPattern line); [| exact Hrs].
    apply ensures_foldM; [| exact Hrs].
    intros results' marker Hrs'.
    eapply append_stamped; [apply VerifyTodoMarker_stamped | | exact Hrs'].
    intros r Hr. eapply stamped_reported; [exact Hr | lia | ..]; side_conditions.
    intros _. split; [reflexivity | lia]. }
  intros results Hrs. destruct scanErr as [err |]; [exact I |].
  apply ensures_bind.
  eapply ensures_weaken with (P := List.Forall (reported_for filePath)).
  { apply ensures_foldM; [| exact Hrs].
    intros results' citation Hrs'.
    eapply append_stamped; [apply VerifyCitation_stamped | | exact Hrs'].
    intros r Hr.
    eapply stamped_reported; [exact Hr | apply findLineNumber_nonneg | ..];
      side_conditions. }
  clear results Hrs. intros results Hrs.
  apply ensures_bind.
  eapply ensures_weaken with (P := List.Forall (reported_for filePath)).
  { apply ensures_foldM; [| exact Hrs].
    intros results' url Hrs'.
    destruct (Contains url "github.com" && Contains url "/blob/"); [exact Hrs' |].
    eapply append_stamped; [apply VerifyURL_stamped | | exact Hrs'].
    intros r Hr.
    eapply stamped_reported; [exact Hr | apply findLineNumber_nonneg | ..];
      side_conditions. }
  clear results Hrs. intros results Hrs.
  apply ensures_bind.
  eapply ensures_weaken with (P := List.Forall (reported_for filePath)).
  { apply ensures_foldM; [| exact Hrs].
    intros results' link Hrs'.
    eapply append_stamped; [apply VerifyCodeLink_stamped | | exact Hrs'].
    intros r Hr.
    eapply stamped_reported; [exact Hr | apply findLineNumber_nonneg | ..];
      side_conditions. }
  clear results Hrs. intros results Hrs.
  apply ensures_bind.
  eapply ensures_weaken with (P := List.Forall (reported_for filePath)).
  { apply ensures_foldM; [| exact Hrs].
    intros results' [i line] Hrs'.
    destruct (skipped line); [exact Hrs' |].
    apply ensures_foldM; [| exact Hrs'].
    intros results'' sentence Hrs''.
    destruct (len (TrimSpace sentence) <? 20)%Z; [exact Hrs'' |].
    apply ensures_bind.
    eapply ensures_weaken; [apply VerifyClaim_stamped |].
    intros r Hr. destruct (String.eqb (Status r) CheckStatusFail); simpl; [| exact Hrs''].
    apply List.Forall_app. split; [exact Hrs'' |]. constructor; [| constructor].
    eapply stamped_reported; [exact Hr | lia | ..]; side_conditions. }
  intros results' Hrs'. exact Hrs'.
Qed.

(** X2. Every result VerifyFile returns for a file names that file as
    its target, has a line number that is 0 (not located) or positive, one
    of the five check types and one of the three statuses; a TODO marker
    result is a failure on a numbered line, a code link result is never a
    pass and a citation result never a warning. *)
Theorem VerifyFile_results_well_formed :
  forall (W : Type) (h : Handler W) (w : W) (filePath : string) (opts : Options)
         (results : list VerificationResult),
    out (run h (VerifyFile filePath opts) w) = Done (Ok results) ->
    forall r, In r results ->
      File (Target r) = filePath
      /\ (0 <= Line (Target r))%Z
      /\ In (CheckType r) check_types
      /\ In (Status r) check_statuses
      /\ (CheckType r = CheckTypeTodoMarker ->
          Status r = CheckStatusFail /\ (1 <= Line (Target r))%Z)
      /\ (CheckType r = CheckTypeCodeLink -> Status r <> CheckStatusPass)
      /\ (CheckType r = CheckTypeCitation -> Status r <> CheckStatusWarn).
Proof.
  intros W h w filePath opts results Hrun r Hin.
  pose proof (ensures_run _ _ (VerifyFile_reported filePath opts) W h w _ Hrun) as Hall.
  simpl in Hall. rewrite List.Forall_forall in Hall. exact (Hall r Hin).
Qed.

(** *** Several files *)

Lemma buckets_step key k keys (rs : list VerificationResult) :
  buckets key (k :: keys) rs
  = (List.filter (fun r => String.eqb (key r) k) rs ++ buckets key keys rs)%list.
Proof. reflexivity. Qed.

Lemma buckets_cons_out key keys (r : VerificationResult) rs :
  ~ In (key r) keys -> buckets key keys (r :: rs) = buckets key keys rs.
Proof.
  induction keys as [| k keys IH]; intros Hout; [reflexivity |].
  rewrite !buckets_step. cbn [List.filter].
  destruct (String.eqb_spec (key r) k) as [E | _].
  - exfalso. apply Hout. now left.
  - f_equal. apply IH. intros Hin. apply Hout. now right.
Qed.

Lemma buckets_cons_in key keys (r : VerificationResult) rs :
  List.NoDup keys -> In (key r) keys ->
  Permutation (r :: buckets key keys rs) (buckets key keys (r :: rs)).
Proof.
  induction keys as [| k keys IH]; intros Hnd Hin; [destruct Hin |].
  inversion Hnd as [| ? ? Hk Hnd']; subst.
  rewrite !buckets_step. cbn [List.filter].
  destruct (String.eqb_spec (key r) k) as [E | Hne].
  - subst k. rewrite (buckets_cons_out _ _ _ _ Hk). reflexivity.
  - destruct Hin as [E | Hin]; [congruence |].
    rewrite <- (IH Hnd' Hin). apply Permutation_middle.
Qed.

Lemma buckets_partition key keys (rs : list VerificationResult) :
  List.NoDup keys -> (forall r, In r rs -> In (key r) keys) ->
  Permutation rs (buckets key keys rs).
Proof.
  intros Hnd. induction rs as [| r rs IH]; intros Hall.
  - clear. induction keys as [| k keys IH]; [constructor | exact IH].
  - rewrite <- buckets_cons_in by (auto; apply Hall; now left).
    constructor. apply IH. intros x Hx. apply Hall. now right.
Qed.

Lemma check_statuses_NoDup : List.NoDup check_statuses.
Proof. repeat constructor; simpl; intuition discriminate. Qed.

Lemma check_types_NoDup : List.NoDup check_types.
Proof. repeat constructor; simpl; intuition discriminate. Qed.

Lemma fileErrorResult_reported file err : reported_for file (fileErrorResult file err).
Proof.
  unfold reported_for, fileErrorResult. simpl.
  repeat split; try lia; try discriminate; auto.
Qed.

Lemma files_fold_AddResult (rs : list VerificationResult) (b : ReportBuilder) :
  files (fold_left AddResult rs b) = files b.
Proof.
  revert b. induction rs as [| r rs IH]; intros b; simpl; [reflexivity |].
  now rewrite IH.
Qed.

Lemma VerifyFiles_loop (all : list string) (opts : Options) (l : list string) :
  (forall f, In f l -> In f all) ->
  forall b, List.Forall (from_files all) (results b) ->
    ensures
      (foldM (fun builder file =>
                let builder := AddFile builder file in
                outcome <- VerifyFile file opts;;
                match outcome with
                | Err err => Ret (AddResult builder (fileErrorResult file err))
                | Ok results => Ret (fold_left AddResult results builder)
                end) l b)
      (fun b' => files b' = (files b ++ l)%list
                 /\ List.Forall (from_files all) (results b')).
Proof.
  induction l as [| file l IH]; intros Hl b Hb; cbn [foldM].
  - simpl. split; [now rewrite app_nil_r | exact Hb].
  - apply ensures_bind. apply ensures_bind.
    eapply ensures_weaken; [apply VerifyFile_reported |].
    intros [rs | err] Hrs; cbn [ensures].
    + eapply ensures_weaken.
      * apply IH; [intros f Hf; apply Hl; now right |].
        rewrite ReportFacts.results_fold_AddResult. simpl.
        apply List.Forall_app. split; [exact Hb |].
        eapply List.Forall_impl; [| exact Hrs].
        intros r Hr. exists file. split; [apply Hl; now left | exact Hr].
      * intros b' [Hf Hr]. split; [| exact Hr].
        rewrite Hf, files_fold_AddResult. simpl. now rewrite <- app_assoc.
    + eapply ensures_weaken.
      * apply IH; [intros f Hf; apply Hl; now right |]. simpl.
        apply List.Forall_app. split; [exact Hb |]. constructor; [| constructor].
        exists file. split; [apply Hl; now left | apply fileErrorResult_reported].
      * intros b' [Hf Hr]. split; [| exact Hr].
        rewrite Hf. simpl. now rewrite <- app_assoc.
Qed.

Lemma VerifyFiles_reported (files : list string) (opts : Options) :
  ensures (VerifyFiles files opts)
    (fun report =>
       ContentFiles report = files
       /\ List.Forall (from_files files) (Results report)
       /\ Summary report
          = {| TotalChecks := Z.of_nat (length (Results report));
               Passed := count_status CheckStatusPass (Results report);
               Failed := count_status CheckStatusFail (Results report);
               Warnings := count_status CheckStatusWarn (Results report) |}).
Proof.
  unfold VerifyFiles. apply ensures_bind.
  eapply ensures_weaken.
  - apply (VerifyFiles_loop files opts files); [auto | constructor].
  - intros b [Hf Hr]. unfold Build. simpl. intros id now.
    rewrite ReportFacts.fold_tally. simpl. auto.
Qed.

(** X3. Every report VerifyFiles produces lists the input files in
    order; each of its results names one of these files and has one of the
    five check types and one of the three statuses; so the result list is
    a rearrangement of its three FilterByStatus lists, and of its five
    FilterByType lists, and Passed + Failed + Warnings is TotalChecks. *)
Theorem VerifyFiles_report_partitions :
  forall (W : Type) (h : Handler W) (w : W) (files : list string) (opts : Options)
         (report : VerificationReport),
    out (run h (VerifyFiles files opts) w) = Done report ->
    ContentFiles report = files
    /\ (forall r, In r (Results report) ->
          In (File (Target r)) files
          /\ In (CheckType r) check_types /\ In (Status r) check_statuses)
    /\ Permutation (Results report)
         (FilterByStatus report CheckStatusPass ++ FilterByStatus report CheckStatusFail
          ++ FilterByStatus report CheckStatusWarn)
    /\ Permutation (Results report)
         (FilterByType report CheckTypeCitation ++ FilterByType report CheckTypeURL
          ++ FilterByType report CheckTypeCodeLink ++ FilterByType report CheckTypeClaim
          ++ FilterByType report CheckTypeTodoMarker)
    /\ (Passed (Summary report) + Failed (Summary report) + Warnings (Summary report)
        = TotalChecks (Summary report))%Z.
Proof.
  intros W h w files opts report Hrun.
  pose proof (ensures_run _ _ (VerifyFiles_reported files opts) W h w _ Hrun)
    as (Hfiles & Hall & Hsum).
  simpl in Hall. rewrite List.Forall_forall in Hall.
  assert (Hrs : forall r, In r (Results report) ->
                  In (File (Target r)) files
                  /\ In (CheckType r) check_types /\ In (Status r) check_statuses).
  { intros r Hr. destruct (Hall r Hr) as (f & Hf & (E & _ & Ht & Hs & _)).
    rewrite E. auto. }
  split; [exact Hfiles |]. split; [exact Hrs |]. split; [| split].
  - rewrite !ReportMore.FilterByStatus_filter.
    pose proof (buckets_partition Status check_statuses (Results report)
                  check_statuses_NoDup (fun r Hr => proj2 (proj2 (Hrs r Hr)))) as Hp.
    unfold buckets in Hp. simpl in Hp. now rewrite app_nil_r in Hp.
  - rewrite !ReportMore.FilterByType_filter.
    pose proof (buckets_partition CheckType check_types (Results report)
                  check_types_NoDup (fun r Hr => proj1 (proj2 (Hrs r Hr)))) as Hp.
    unfold buckets in Hp. simpl in Hp. now rewrite app_nil_r in Hp.
  - rewrite Hsum. simpl. apply ReportFacts.summary_counts_add_up.
    apply List.Forall_forall. intros r Hr.
    destruct (Hrs r Hr) as (_ & _ & [E | [E | [E | []]]]); auto.
Qed.

Lemma VerifyFile_unreadable {W : Type} (h : Handler W) (opts : Options)
    (file : string) (w : W) (err : string) :
  (h _ (ReadFile file) w).1 = Err err ->
  out (run h (VerifyFile file opts) w) = Done (Err err)
  /\ world (run h (VerifyFile file opts) w) = (h _ (ReadFile file) w).2.
Proof.
  intros E. unfold VerifyFile, call. cbn [bind run]. cbv zeta. rewrite E.
  split; reflexivity.
Qed.

(** The loop of [VerifyFiles] over files that cannot be read. *)
Lemma VerifyFiles_loop_unreadable {W : Type} (h : Handler W) (opts : Options)
    (l : list string) :
  unreadable h l ->
  forall (b : ReportBuilder) (w : W),
  exists b' rs,
    out (run h
           (foldM (fun builder file =>
                     let builder := AddFile builder file in
                     outcome <- VerifyFile file opts;;
                     match outcome with
                     | Err err => Ret (AddResult builder (fileErrorResult file err))
                     | Ok results => Ret (fold_left AddResult results builder)
                     end) l b) w) = Done b'
    /\ files b' = (files b ++ l)%list
    /\ results b' = (results b ++ rs)%list
    /\ Forall2 (fun f r => exists err, r = fileErrorResult f err) l rs
    /\ Forall2 (fun answer r => answer = Err (Message r)) (read_answers h l w) rs.
Proof.
  induction l as [| file l IH]; intros Hl b w.
  - exists b, []. simpl. rewrite !app_nil_r. repeat split; constructor.
  - cbn [foldM]. cbv zeta.
    destruct (Hl file (or_introl eq_refl) w) as (err & Herr). cbn [fst] in Herr.
    destruct (VerifyFile_unreadable h opts file w err Herr) as (Hout & Hworld).
    rewrite run_bind, run_bind, Hout. cbv zeta. cbn [run out world]. rewrite Hworld.
    destruct (IH (fun f Hf => Hl f (or_intror Hf))
                (AddResult (AddFile b file) (fileErrorResult file err))
                (h _ (ReadFile file) w).2) as (b' & rs & Hrun & Hf & Hr & Hall & Hmsg).
    exists b', (fileErrorResult file err :: rs).
    split; [exact Hrun |]. split; [| split; [| split]].
    + rewrite Hf. simpl. now rewrite <- app_assoc.
    + rewrite Hr. simpl. now rewrite <- app_assoc.
    + constructor; [eauto | exact Hall].
    + cbn [read_answers]. constructor; [exact Herr | exact Hmsg].
Qed.

Lemma count_fail_file_errors (l : list string) (rs : list VerificationResult) :
  Forall2 (fun f r => exists err, r = fileErrorResult f err) l rs ->
  count_status CheckStatusFail rs = Z.of_nat (length l)
  /\ count_status CheckStatusPass rs = 0%Z /\ count_status CheckStatusWarn rs = 0%Z.
Proof.
  induction 1 as [| f r l rs (err & ->) _ IH]; [now cbv |].
  rewrite !ReportFacts.count_status_cons. simpl length. simpl. lia.
Qed.

(** X4. When none of the files can be read, VerifyFiles still returns a
    report: it lists the files and holds exactly one result per file, in
    order, each a failure of type citation that targets the file at line
    0 with no text and no details, and whose message is the error that
    reading that file gave in this run; it counts them all as failed,
    and its exit code is 1 unless the list of files is empty, in which
    case the report is empty with exit code 0. *)
Theorem VerifyFiles_unreadable_files :
  forall (W : Type) (h : Handler W) (w : W) (files : list string) (opts : Options),
    unreadable h files ->
    exists report,
      out (run h (VerifyFiles files opts) w) = Done report
      /\ ContentFiles report = files
      /\ Forall2 (fun f r => CheckType r = CheckTypeCitation
                             /\ Status r = CheckStatusFail
                             /\ Target r = {| File := f; Line := 0; Text := "" |}
                             /\ Details r = noDetails)
           files (Results report)
      /\ Forall2 (fun answer r => answer = Err (Message r))
           (read_answers h files w) (Results report)
      /\ Summary report
         = {| TotalChecks := Z.of_nat (length files); Passed := 0;
              Failed := Z.of_nat (length files); Warnings := 0 |}
      /\ ExitCode report = (if Nat.eqb (length files) 0 then 0 else 1)%Z.
Proof.
  intros W h w files opts Hbad.
  destruct (VerifyFiles_loop_unreadable h opts files Hbad NewReportBuilder w)
    as (b & rs & Hrun & Hf & Hr & Hall & Hmsg).
  simpl in Hf, Hr. unfold VerifyFiles.
  match type of Hrun with out (run h ?p w) = _ => set (loop := p) in * end.
  rewrite run_bind, Hrun.
  destruct (ReportFacts.Build_run h (world (run h loop w)) b) as (id & now & E).
  cbv zeta. cbn [out]. rewrite E. eexists. split; [reflexivity |].
  rewrite Hf, Hr. cbn [ContentFiles Results Summary ExitCode].
  destruct (count_fail_file_errors files rs Hall) as (Hfail & Hpass & Hwarn).
  assert (Hlen : length files = length rs)
    by (clear - Hall; induction Hall; simpl; congruence).
  rewrite Hfail, Hpass, Hwarn, <- Hlen.
  split; [reflexivity |]. split; [| split; [exact Hmsg |]].
  - clear - Hall. induction Hall as [| f r l rs (err & ->) _ IH]; constructor;
      [repeat split | exact IH].
  - split; [reflexivity |]. destruct files; simpl; reflexivity.
Qed.

End WithLib.
End PipelineFacts.

(* ------------------------------------------------------------------ *)
(** ** The verifiers: failure paths, details and traces *)

Module VerifierMore.
Import GoString Regexp Effects Lib verify Spec Props EffectsFacts.

Lemma heuristics_low (sentence : string) :
  (AnalyzeClaimWithHeuristics sentence).1.2 = "low" ->
  AnalyzeClaimWithHeuristics sentence
  = (false, "low", "No citation-requiring patterns detected").
Proof.
  unfold AnalyzeClaimWithHeuristics. cbv zeta.
  destruct (existsb _ exemptPatterns); [discriminate |].
  destruct (existsb _ mustCitePatterns); [discriminate |].
  destruct (existsb _ shouldCitePatterns); [discriminate | reflexivity].
Qed.

Lemma append_empty_r (s : string) : s +:+ "" = s.
Proof.
  induction s as [| c s IH]; [reflexivity |].
  change (String c (s +:+ "") = String c s). now rewrite IH.
Qed.

Lemma embeds_whole (s : string) : embeds s s.
Proof. exists "", "". symmetry. apply append_empty_r. Qed.

Section WithLib.
Context `{GoLib}.


(** X6. Whatever gh answers, the version of VerifyCodeLink that marks
    its line count as estimated never returns pass; its details name the
    permalink, report the line range as valid exactly when they report
    the file as existing, and a file reported as existing gives warn. *)
Theorem VerifyCodeLink_never_passes :
  forall (link : CodeLinkMatch) (file : string) (line : Z) (text : string),
    ensures (VerifyCodeLink link file line text)
      (fun r =>
         Status r <> CheckStatusPass
         /\ exists d, CodeLink (Details r) = Some d
              /\ Permalink d = FullURL link
              /\ LineRangeValid d = FileExists d
              /\ (FileExists d = true -> Status r = CheckStatusWarn)).
Proof.
  intros link file line text.
  unfold VerifyCodeLink, checkFileExistsAtCommit, newResult, call. cbn [bind ensures].
  intros id now [err |]; cbn [bind ensures].
  - split; [discriminate |]. eexists. repeat split; try discriminate.
  - intros r. destruct (cmd_err r) as [err |]; cbn [bind ensures].
    + destruct (Contains (cmd_stderr r) "404" || Contains (cmd_stderr r) "Not Found");
        cbn [bind ensures negb andb].
      * destruct (slice_to (CommitSHA link) 8); cbn [ensures]; [| exact I].
        split; [discriminate |]. eexists. repeat split; try discriminate.
      * split; [discriminate |]. eexists. repeat split; try discriminate.
    + destruct (UnmarshalSize (cmd_stdout r)) as [size | err]; cbn [bind ensures negb andb].
      * split; [discriminate |]. eexists. repeat split; try discriminate.
      * split; [discriminate |]. eexists. repeat split; try discriminate.
Qed.

Section Runs.
Context {W : Type} (h : Handler W).

(** X7. VerifyURL always returns a result.  It asks for nothing but
    an identifier, the time, the HEAD request and at most two round
    trips: none when the request cannot be built, the HEAD request alone
    when it brings a response, and a GET request after it only when the
    HEAD request failed in transport. *)
Theorem VerifyURL_requests :
  forall (url file : string) (line : Z) (text : string) (w : W),
    let built := h _ (HttpNewRequest "HEAD" url) (started h w) in
    let head := h _ (HttpDo "HEAD" url) built.2 in
    exists r,
      out (run h (VerifyURL url file line text) w) = Done r
      /\ log (run h (VerifyURL url file line text) w)
         = ([Any UuidNew; Any TimeNow; Any (HttpNewRequest "HEAD" url)]
            ++ match built.1, head.1 with
               | Some _, _ => []
               | None, Ok _ => [Any (HttpDo "HEAD" url)]
               | None, Err _ => [Any (HttpDo "HEAD" url); Any (HttpDo "GET" url)]
               end)%list.
Proof.
  intros url file line text w built head. subst built head.
  unfold VerifyURL. rewrite VerifierFacts.run_after_newResult.
  unfold call. cbn [bind run]. cbv zeta.
  destruct (h _ (HttpNewRequest "HEAD" url) (started h w)) as [[err |] w1];
    cbn [fst snd bind run out log world app].
  - eauto.
  - destruct (h _ (HttpDo "HEAD" url) w1) as [[code | err] w2];
      cbn [fst snd bind run out log world app].
    + destruct ((200 <=? code)%Z && (code <? 400)%Z);
        [| destruct ((400 <=? code)%Z && (code <? 500)%Z)];
        cbn [run out log]; eauto.
    + destruct (h _ (HttpDo "GET" url) w2) as [[code | err'] w3];
        cbn [fst snd bind run out log world app]; [| eauto].
      destruct ((200 <=? code)%Z && (code <? 400)%Z);
        [| destruct ((400 <=? code)%Z && (code <? 500)%Z)];
        cbn [run out log]; eauto.
Qed.

(** X8. VerifyCitation always returns a result of status pass or fail
    whose details name the paper; it passes exactly when bip is found and
    the lookup command exits with status 0.  When the command fails, an
    error output containing "not found" or "no such" gives the message
    that the paper is not in bipartite, and any other error output is
    reported as a failed lookup. *)
Theorem VerifyCitation_pass_iff_resolved :
  forall (paperID file : string) (line : Z) (text : string) (w : W),
    let found := h _ (LookPath "bip") (started h w) in
    let got := h _ (CmdRun "bip" ["s2"; "get"; paperID]) found.2 in
    exists r resolved,
      out (run h (VerifyCitation paperID file line text) w) = Done r
      /\ Citation (Details r) = Some {| PaperID := paperID; Resolved := resolved |}
      /\ Status r = (if resolved then CheckStatusPass else CheckStatusFail)
      /\ (resolved = true <-> found.1 = None /\ cmd_err got.1 = None)
      /\ (found.1 = None -> cmd_err got.1 <> None ->
          if Contains (cmd_stderr got.1) "not found" || Contains (cmd_stderr got.1) "no such"
          then Message r = "Paper ID " +:+ Quote paperID +:+ " not found in bipartite"
          else embeds (Message r) ("bip lookup failed: " +:+ cmd_stderr got.1)).
Proof.
  intros paperID file line text w found got. subst found got.
  unfold VerifyCitation, lookupPaperInBipartite.
  rewrite VerifierFacts.run_after_newResult.
  unfold call. cbn [bind run]. cbv zeta.
  destruct (h _ (LookPath "bip") (started h w)) as [[err |] w1];
    cbn [fst snd bind run out log world].
  - exists (conclude (fresh h CheckTypeCitation file line text w) CheckStatusFail
              ("Failed to verify paper ID " +:+ Quote paperID +:+ ": "
                 +:+ ("bip CLI not found: " +:+ err))
              (citationDetails paperID false)), false.
    split; [reflexivity |]. split; [reflexivity |]. split; [reflexivity |].
    split; [| discriminate]. split; [discriminate | intros [E _]; discriminate].
  - destruct (h _ (CmdRun "bip" ["s2"; "get"; paperID]) w1) as [r w2];
      cbn [fst snd].
    destruct (cmd_err r) as [err |]; cbn [bind run out].
    + destruct (Contains (cmd_stderr r) "not found" || Contains (cmd_stderr r) "no such");
        cbn [bind run out]; eexists; exists false;
        (split; [reflexivity |]); (split; [reflexivity |]); (split; [reflexivity |]);
        (split; [split; [discriminate | intros [_ E]; discriminate] |]); intros _ _.
      * reflexivity.
      * cbn [Message conclude]. do 3 apply VerifierFacts.embeds_prepend.
        apply embeds_whole.
    + eexists; exists true.
      split; [reflexivity |]. split; [reflexivity |]. split; [reflexivity |].
      split; [split; auto |]. intros _ E. now contradiction E.
Qed.

(** X9. In the version of VerifyCodeLink that marks its line count as
    estimated, the line range of the permalink has no influence on the
    outcome: with any other line range the run ends in the same way, a
    panic or a result of the same status, after the same events. *)
Theorem VerifyCodeLink_ignores_line_range :
  forall (link : CodeLinkMatch) (startLine endLine : Z) (file : string) (line : Z)
         (text : string) (w : W),
    status_of (run h (VerifyCodeLink (with_lines link startLine endLine) file line text) w)
    = status_of (run h (VerifyCodeLink link file line text) w)
    /\ log (run h (VerifyCodeLink (with_lines link startLine endLine) file line text) w)
       = log (run h (VerifyCodeLink link file line text) w).
Proof.
  intros link startLine endLine file line text w.
  unfold VerifyCodeLink, checkFileExistsAtCommit, status_of.
  rewrite !VerifierFacts.run_after_newResult.
  unfold call, with_lines.
  cbn [bind run Owner Repo CommitSHA FilePath FullURL StartLine EndLine]. cbv zeta.
  destruct (h _ (LookPath "gh") (started h w)) as [[err |] w1];
    cbn [fst snd bind run out log world]; [split; reflexivity |].
  destruct (h _ (CmdRun "gh" _) w1) as [r w2]; cbn [fst snd].
  destruct (cmd_err r) as [err |]; cbn [bind run out log].
  - destruct (Contains (cmd_stderr r) "404" || Contains (cmd_stderr r) "Not Found");
      cbn [bind run out log negb andb]; [| split; reflexivity].
    destruct (slice_to (CommitSHA link) 8); cbn [run out log]; split; reflexivity.
  - destruct (UnmarshalSize (cmd_stdout r)) as [size | err];
      cbn [bind run out log negb andb]; split; reflexivity.
Qed.

(** X10. The earlier version of VerifyCodeLink, with gh installed and a
    metadata call that succeeds with a size: the result is pass or fail,
    and it is pass exactly when neither line number exceeds the count
    estimated from the size, size ÷ 30 and at least 1.  Nothing else is
    asked of the range: not that it starts at line 1 or later, nor that
    it ends where it starts or later. *)
Theorem strict_VerifyCodeLink_pass_iff :
  forall (link : CodeLinkMatch) (file : string) (line : Z) (text : string)
         (reply : CmdResult) (size : Z) (w : W),
    installed h "gh" ->
    always h (metadata_call link) reply ->
    cmd_err reply = None ->
    UnmarshalSize (cmd_stdout reply) = Ok size ->
    exists r,
      out (run h (strict.VerifyCodeLink link file line text) w) = Done r
      /\ (Status r = CheckStatusPass \/ Status r = CheckStatusFail)
      /\ (Status r = CheckStatusPass
          <-> (StartLine link <= Z.max 1 (size ÷ 30))%Z
              /\ (EndLine link <= Z.max 1 (size ÷ 30))%Z).
Proof.
  intros link file line text reply size w Hgh Hreply Herr Hsize.
  unfold strict.VerifyCodeLink, strict.checkFileAtCommit.
  rewrite VerifierFacts.run_after_newResult.
  unfold call. cbn [bind run]. cbv zeta.
  rewrite (VerifierFacts.installed_answer h "gh" _ Hgh). cbn [bind run].
  rewrite (Hreply _), Herr. cbn [bind run]. rewrite Hsize. cbn [bind run andb].
  assert (Hmax : (if (size ÷ 30 <? 1)%Z then 1%Z else (size ÷ 30)%Z) = Z.max 1 (size ÷ 30))
    by (destruct (Z.ltb_spec (size ÷ 30) 1); lia).
  rewrite Hmax. set (n := Z.max 1 (size ÷ 30)).
  assert (Hn : (0 <? n)%Z = true) by (apply Z.ltb_lt; subst n; lia).
  rewrite Hn. cbn [andb].
  destruct (Z.leb_spec (StartLine link) n), (Z.leb_spec (EndLine link) n);
    cbn [andb negb run out]; eexists; (split; [reflexivity |]);
    cbn [Status conclude]; (split; [auto |]); split; intros; try discriminate;
    try reflexivity; lia.
Qed.

(** X11. For a sentence without citation, VerifyClaim leaves the LLM out
    whenever it is switched off or the heuristics are not of low
    confidence: the run asks for an identifier and the time only, and
    the result fails exactly when the heuristics ask for a citation; its
    details carry the confidence of the heuristics. *)
Theorem VerifyClaim_heuristics_decide :
  forall (sentence file : string) (line : Z) (useLLM : bool) (w : W),
    useLLM = false \/ (AnalyzeClaimWithHeuristics sentence).1.2 <> "low" ->
    exists r action,
      run h (VerifyClaim sentence file line false useLLM) w
      = MkRun (Done r) (started h w) [Any UuidNew; Any TimeNow]
      /\ Status r = (if (AnalyzeClaimWithHeuristics sentence).1.1
                     then CheckStatusFail else CheckStatusPass)
      /\ Claim (Details r)
         = Some {| ClaimText := sentence;
                   Confidence := (AnalyzeClaimWithHeuristics sentence).1.2;
                   SuggestedAction := action |}.
Proof.
  intros sentence file line useLLM w Hoff.
  unfold VerifyClaim. rewrite VerifierFacts.run_after_newResult.
  cbv beta iota zeta.
  destruct (AnalyzeClaimWithHeuristics sentence) as [[needs confidence] reason].
  cbn [fst snd] in *.
  assert (Hguard : String.eqb confidence "low" && useLLM = false).
  { destruct Hoff as [-> | Hne]; [apply andb_false_r |].
    destruct (String.eqb_spec confidence "low"); [contradiction | reflexivity]. }
  rewrite Hguard. cbn [bind]. destruct needs; cbn [run out world log]; eauto.
Qed.

(** X12. For a sentence without citation on which the heuristics are of
    low confidence, with the LLM switched on and the claude CLI
    installed, VerifyClaim looks for claude twice and runs it once.  The
    answer of the LLM decides when the command succeeds and its output
    parses: fail if it asks for a citation, pass otherwise.  When the
    command fails or the output does not parse, the error is dropped and
    the result is the pass of the heuristics. *)
Theorem VerifyClaim_llm_verdict :
  forall (sentence file : string) (line : Z) (reply : CmdResult) (w : W),
    (AnalyzeClaimWithHeuristics sentence).1.2 = "low" ->
    installed h "claude" ->
    always h (claude_call sentence) reply ->
    exists r,
      out (run h (VerifyClaim sentence file line false true) w) = Done r
      /\ log (run h (VerifyClaim sentence file line false true) w)
         = [Any UuidNew; Any TimeNow; Any (LookPath "claude"); Any (LookPath "claude");
            Any (claude_call sentence)]
      /\ match cmd_err reply,
               UnmarshalAnalysis (llm.extractJSON (TrimSpace (cmd_stdout reply))) with
         | None, Ok analysis =>
             Status r = (if NeedsCitation analysis then CheckStatusFail
                         else CheckStatusPass)
             /\ exists action,
                  Claim (Details r)
                  = Some {| ClaimText := sentence; Confidence := Lib.Confidence analysis;
                            SuggestedAction := action |}
         | _, _ =>
             Status r = CheckStatusPass
             /\ Message r = "No citation-requiring patterns detected"
         end.
Proof.
  intros sentence file line reply w Hlow Hclaude Hreply.
  unfold VerifyClaim. rewrite VerifierFacts.run_after_newResult.
  cbv beta iota zeta. rewrite (heuristics_low sentence Hlow). cbn [fst snd].
  change (String.eqb "low" "low" && true) with true. cbv iota.
  unfold llm.IsAvailable, llm.NewClient, llm.AnalyzeClaim, llm.Complete, llm.completeClaude,
    call.
  cbn [bind run llm.provider]. cbv zeta.
  rewrite (VerifierFacts.installed_answer h "claude" _ Hclaude). cbn [bind run].
  rewrite (VerifierFacts.installed_answer h "claude" _ Hclaude). cbn [bind run llm.provider].
  change (String.eqb "claude" "claude") with true. cbv iota. cbn [bind run].
  pose proof (Hreply ((h _ (LookPath "claude") (h _ (LookPath "claude") (started h w)).2).2))
    as Hr.
  unfold claude_call in Hr. rewrite Hr.
  destruct (cmd_err reply) as [err |]; cbn [bind run out log].
  - eexists. split; [reflexivity |]. split; [reflexivity |]. split; reflexivity.
  - destruct (UnmarshalAnalysis (llm.extractJSON (TrimSpace (cmd_stdout reply))))
      as [analysis | err]; cbn [bind run out log].
    + destruct (NeedsCitation analysis); cbn [run out log];
        (eexists; split; [reflexivity |]; split; [reflexivity |]; split; [reflexivity |]);
        eexists; reflexivity.
    + eexists. split; [reflexivity |]. split; [reflexivity |]. split; reflexivity.
Qed.

End Runs.

End WithLib.
End VerifierMore.

(* ------------------------------------------------------------------ *)
(** ** The sweep checks *)

Module SweepFacts.
Import GoString Regexp Effects Lib Spec Props EffectsFacts.

Lemma asks_only_bind {A B : Type} (allowed : AnyEvent -> bool) (p : Prog A)
    (f : A -> Prog B) :
  asks_only allowed p -> (forall a, asks_only allowed (f a)) ->
  asks_only allowed (bind p f).
Proof.
  intros Hp Hf. induction p as [a | m | X e k IH]; cbn [bind asks_only] in *.
  - apply Hf.
  - exact I.
  - destruct Hp as [He Hk]. split; [exact He |]. intros x. apply IH, Hk.
Qed.

Lemma asks_only_foldM {A B : Type} (allowed : AnyEvent -> bool)
    (f : A -> B -> Prog A) (l : list B) :
  (forall acc x, asks_only allowed (f acc x)) ->
  forall acc, asks_only allowed (foldM f l acc).
Proof.
  intros Hf. induction l as [| x l IH]; intros acc; cbn [foldM asks_only]; [exact I |].
  apply asks_only_bind; [apply Hf | exact IH].
Qed.

Lemma asks_only_log {A W : Type} (allowed : AnyEvent -> bool) (p : Prog A)
    (h : Handler W) (w : W) :
  asks_only allowed p -> forallb allowed (log (run h p w)) = true.
Proof.
  revert w. induction p as [a | m | X e k IH]; intros w Hp; cbn [run log forallb].
  - reflexivity.
  - reflexivity.
  - destruct Hp as [He Hk]. cbv zeta. cbn [log forallb]. rewrite He. cbn [andb].
    apply IH, Hk.
Qed.

(** A loop that appends one element per turn. *)
Lemma ensures_foldM_append {A B : Type} (f : list A -> B -> Prog (list A))
    (R : B -> A -> Prop) (l : list B) :
  (forall acc x, In x l ->
     ensures (f acc x) (fun acc' => exists a, acc' = (acc ++ [a])%list /\ R x a)) ->
  forall acc,
    ensures (foldM f l acc)
      (fun acc' => exists rs, acc' = (acc ++ rs)%list /\ Forall2 R l rs).
Proof.
  induction l as [| x l IH]; intros Hf acc; cbn [foldM ensures].
  - exists []. split; [now rewrite app_nil_r | constructor].
  - apply ensures_bind. eapply ensures_weaken; [apply Hf; now left |].
    intros acc' (a & -> & Ha). eapply ensures_weaken.
    + apply IH. intros acc0 y Hy. apply Hf. now right.
    + intros acc'' (rs & -> & Hrs). exists (a :: rs).
      split; [now rewrite <- app_assoc | now constructor].
Qed.

Lemma run_foldM_append {W A B : Type} (h : Handler W)
    (f : list A -> B -> Prog (list A)) (R : B -> A -> Prop) (l : list B) :
  (forall acc x w, In x l ->
     exists a, out (run h (f acc x) w) = Done (acc ++ [a])%list /\ R x a) ->
  forall acc w,
    exists rs, out (run h (foldM f l acc) w) = Done (acc ++ rs)%list /\ Forall2 R l rs.
Proof.
  induction l as [| x l IH]; intros Hf acc w; cbn [foldM].
  - exists []. split; [cbn; now rewrite app_nil_r | constructor].
  - rewrite run_bind. destruct (Hf acc x w (or_introl eq_refl)) as (a & -> & Ha).
    cbv zeta. cbn [out].
    destruct (IH (fun acc0 y w0 Hy => Hf acc0 y w0 (or_intror Hy)) (acc ++ [a])%list
                (world (run h (f acc x) w))) as (rs & -> & Hrs).
    exists (a :: rs). split; [now rewrite <- app_assoc | now constructor].
Qed.

Lemma run_foldM_panics {W A B : Type} (h : Handler W)
    (f : A -> B -> Prog A) (good : B -> bool) (l : list B) :
  (forall acc x w, good x = true -> exists acc', out (run h (f acc x) w) = Done acc') ->
  (forall acc x w, good x = false -> exists msg, out (run h (f acc x) w) = Panicked msg) ->
  forallb good l = false ->
  forall acc w, exists msg, out (run h (foldM f l acc) w) = Panicked msg.
Proof.
  intros Hgood Hbad. induction l as [| x l IH]; intros Hl acc w; [discriminate |].
  cbn [foldM]. rewrite run_bind. cbn [forallb] in Hl.
  destruct (good x) eqn:Ex.
  - destruct (Hgood acc x w Ex) as (acc' & ->). cbv zeta. cbn [out]. now apply IH.
  - destruct (Hbad acc x w Ex) as (msg & ->). cbn [out]. eauto.
Qed.

Section WithLib.
Context `{GoLib}.

(** X13. Whatever gh answers, the results of CheckCodeLinks are one per
    permalink of the content, in order, each with the permalink as its
    target, of check type code-links, for the given file, and of status
    issue or warning: with the version of VerifyCodeLink that marks its
    line count as estimated no permalink is ever reported as ok. *)
Theorem CheckCodeLinks_never_ok :
  forall (content file : string),
    ensures (sweep.CheckCodeLinks content file)
      (fun results =>
         List.map sweep.Target results
         = List.map verify.FullURL (verify.ExtractCodeLinks content)
         /\ List.Forall
              (fun r => sweep.CheckType r = sweep.CheckTypeCodeLinks
                        /\ sweep.File r = file
                        /\ (sweep.Status r = sweep.SweepStatusIssue
                            \/ sweep.Status r = sweep.SweepStatusWarning))
              results).
Proof.
  intros content file. unfold sweep.CheckCodeLinks.
  eapply ensures_weaken.
  - apply (ensures_foldM_append _
             (fun link r => sweep.Target r = verify.FullURL link
                            /\ sweep.CheckType r = sweep.CheckTypeCodeLinks
                            /\ sweep.File r = file
                            /\ (sweep.Status r = sweep.SweepStatusIssue
                                \/ sweep.Status r = sweep.SweepStatusWarning))).
    intros acc link _. apply ensures_bind.
    unfold sweep.checkSingleCodeLink, call. cbn [bind ensures]. intros now.
    apply ensures_bind.
    eapply ensures_weaken; [apply StampFacts.VerifyCodeLink_stamped |].
    intros v (_ & _ & Hs). cbn [ensures].
    destruct Hs as [<- | [<- | []]]; cbn; eexists; (split; [reflexivity |]); cbn; auto.
  - cbn beta. intros results (rs & -> & Hrs). cbn [app].
    induction Hrs as [| link r links rs (Ht & Hr) _ [IH1 IH2]]; [split; constructor |].
    cbn [List.map]. rewrite Ht, IH1. split; [reflexivity |]. constructor; assumption.
Qed.

Section Runs.
Context {W : Type} (h : Handler W).

(** X14. CheckCodeLinksAtHead asks for nothing but the time: it never
    looks at the repository.  When every permalink of the content has a
    commit identifier of at least 8 bytes it returns one warning per
    permalink, in order; as soon as one is shorter, it panics on the
    slice CommitSHA[:8] and returns nothing. *)
Theorem CheckCodeLinksAtHead_warns_or_panics :
  forall (content file : string) (w : W),
    forallb is_clock (log (run h (sweep.CheckCodeLinksAtHead content file) w)) = true
    /\ if forallb long_sha (verify.ExtractCodeLinks content)
       then exists results,
              out (run h (sweep.CheckCodeLinksAtHead content file) w) = Done results
              /\ List.map sweep.Target results
                 = List.map verify.FullURL (verify.ExtractCodeLinks content)
              /\ List.Forall (fun r => sweep.Status r = sweep.SweepStatusWarning
                                       /\ sweep.File r = file) results
       else exists msg,
              out (run h (sweep.CheckCodeLinksAtHead content file) w) = Panicked msg.
Proof.
  intros content file w. split.
  - apply asks_only_log. unfold sweep.CheckCodeLinksAtHead.
    apply asks_only_foldM. intros acc link. unfold call. cbn [bind asks_only].
    split; [reflexivity |]. intros now.
    destruct (slice_to (verify.CommitSHA link) 8); exact I.
  - unfold sweep.CheckCodeLinksAtHead.
    generalize (verify.ExtractCodeLinks content). intros links.
    destruct (forallb long_sha links) eqn:Hall.
    + rewrite forallb_forall in Hall.
      match goal with
      | |- context [foldM ?f links []] =>
          destruct (run_foldM_append h f
                      (fun link r => sweep.Target r = verify.FullURL link
                                     /\ sweep.Status r = sweep.SweepStatusWarning
                                     /\ sweep.File r = file) links) with (acc := @nil sweep.SweepResult) (w := w)
            as (rs & Hrun & Hrs)
      end.
      { intros acc link w0 Hin. unfold call. cbn [bind run]. cbv zeta.
        specialize (Hall link Hin). unfold long_sha in Hall. unfold slice_to.
        rewrite Hall. cbn [bind run out]. eexists. split; [reflexivity |].
        cbn. auto. }
      exists rs. split; [exact Hrun |]. clear Hrun.
      induction Hrs as [| link r links' rs (Ht & Hs & Hf) _ IH]; [split; constructor |].
      cbn [List.map]. rewrite Ht. destruct IH as [IH1 IH2]; [| rewrite IH1; split; auto].
      intros x Hx. apply Hall. now right.
    + apply (run_foldM_panics h _ long_sha links); [| | exact Hall].
      * intros acc link w0 Hgood. unfold call. cbn [bind run]. cbv zeta.
        unfold long_sha in Hgood. unfold slice_to. rewrite Hgood. cbn [run out]. eauto.
      * intros acc link w0 Hbad. unfold call. cbn [bind run]. cbv zeta.
        unfold long_sha in Hbad. unfold slice_to. rewrite Hbad. cbn [run out]. eauto.
Qed.

(** X15. CheckClaimConsistency always returns, and checks nothing: it
    asks only for the time, and gives one result of status ok per
    distinct citation of the content, in first-seen order, with the
    citation as target; no target occurs twice. *)
Theorem CheckClaimConsistency_marks_each_citation :
  forall (content file : string) (w : W),
    exists results,
      out (run h (sweep.CheckClaimConsistency content file) w) = Done results
      /\ List.map sweep.Target results = verify.ExtractCitations content
      /\ List.NoDup (List.map sweep.Target results)
      /\ List.Forall (fun r => sweep.Status r = sweep.SweepStatusOK
                               /\ sweep.CheckType r = sweep.CheckTypeClaimConsistency
                               /\ sweep.File r = file) results
      /\ forallb is_clock (log (run h (sweep.CheckClaimConsistency content file) w)) = true.
Proof.
  intros content file w.
  assert (Hnodup : List.NoDup (verify.ExtractCitations content)).
  { rewrite ExtractFacts.ExtractCitations_first_seen. apply ExtractFacts.first_seen_NoDup. }
  unfold sweep.CheckClaimConsistency.
  revert Hnodup. generalize (verify.ExtractCitations content). intros citations Hnodup.
  destruct (Z.of_nat (length citations) =? 0)%Z eqn:Hlen.
  - apply Z.eqb_eq in Hlen. destruct citations; [| discriminate].
    exists []. cbn. repeat split; constructor.
  - match goal with
    | |- context [foldM ?f citations []] =>
        destruct (run_foldM_append h f
                    (fun citation r => sweep.Target r = citation
                                       /\ sweep.Status r = sweep.SweepStatusOK
                                       /\ sweep.CheckType r = sweep.CheckTypeClaimConsistency
                                       /\ sweep.File r = file) citations)
          with (acc := @nil sweep.SweepResult) (w := w) as (rs & Hrun & Hrs);
        [| pose proof (asks_only_log is_clock (foldM f citations []) h w) as Hlog]
    end.
    { intros acc citation w0 _. unfold call. cbn [bind run]. cbv zeta. cbn [run out].
      eexists. split; [reflexivity |]. cbn. auto. }
    exists rs. split; [exact Hrun |].
    assert (Hmap : List.map sweep.Target rs = citations
                   /\ List.Forall (fun r => sweep.Status r = sweep.SweepStatusOK
                                            /\ sweep.CheckType r = sweep.CheckTypeClaimConsistency
                                            /\ sweep.File r = file) rs).
    { clear - Hrs. induction Hrs as [| c r cs rs (Ht & Hr) _ [IH1 IH2]]; [split; constructor |].
      cbn [List.map]. rewrite Ht, IH1. split; [reflexivity | constructor; assumption]. }
    destruct Hmap as [Hmap Hall]. rewrite Hmap.
    split; [reflexivity |]. split; [exact Hnodup |]. split; [exact Hall |].
    apply Hlog. apply asks_only_foldM. intros acc citation. unfold call.
    cbn [bind asks_only]. split; [reflexivity |]. intros now. exact I.
Qed.

End Runs.
End WithLib.
End SweepFacts.

(* ------------------------------------------------------------------ *)
(** ** Line numbers, and runs that return *)

Module ReturnFacts.
Import GoString Regexp Effects Lib verify Spec Props EffectsFacts.

Lemma findLineNumber_from_first (substr : string) (lines : list string) (i : Z) :
  (findLineNumber_from i lines substr = 0%Z
   /\ forall line, In line lines -> Contains line substr = false)
  \/ exists k line,
       findLineNumber_from i lines substr = (i + Z.of_nat k + 1)%Z
       /\ nth_error lines k = Some line
       /\ Contains line substr = true
       /\ forall j earlier, (j < k)%nat -> nth_error lines j = Some earlier ->
                            Contains earlier substr = false.
Proof.
  revert i. induction lines as [| line rest IH]; intros i; cbn [findLineNumber_from].
  - left. split; [reflexivity | intros line []].
  - destruct (Contains line substr) eqn:E.
    + right. exists 0%nat, line. split; [lia |]. split; [reflexivity |].
      split; [exact E |]. intros j earlier Hj. lia.
    + destruct (IH (i + 1)%Z) as [[E0 Hnone] | (k & l & En & Hk & Hl & Hbefore)].
      * left. split; [exact E0 |]. intros l [<- | Hin]; [exact E | now apply Hnone].
      * right. exists (S k), l. split; [lia |]. split; [exact Hk |]. split; [exact Hl |].
        intros [| j] earlier Hj Hnth; cbn in Hnth.
        -- now injection Hnth as <-.
        -- apply (Hbefore j); [lia | exact Hnth].
Qed.

(** X16. findLineNumber returns 0 exactly when no line contains the
    text.  Otherwise it returns the 1-based number of the first line
    that contains it: the number lies within the lines, the line of that
    number, which is what the target of a result shows as its text,
    contains the text, and no earlier line does. *)
Theorem findLineNumber_first_line :
  forall (lines : list string) (substr : string),
    let n := findLineNumber lines substr in
    (n = 0%Z /\ forall line, In line lines -> Contains line substr = false)
    \/ ((1 <= n <= Z.of_nat (length lines))%Z
        /\ nth_error lines (Z.to_nat (n - 1)) = Some (lineText lines n)
        /\ Contains (lineText lines n) substr = true
        /\ forall j earlier, (Z.of_nat j < n - 1)%Z -> nth_error lines j = Some earlier ->
                             Contains earlier substr = false).
Proof.
  intros lines substr n. subst n. unfold findLineNumber.
  destruct (findLineNumber_from_first substr lines 0)
    as [[E0 Hnone] | (k & line & En & Hk & Hl & Hbefore)]; [left; auto |].
  right. rewrite En.
  assert (Hlen : (k < length lines)%nat) by (apply nth_error_Some; congruence).
  assert (Htext : lineText lines (0 + Z.of_nat k + 1) = line).
  { unfold lineText.
    destruct (Z.ltb_spec 0 (0 + Z.of_nat k + 1)); [| lia].
    destruct (Z.leb_spec (0 + Z.of_nat k + 1) (Z.of_nat (length lines))); [| lia].
    cbn [andb]. replace (Z.to_nat (0 + Z.of_nat k + 1 - 1)) with k by lia.
    now apply nth_error_nth. }
  rewrite Htext. replace (Z.to_nat (0 + Z.of_nat k + 1 - 1)) with k by lia.
  split; [lia |]. split; [exact Hk |]. split; [exact Hl |].
  intros j earlier Hj. apply Hbefore. lia.
Qed.

Lemma never_panics_bind {A B : Type} (p : Prog A) (f : A -> Prog B) :
  never_panics p -> (forall a, never_panics (f a)) -> never_panics (bind p f).
Proof.
  intros Hp Hf. induction p as [a | m | X e k IH]; cbn [bind never_panics] in *.
  - apply Hf.
  - exact Hp.
  - intros x. apply IH, Hp.
Qed.

Lemma never_panics_foldM {A B : Type} (f : A -> B -> Prog A) (l : list B) :
  (forall acc x, In x l -> never_panics (f acc x)) ->
  forall acc, never_panics (foldM f l acc).
Proof.
  induction l as [| x l IH]; intros Hf acc; cbn [foldM never_panics]; [exact I |].
  apply never_panics_bind; [apply Hf; now left |].
  apply IH. intros acc0 y Hy. apply Hf. now right.
Qed.

Lemma never_panics_run {A W : Type} (p : Prog A) (h : Handler W) (w : W) :
  never_panics p -> exists a, out (run h p w) = Done a.
Proof.
  revert w. induction p as [a | m | X e k IH]; intros w Hp; cbn [run never_panics] in *.
  - eauto.
  - contradiction.
  - cbv zeta. cbn [out]. apply IH, Hp.
Qed.

Lemma run_foldM_returns {W A B : Type} (h : Handler W) (f : A -> B -> Prog A)
    (l : list B) :
  (forall acc x w, In x l -> exists acc', out (run h (f acc x) w) = Done acc') ->
  forall acc w, exists acc', out (run h (foldM f l acc) w) = Done acc'.
Proof.
  induction l as [| x l IH]; intros Hf acc w; cbn [foldM].
  - cbn. eauto.
  - rewrite run_bind. destruct (Hf acc x w (or_introl eq_refl)) as (acc' & ->).
    cbv zeta. cbn [out]. apply IH. intros acc0 y w0 Hy. apply Hf. now right.
Qed.

Ltac walk :=
  repeat (cbn [bind never_panics];
          match goal with
          | |- forall _, _ => intro
          | |- True => exact I
          | |- context [match ?x with _ => _ end] => destruct x
          end).

Section WithLib.
Context `{GoLib}.

Lemma append_never_panics (p : Prog VerificationResult)
    (results : list VerificationResult) :
  never_panics p -> never_panics (bind p (fun r => Ret (results ++ [r])%list)).
Proof. intros Hp. apply never_panics_bind; [exact Hp | intros r; exact I]. Qed.

Lemma VerifyTodoMarker_never_panics marker file line text :
  never_panics (VerifyTodoMarker marker file line text).
Proof. unfold VerifyTodoMarker, newResult, call. walk. Qed.

Lemma VerifyCitation_never_panics paperID file line text :
  never_panics (VerifyCitation paperID file line text).
Proof. unfold VerifyCitation, lookupPaperInBipartite, newResult, call. walk. Qed.

Lemma VerifyURL_never_panics url file line text :
  never_panics (VerifyURL url file line text).
Proof. unfold VerifyURL, newResult, call. walk. Qed.

Lemma VerifyCodeLink_never_panics link file line text :
  long_sha link = true -> never_panics (VerifyCodeLink link file line text).
Proof.
  intros Hlong. unfold VerifyCodeLink, checkFileExistsAtCommit, newResult, call.
  unfold long_sha in Hlong. unfold slice_to. rewrite Hlong. walk.
Qed.

Lemma VerifyClaim_never_panics sentence file line hasCit useLLM :
  never_panics (VerifyClaim sentence file line hasCit useLLM).
Proof.
  unfold VerifyClaim. apply never_panics_bind; [unfold newResult, call; walk |].
  intros r. destruct hasCit; [exact I |]. cbv zeta.
  destruct (AnalyzeClaimWithHeuristics sentence) as [[needs confidence] reason].
  cbn [fst snd]. apply never_panics_bind.
  - destruct (String.eqb confidence "low" && useLLM); [| exact I].
    unfold llm.IsAvailable, llm.NewClient, llm.AnalyzeClaim, llm.Complete,
      llm.completeClaude, llm.completeOllama, call.
    walk.
  - intros [[needs' confidence'] reason']. destruct needs'; exact I.
Qed.

(** What [VerifyFile] does once the content is read. *)
Lemma VerifyFile_returns {W : Type} (h : Handler W) (filePath : string) (opts : Options)
    (w : W) :
  (forall content, fst (h _ (ReadFile filePath) w) = Ok content ->
                   forallb long_sha (ExtractCodeLinks content) = true) ->
  exists outcome, out (run h (VerifyFile filePath opts) w) = Done outcome.
Proof.
  intros Hlinks. unfold VerifyFile.
  change (call (ReadFile filePath)) with (Vis (ReadFile filePath) Ret).
  cbn [bind run]. cbv zeta. cbn [out].
  destruct (h _ (ReadFile filePath) w) as [[contentStr | err] w1]; cbn [fst snd] in *;
    [| cbn; eauto].
  specialize (Hlinks contentStr eq_refl). rewrite forallb_forall in Hlinks.
  apply never_panics_run.
  unfold call. cbn [bind never_panics]. intros [[lines scanErr] | err]; [| exact I].
  apply never_panics_bind.
  { apply never_panics_foldM. intros results [i line] _.
    destruct (MatchString todoMarkerPattern line); [| exact I].
    apply never_panics_foldM. intros results' marker _.
    apply append_never_panics, VerifyTodoMarker_never_panics. }
  intros results. destruct scanErr as [err |]; [exact I |].
  apply never_panics_bind.
  { apply never_panics_foldM. intros results' citation _.
    apply append_never_panics, VerifyCitation_never_panics. }
  clear results. intros results.
  apply never_panics_bind.
  { apply never_panics_foldM. intros results' url _.
    destruct (Contains url "github.com" && Contains url "/blob/"); [exact I |].
    apply append_never_panics, VerifyURL_never_panics. }
  clear results. intros results.
  apply never_panics_bind.
  { apply never_panics_foldM. intros results' link Hin.
    apply append_never_panics, VerifyCodeLink_never_panics, Hlinks, Hin. }
  clear results. intros results.
  apply never_panics_bind; [| intros; exact I].
  apply never_panics_foldM. intros results' [i line] _.
  destruct (skipped line); [exact I |].
  apply never_panics_foldM. intros results'' sentence _.
  destruct (len (TrimSpace sentence) <? 20)%Z; [exact I |].
  apply never_panics_bind; [apply VerifyClaim_never_panics |].
  intros r. destruct (String.eqb (Status r) CheckStatusFail); exact I.
Qed.

(** X17. VerifyFiles returns a report, without a panic, for every list
    of files in which each permalink of a readable file has a commit
    identifier of at least 8 bytes; files that cannot be read do not
    matter. *)
Theorem VerifyFiles_returns :
  forall (W : Type) (h : Handler W) (w : W) (files : list string) (opts : Options),
    links_long h files ->
    exists report,
      out (run h (VerifyFiles files opts) w) = Done report
      /\ ContentFiles report = files.
Proof.
  intros W h w files opts Hlinks.
  pose proof (ensures_run _ _ (PipelineFacts.VerifyFiles_reported files opts) W h w) as Hens.
  unfold VerifyFiles in *.
  match goal with
  | |- context [foldM ?f files NewReportBuilder] => set (body := f) in *
  end.
  destruct (run_foldM_returns h body files) with (acc := NewReportBuilder) (w := w)
    as (b & Hrun).
  { intros acc file w0 Hin. subst body. cbv beta zeta. rewrite run_bind.
    destruct (VerifyFile_returns h file opts w0 (Hlinks file Hin w0)) as ([rs | err] & ->);
      cbv zeta; cbn; eauto. }
  rewrite run_bind, Hrun in *.
  destruct (ReportFacts.Build_run h (world (run h (foldM body files NewReportBuilder) w)) b)
    as (id & now & E).
  cbv zeta in *. cbn [out] in *. rewrite E in *.
  eexists. split; [reflexivity |]. exact (proj1 (Hens _ eq_refl)).
Qed.

End WithLib.
End ReturnFacts.

(* ------------------------------------------------------------------ *)
(** ** What the patterns extract *)

Module RegexFacts.
Import GoString Regexp Effects Lib verify Spec Props.

Lemma length_append (a b : string) :
  String.length (a +:+ b) = (String.length a + String.length b)%nat.
Proof.
  induction a as [| c a IH]; [reflexivity |].
  change (S (String.length (a +:+ b)) = S (String.length a + String.length b)).
  now rewrite IH.
Qed.

Lemma substring_prefix (s post : string) :
  substring 0 (String.length s) (s +:+ post) = s.
Proof.
  induction s as [| c s IH]; [destruct post; reflexivity |].
  change (String c (substring 0 (String.length s) (s +:+ post)) = String c s).
  now rewrite IH.
Qed.

Lemma substring_skip (pre s : string) (n : nat) :
  substring (String.length pre) n (pre +:+ s) = substring 0 n s.
Proof.
  induction pre as [| c pre IH]; [reflexivity |].
  change (substring (String.length pre) n (pre +:+ s) = substring 0 n s). exact IH.
Qed.

Lemma located_start (content : string) : located content 0 content.
Proof. now exists "". Qed.

Lemma located_bound content pos rest :
  located content pos rest -> (pos + String.length rest = String.length content)%nat.
Proof. intros (pre & -> & <-). now rewrite length_append. Qed.

Lemma located_text content pos s rest :
  located content pos (s +:+ rest) -> substring pos (String.length s) content = s.
Proof.
  intros (pre & -> & <-). rewrite substring_skip. apply substring_prefix.
Qed.

Lemma located_skip content pos s rest :
  located content pos (s +:+ rest) -> located content (pos + String.length s) rest.
Proof.
  intros (pre & -> & <-). exists (pre +:+ s).
  split; [symmetry; apply VerifierFacts.append_assoc | apply length_append].
Qed.

Lemma located_embeds content pos s rest :
  located content pos (s +:+ rest) -> embeds content s.
Proof. intros (pre & -> & _). now exists pre, rest. Qed.

Lemma located_inj content pos rest rest' :
  located content pos rest -> located content pos rest' -> rest = rest'.
Proof.
  intros (pre & -> & <-) (pre' & E & El). revert pre' E El.
  induction pre as [| c pre IH]; intros [| c' pre'] E El; try discriminate.
  - exact E.
  - injection E as -> E. cbn in El. injection El as El. eauto.
Qed.

Lemma mt_cat a b k st : mt (Cat a b) k st = mt a (mt b k) st.
Proof. reflexivity. Qed.

Lemma mt_seq_cons a t k st : mt (seq_of (a :: t)) k st = mt a (mt (seq_of t) k) st.
Proof. destruct t; reflexivity. Qed.

Lemma rep_inv p k rest :
  forall ok prev pos caps res,
    rep p k ok prev pos rest caps = Some res ->
    exists cs rest' prev',
      rest = cs +:+ rest' /\ all_bytes p cs = true /\ (ok = false -> cs <> "")
      /\ k (MState prev' (pos + String.length cs) rest' caps) = Some res.
Proof.
  induction rest as [| c t IH]; intros ok prev pos caps res Hrep; cbn [rep] in Hrep.
  - destruct ok; [| discriminate].
    exists "", "", prev. rewrite Nat.add_0_r. repeat split; [discriminate | exact Hrep].
  - assert (Hstop : (if ok then k (MState prev pos (String c t) caps) else None) = Some res ->
                    exists cs rest' prev',
                      String c t = cs +:+ rest' /\ all_bytes p cs = true
                      /\ (ok = false -> cs <> "")
                      /\ k (MState prev' (pos + String.length cs) rest' caps) = Some res).
    { intros Hk. destruct ok; [| discriminate].
      exists "", (String c t), prev. rewrite Nat.add_0_r.
      repeat split; [discriminate | exact Hk]. }
    destruct (p c) eqn:Hc; [| now apply Hstop].
    destruct (rep p k true (Some c) (S pos) t caps) as [r |] eqn:Hr; [| now apply Hstop].
    injection Hrep as ->.
    destruct (IH _ _ _ _ _ Hr) as (cs & rest' & prev' & -> & Hcs & _ & Hk).
    exists (String c cs), rest', prev'.
    split; [reflexivity |]. split; [unfold all_bytes; cbn; now rewrite Hc |].
    split; [discriminate |].
    replace (pos + String.length (String c cs))%nat with (S pos + String.length cs)%nat
      by (cbn; lia).
    exact Hk.
Qed.

Lemma mt_rep_inv one p k prev pos rest caps res :
  mt (Rep one p) k (MState prev pos rest caps) = Some res ->
  exists cs rest' prev',
    rest = cs +:+ rest' /\ all_bytes p cs = true /\ (one = true -> cs <> "")
    /\ k (MState prev' (pos + String.length cs) rest' caps) = Some res.
Proof.
  cbn [mt m_prev m_pos m_rest m_caps]. intros Hrep.
  destruct (rep_inv _ _ _ _ _ _ _ _ Hrep) as (cs & rest' & prev' & E & Hcs & Hne & Hk).
  exists cs, rest', prev'. repeat split; auto.
  intros ->. now apply Hne.
Qed.

Lemma mt_cap_rep_inv n one p k prev pos rest caps res :
  mt (Cap n (Rep one p)) k (MState prev pos rest caps) = Some res ->
  exists cs rest' prev',
    rest = cs +:+ rest' /\ all_bytes p cs = true /\ (one = true -> cs <> "")
    /\ k (MState prev' (pos + String.length cs) rest'
            ((n, (pos, pos + String.length cs)%nat) :: caps)) = Some res.
Proof.
  change (mt (Cap n (Rep one p)) k (MState prev pos rest caps))
    with (mt (Rep one p)
            (fun st' => k (MState (m_prev st') (m_pos st') (m_rest st')
                             ((n, (pos, m_pos st')) :: m_caps st')))
            (MState prev pos rest caps)).
  intros Hrep. apply mt_rep_inv in Hrep as (cs & rest' & prev' & E & Hcs & Hne & Hk).
  exists cs, rest', prev'. repeat split; auto.
Qed.

Lemma mt_chars_inv (l : list ascii) k :
  forall prev pos rest caps res,
    mt (seq_of (List.map chr l)) k (MState prev pos rest caps) = Some res ->
    exists rest' prev',
      rest = string_of_list_ascii l +:+ rest'
      /\ k (MState prev' (pos + length l) rest' caps) = Some res.
Proof.
  induction l as [| c l IH]; intros prev pos rest caps res Hm.
  - exists rest, prev. rewrite Nat.add_0_r. split; [reflexivity | exact Hm].
  - cbn [List.map] in Hm. rewrite mt_seq_cons in Hm.
    unfold chr at 1 in Hm. cbn [mt m_rest m_pos m_caps] in Hm.
    destruct rest as [| c' t]; [discriminate |].
    destruct (Ascii.eqb_spec c c') as [<- | _]; [| discriminate].
    destruct (IH _ _ _ _ _ Hm) as (rest' & prev' & -> & Hk).
    exists rest', prev'. split; [reflexivity |].
    replace (pos + length (c :: l))%nat with (S pos + length l)%nat by (cbn; lia).
    exact Hk.
Qed.

Lemma mt_lit_inv s k prev pos rest caps res :
  mt (lit s) k (MState prev pos rest caps) = Some res ->
  exists rest' prev',
    rest = s +:+ rest'
    /\ k (MState prev' (pos + String.length s) rest' caps) = Some res.
Proof.
  unfold lit. intros Hm. apply mt_chars_inv in Hm as (rest' & prev' & E & Hk).
  rewrite string_of_list_ascii_of_string in E.
  exists rest', prev'. split; [exact E |].
  replace (String.length s) with (length (list_ascii_of_string s)); [exact Hk |].
  clear. induction s; cbn; congruence.
Qed.

Lemma mt_opt_inv a k st res :
  mt (Opt a) k st = Some res -> mt a k st = Some res \/ k st = Some res.
Proof.
  cbn [mt]. destruct (mt a k st) as [r |]; [intros [= ->]; now left | now right].
Qed.

Lemma located_next content pos c t :
  located content pos (String c t) -> located content (S pos) t.
Proof.
  intros Hl. replace (S pos) with (pos + String.length (String c ""))%nat by (cbn; lia).
  now apply located_skip.
Qed.

Lemma all_from_sound r content rest :
  forall prev pos skip prevEnd m,
    located content pos rest ->
    In m (all_from r prev pos rest skip prevEnd) ->
    exists prev' pos' rest',
      located content pos' rest' /\ match_at r prev' pos' rest' = Some m.
Proof.
  induction rest as [| c t IH]; intros prev pos skip prevEnd m Hloc Hin;
    cbn [all_from] in Hin.
  - destruct skip; [| destruct Hin].
    destruct (match_at r prev pos "") as [[[s e] caps] |] eqn:Hm; [| destruct Hin].
    destruct ((e =? pos)%nat && _); [destruct Hin |].
    destruct Hin as [<- | []]. eauto.
  - destruct skip as [| j]; [| eapply IH; [eapply located_next, Hloc | exact Hin]].
    destruct (match_at r prev pos (String c t)) as [[[s e] caps] |] eqn:Hm;
      [| eapply IH; [eapply located_next, Hloc | exact Hin]].
    apply in_app_or in Hin as [Hin | Hin];
      [| eapply IH; [eapply located_next, Hloc | exact Hin]].
    destruct ((e =? pos)%nat && _); [destruct Hin |].
    destruct Hin as [<- | []]. eauto.
Qed.

Lemma find_all_sound r content m :
  In m (find_all r content) ->
  exists prev pos rest st,
    located content pos rest
    /\ mt r Some (MState prev pos rest []) = Some st
    /\ m = (pos, m_pos st, m_caps st).
Proof.
  intros Hin. destruct (all_from_sound r content content None 0 0 None m
                          (located_start content) Hin)
    as (prev & pos & rest & Hloc & Hm).
  unfold match_at in Hm.
  destruct (mt r Some (MState prev pos rest [])) as [st |] eqn:E; [| discriminate].
  injection Hm as <-. exists prev, pos, rest, st. auto.
Qed.

Lemma rep_total p (k : mstate -> option mstate) rest :
  (forall st, k st <> None) ->
  forall prev pos caps, rep p k true prev pos rest caps <> None.
Proof.
  intros Hk. induction rest as [| c t IH]; intros prev pos caps; cbn [rep]; [apply Hk |].
  destruct (p c); [| apply Hk].
  destruct (rep p k true (Some c) (S pos) t caps) eqn:E; [discriminate |].
  now apply IH in E.
Qed.

Lemma rep_inv_greedy p (k : mstate -> option mstate) rest :
  (forall st, k st <> None) ->
  forall ok prev pos caps res,
    rep p k ok prev pos rest caps = Some res ->
    exists cs rest' prev',
      rest = cs +:+ rest' /\ all_bytes p cs = true /\ (ok = false -> cs <> "")
      /\ stops p rest'
      /\ k (MState prev' (pos + String.length cs) rest' caps) = Some res.
Proof.
  intros Hk. induction rest as [| c t IH]; intros ok prev pos caps res Hrep;
    cbn [rep] in Hrep.
  - destruct ok; [| discriminate].
    exists "", "", prev. rewrite Nat.add_0_r.
    repeat split; [discriminate | exact Hrep].
  - destruct (p c) eqn:Hc.
    + destruct (rep p k true (Some c) (S pos) t caps) as [r |] eqn:Hr;
        [| now apply rep_total in Hr].
      injection Hrep as ->.
      destruct (IH _ _ _ _ _ Hr) as (cs & rest' & prev' & -> & Hcs & _ & Hstop & Hres).
      exists (String c cs), rest', prev'.
      split; [reflexivity |]. split; [unfold all_bytes; cbn; now rewrite Hc |].
      split; [discriminate |]. split; [exact Hstop |].
      replace (pos + String.length (String c cs))%nat with (S pos + String.length cs)%nat
        by (cbn; lia).
      exact Hres.
    + destruct ok; [| discriminate].
      exists "", (String c t), prev. rewrite Nat.add_0_r.
      repeat split; [discriminate | exact Hc | exact Hrep].
Qed.

Lemma urlPattern_inv prev pos rest st :
  mt urlPattern Some (MState prev pos rest []) = Some st ->
  exists scheme tail rest',
    (scheme = "http://" \/ scheme = "https://")
    /\ rest = (scheme +:+ tail) +:+ rest'
    /\ tail <> "" /\ all_bytes cls_url tail = true /\ stops cls_url rest'
    /\ m_pos st = (pos + String.length (scheme +:+ tail))%nat.
Proof.
  unfold urlPattern. cbn [seq_of]. rewrite mt_cat. intros Hm.
  apply mt_lit_inv in Hm as (r1 & p1 & -> & Hm).
  rewrite mt_cat in Hm.
  assert (Hrest : forall prev' pos' rest',
            mt (Cat (lit "://") (Rep true cls_url)) Some (MState prev' pos' rest' [])
            = Some st ->
            exists tail rest'',
              rest' = "://" +:+ tail +:+ rest'' /\ tail <> ""
              /\ all_bytes cls_url tail = true /\ stops cls_url rest''
              /\ m_pos st = (pos' + 3 + String.length tail)%nat).
  { intros prev' pos' rest' Hc. rewrite mt_cat in Hc.
    apply mt_lit_inv in Hc as (r2 & p2 & -> & Hc).
    cbn [mt m_prev m_pos m_rest m_caps] in Hc.
    apply rep_inv_greedy in Hc as (cs & r3 & p3 & -> & Hcs & Hne & Hstop & Hres);
      [| discriminate].
    injection Hres as <-. exists cs, r3. cbn [m_pos String.length].
    repeat split; auto. }
  apply mt_opt_inv in Hm as [Hm | Hm].
  - change (chr "s") with (lit "s") in Hm.
    apply mt_lit_inv in Hm as (r2 & p2 & -> & Hm).
    apply Hrest in Hm as (tail & r3 & -> & Hne & Hcs & Hstop & Hpos).
    exists "https://", tail, r3. split; [now right |]. split; [reflexivity |].
    repeat split; auto. rewrite Hpos, length_append. cbn [String.length]. lia.
  - apply Hrest in Hm as (tail & r3 & -> & Hne & Hcs & Hstop & Hpos).
    exists "http://", tail, r3. split; [now left |]. split; [reflexivity |].
    repeat split; auto. rewrite Hpos, length_append. cbn [String.length]. lia.
Qed.

(** X18. Every URL that ExtractURLs returns is http:// or https://
    followed by at least one byte, none of them white space, a closing
    parenthesis, a closing bracket or a greater-than sign; it occurs in
    the content, and it is maximal there: what follows it is the end of
    the content or one of these excluded bytes, so that punctuation such
    as a full stop directly after a URL is part of the URL. *)
Theorem ExtractURLs_shape :
  forall (content url : string),
    In url (ExtractURLs content) ->
    exists tail before after,
      (url = "http://" +:+ tail \/ url = "https://" +:+ tail)
      /\ tail <> "" /\ all_bytes cls_url tail = true
      /\ content = before +:+ url +:+ after
      /\ stops cls_url after.
Proof.
  intros content url Hin. unfold ExtractURLs, FindAllString in Hin.
  apply in_map_iff in Hin as ([[b e] caps] & <- & Hin).
  apply find_all_sound in Hin as (prev & pos & rest & st & Hloc & Hm & [= -> -> ->]).
  apply urlPattern_inv in Hm as (scheme & tail & rest' & Hscheme & -> & Hne & Hcs & Hstop & ->).
  replace (pos + String.length (scheme +:+ tail) - pos)%nat
    with (String.length (scheme +:+ tail)) by lia.
  rewrite (located_text _ _ _ _ Hloc).
  destruct Hloc as (before & -> & _).
  exists tail, before, rest'. split; [destruct Hscheme as [-> | ->]; auto |].
  repeat split; auto.
Qed.

Lemma mt_cap_rep_greedy n p (k : mstate -> option mstate) prev pos rest caps res :
  (forall st, k st <> None) ->
  mt (Cap n (Rep true p)) k (MState prev pos rest caps) = Some res ->
  exists cs rest' prev',
    rest = cs +:+ rest' /\ all_bytes p cs = true /\ cs <> "" /\ stops p rest'
    /\ k (MState prev' (pos + String.length cs) rest'
            ((n, (pos, pos + String.length cs)%nat) :: caps)) = Some res.
Proof.
  intros Hk.
  change (mt (Cap n (Rep true p)) k (MState prev pos rest caps))
    with (rep p (fun st' => k (MState (m_prev st') (m_pos st') (m_rest st')
                                 ((n, (pos, m_pos st')) :: m_caps st')))
            false prev pos rest caps).
  intros Hrep.
  apply rep_inv_greedy in Hrep as (cs & rest' & prev' & E & Hcs & Hne & Hstop & Hres);
    [| intros st; apply Hk].
  exists cs, rest', prev'. repeat split; auto.
Qed.

Lemma group_text_here content n b cs rest caps :
  located content b (cs +:+ rest) ->
  group_text content ((n, (b, b + String.length cs)%nat) :: caps) n = cs.
Proof.
  intros Hloc. unfold group_text. cbn [cap_lookup]. rewrite Nat.eqb_refl.
  rewrite Nat.add_sub'. now apply located_text in Hloc.
Qed.

Lemma group_text_older content n m be caps :
  m <> n -> group_text content ((m, be) :: caps) n = group_text content caps n.
Proof.
  intros Hne. unfold group_text. cbn [cap_lookup].
  now destruct (Nat.eqb_spec m n).
Qed.

Lemma citationPattern_inv content prev pos rest st :
  located content pos rest ->
  mt citationPattern Some (MState prev pos rest []) = Some st ->
  exists key before after,
    content = before +:+ "@paper:" +:+ key +:+ after
    /\ key <> "" /\ all_bytes cls_cite key = true /\ stops cls_cite after
    /\ group_text content (m_caps st) 1 = key.
Proof.
  intros Hloc. unfold citationPattern. rewrite mt_cat. intros Hm.
  apply mt_lit_inv in Hm as (r1 & p1 & -> & Hm).
  pose proof (located_skip _ _ _ _ Hloc) as Hloc1.
  apply mt_cap_rep_greedy in Hm as (key & r2 & p2 & -> & Hcs & Hne & Hstop & Hres);
    [| discriminate].
  injection Hres as <-. cbn [m_caps].
  destruct Hloc as (before & -> & _).
  exists key, before, r2. split; [reflexivity |]. repeat split; auto.
  now apply group_text_here with (rest := r2).
Qed.

(** X19. Every key that ExtractCitations returns is non-empty, consists
    of ASCII letters, digits, underscores and hyphens, and occurs in the
    content directly after the marker @paper:, where it is maximal: what
    follows it is the end of the content or a byte outside this class. *)
Theorem ExtractCitations_shape :
  forall (content key : string),
    In key (ExtractCitations content) ->
    key <> "" /\ all_bytes cls_cite key = true
    /\ exists before after,
         content = before +:+ "@paper:" +:+ key +:+ after /\ stops cls_cite after.
Proof.
  intros content key Hin.
  rewrite ExtractFacts.ExtractCitations_first_seen in Hin.
  apply (proj1 (ExtractFacts.first_seen_In _ _)) in Hin.
  unfold citation_tokens, FindAllStringSubmatch in Hin. rewrite map_map in Hin.
  apply in_map_iff in Hin as ([[b e] caps] & <- & Hin).
  apply find_all_sound in Hin as (prev & pos & rest & st & Hloc & Hm & [= -> -> ->]).
  apply (citationPattern_inv content) in Hm
    as (key & before & after & E & Hne & Hcs & Hstop & Hg); [| exact Hloc].
  change (at_ (submatches citationPattern content (pos, m_pos st, m_caps st)) 1)
    with (group_text content (m_caps st) 1).
  rewrite Hg. eauto 10.
Qed.

Lemma digits_val_nonneg (l : list ascii) (acc : Z) :
  forallb is_digit l = true -> (0 <= acc)%Z ->
  (0 <= fold_left (fun acc c => 10 * acc + digit_val c) l acc)%Z.
Proof.
  revert acc. induction l as [| c l IH]; intros acc Hl Hacc; cbn [fold_left]; [exact Hacc |].
  cbn [forallb] in Hl. apply andb_true_iff in Hl as [Hc Hl]. apply IH; [exact Hl |].
  unfold is_digit, in_range in Hc. apply andb_true_iff in Hc as [Hlo _].
  apply N.leb_le in Hlo. unfold digit_val. lia.
Qed.

Lemma Atoi_range (s : string) :
  all_bytes is_digit s = true -> (0 <= Atoi s <= MaxInt64)%Z.
Proof.
  intros Hs. unfold Atoi. cbv zeta.
  pose proof (digits_val_nonneg _ 0%Z Hs ltac:(lia)) as Hv. fold (digits_val s) in Hv.
  destruct (Z.ltb_spec MaxInt64 (digits_val s)); [unfold MaxInt64 |]; lia.
Qed.

Ltac group_at Hloc :=
  rewrite ?group_text_older by lia; exact (group_text_here _ _ _ _ _ _ Hloc).

Lemma githubPermalinkPattern_inv content prev pos rest st :
  located content pos rest ->
  mt githubPermalinkPattern Some (MState prev pos rest []) = Some st ->
  exists owner repo sha path first last before after,
    content = before
              +:+ ("https://github.com/" +:+ owner +:+ "/" +:+ repo +:+ "/blob/" +:+ sha
                   +:+ "/" +:+ path +:+ "#L" +:+ first
                   +:+ (if String.eqb last "" then "" else "-L" +:+ last))
              +:+ after
    /\ substring pos (m_pos st - pos) content
       = "https://github.com/" +:+ owner +:+ "/" +:+ repo +:+ "/blob/" +:+ sha
         +:+ "/" +:+ path +:+ "#L" +:+ first
         +:+ (if String.eqb last "" then "" else "-L" +:+ last)
    /\ (owner <> "" /\ all_bytes (cls_not "/") owner = true)
    /\ (repo <> "" /\ all_bytes (cls_not "/") repo = true)
    /\ (sha <> "" /\ all_bytes cls_hex sha = true)
    /\ (path <> "" /\ all_bytes (cls_not "#") path = true)
    /\ (first <> "" /\ all_bytes is_digit first = true)
    /\ all_bytes is_digit last = true
    /\ group_text content (m_caps st) 1 = owner
    /\ group_text content (m_caps st) 2 = repo
    /\ group_text content (m_caps st) 3 = sha
    /\ group_text content (m_caps st) 4 = path
    /\ group_text content (m_caps st) 5 = first
    /\ group_text content (m_caps st) 6 = last.
Proof.
  intros Hloc. unfold githubPermalinkPattern. cbn [seq_of].
  change (chr "/") with (lit "/").
  rewrite mt_cat. intros Hm.
  apply mt_lit_inv in Hm as (r0 & p0 & -> & Hm).
  pose proof (located_skip _ _ _ _ Hloc) as Hg1.
  rewrite mt_cat in Hm.
  apply mt_cap_rep_inv in Hm as (owner & r1 & p1 & -> & Hc1 & Hn1 & Hm).
  pose proof (located_skip _ _ _ _ Hg1) as Hl1.
  rewrite mt_cat in Hm. apply mt_lit_inv in Hm as (r1' & p1' & -> & Hm).
  pose proof (located_skip _ _ _ _ Hl1) as Hg2.
  rewrite mt_cat in Hm.
  apply mt_cap_rep_inv in Hm as (repo & r2 & p2 & -> & Hc2 & Hn2 & Hm).
  pose proof (located_skip _ _ _ _ Hg2) as Hl2.
  rewrite mt_cat in Hm. apply mt_lit_inv in Hm as (r2' & p2' & -> & Hm).
  pose proof (located_skip _ _ _ _ Hl2) as Hg3.
  rewrite mt_cat in Hm.
  apply mt_cap_rep_inv in Hm as (sha & r3 & p3 & -> & Hc3 & Hn3 & Hm).
  pose proof (located_skip _ _ _ _ Hg3) as Hl3.
  rewrite mt_cat in Hm. apply mt_lit_inv in Hm as (r3' & p3' & -> & Hm).
  pose proof (located_skip _ _ _ _ Hl3) as Hg4.
  rewrite mt_cat in Hm.
  apply mt_cap_rep_inv in Hm as (path & r4 & p4 & -> & Hc4 & Hn4 & Hm).
  pose proof (located_skip _ _ _ _ Hg4) as Hl4.
  rewrite mt_cat in Hm. apply mt_lit_inv in Hm as (r4' & p4' & -> & Hm).
  pose proof (located_skip _ _ _ _ Hl4) as Hg5.
  rewrite mt_cat in Hm.
  apply mt_cap_rep_inv in Hm as (first & r5 & p5 & -> & Hc5 & Hn5 & Hm).
  pose proof (located_skip _ _ _ _ Hg5) as Hl5.
  apply mt_opt_inv in Hm as [Hm | Hm].
  - rewrite mt_cat in Hm. apply mt_lit_inv in Hm as (r5' & p5' & -> & Hm).
    pose proof (located_skip _ _ _ _ Hl5) as Hg6.
    apply mt_cap_rep_inv in Hm as (last & r6 & p6 & -> & Hc6 & Hn6 & Hm).
    injection Hm as <-. cbn [m_pos m_caps].
    assert (Hlast : String.eqb last "" = false)
      by (destruct (String.eqb_spec last ""); [now apply Hn6 in e | reflexivity]).
    exists owner, repo, sha, path, first, last. rewrite Hlast.
    assert (Hfull : located content pos
              (("https://github.com/" +:+ owner +:+ "/" +:+ repo +:+ "/blob/" +:+ sha
                +:+ "/" +:+ path +:+ "#L" +:+ first +:+ "-L" +:+ last) +:+ r6)).
    { rewrite !VerifierFacts.append_assoc. exact Hloc. }
    destruct Hfull as (before & Hcontent & Hpos).
    exists before, r6. split; [exact Hcontent |].
    split.
    { etransitivity;
        [| apply (located_text content pos _ r6); exists before;
           split; [exact Hcontent | exact Hpos]].
      f_equal. rewrite !length_append. cbn [String.length]. lia. }
    repeat split; auto; try (now apply Hn1); try (now apply Hn2); try (now apply Hn3);
      try (now apply Hn4); try (now apply Hn5).
    + group_at Hg1.
    + group_at Hg2.
    + group_at Hg3.
    + group_at Hg4.
    + group_at Hg5.
    + group_at Hg6.
  - injection Hm as <-. cbn [m_pos m_caps].
    exists owner, repo, sha, path, first, "". cbn [String.eqb].
    assert (Hfull : located content pos
              (("https://github.com/" +:+ owner +:+ "/" +:+ repo +:+ "/blob/" +:+ sha
                +:+ "/" +:+ path +:+ "#L" +:+ first +:+ "") +:+ r5)).
    { rewrite !VerifierFacts.append_assoc. exact Hloc. }
    destruct Hfull as (before & Hcontent & Hpos).
    exists before, r5. split; [exact Hcontent |].
    split.
    { etransitivity;
        [| apply (located_text content pos _ r5); exists before;
           split; [exact Hcontent | exact Hpos]].
      f_equal. rewrite !length_append. cbn [String.length]. lia. }
    repeat split; auto; try (now apply Hn1); try (now apply Hn2); try (now apply Hn3);
      try (now apply Hn4); try (now apply Hn5).
    + group_at Hg1.
    + group_at Hg2.
    + group_at Hg3.
    + group_at Hg4.
    + group_at Hg5.
Qed.

Lemma num_cap_githubPermalinkPattern : num_cap githubPermalinkPattern = 6%nat.
Proof. reflexivity. Qed.

(** X20. Every permalink that ExtractCodeLinks returns occurs in the
    content, and its URL is made of its fields: https://github.com/, the
    owner, the repository, /blob/, the commit identifier, the path, #L
    and the digits of the first line, then nothing more or -L and the
    digits of the last line.  Owner and repository are non-empty without
    a slash, the commit identifier is non-empty lower-case hexadecimal
    (of any length), the path is non-empty without a number sign.
    StartLine and EndLine are the values of the digits, cut off at the
    largest int, so both lie between 0 and that number; without a second
    anchor EndLine is StartLine. *)
Theorem ExtractCodeLinks_shape :
  forall (content : string) (l : CodeLinkMatch),
    In l (ExtractCodeLinks content) ->
    exists first last before after,
      FullURL l = "https://github.com/" +:+ Owner l +:+ "/" +:+ Repo l +:+ "/blob/"
                  +:+ CommitSHA l +:+ "/" +:+ FilePath l +:+ "#L" +:+ first
                  +:+ (if String.eqb last "" then "" else "-L" +:+ last)
      /\ content = before +:+ FullURL l +:+ after
      /\ (Owner l <> "" /\ all_bytes (cls_not "/") (Owner l) = true)
      /\ (Repo l <> "" /\ all_bytes (cls_not "/") (Repo l) = true)
      /\ (CommitSHA l <> "" /\ all_bytes cls_hex (CommitSHA l) = true)
      /\ (FilePath l <> "" /\ all_bytes (cls_not "#") (FilePath l) = true)
      /\ (first <> "" /\ all_bytes is_digit first = true /\ all_bytes is_digit last = true)
      /\ StartLine l = Atoi first
      /\ EndLine l = (if String.eqb last "" then Atoi first else Atoi last)
      /\ (0 <= StartLine l <= MaxInt64)%Z
      /\ (0 <= EndLine l <= MaxInt64)%Z.
Proof.
  intros content l Hin. unfold ExtractCodeLinks in Hin.
  rewrite ExtractFacts.fold_links in Hin. cbn [app] in Hin.
  apply in_map_iff in Hin as (m & <- & Hin). apply filter_In in Hin as [Hin _].
  unfold FindAllStringSubmatch in Hin.
  apply in_map_iff in Hin as ([[b e] caps] & <- & Hin).
  apply find_all_sound in Hin as (prev & pos & rest & st & Hloc & Hm & [= -> -> ->]).
  apply (githubPermalinkPattern_inv content) in Hm
    as (owner & repo & sha & path & first & last & before & after & Hcontent & Hfull
        & H1 & H2 & H3 & H4 & H5 & H6 & G1 & G2 & G3 & G4 & G5 & G6); [| exact Hloc].
  unfold linkOf, submatches. rewrite num_cap_githubPermalinkPattern.
  cbn [seq List.map at_ nth length FullURL Owner Repo CommitSHA FilePath StartLine EndLine].
  rewrite Hfull, G1, G2, G3, G4, G5, G6.
  exists first, last, before, after.
  split; [reflexivity |]. split; [exact Hcontent |].
  split; [exact H1 |]. split; [exact H2 |]. split; [exact H3 |]. split; [exact H4 |].
  split; [destruct H5; auto |]. split; [reflexivity |].
  assert (Hend : (if (6 <? Z.of_nat 7)%Z && negb (String.eqb last "")
                  then Atoi last else Atoi first)
                 = (if String.eqb last "" then Atoi first else Atoi last))
    by (destruct (String.eqb last ""); reflexivity).
  rewrite Hend. split; [reflexivity |].
  split; [apply Atoi_range; now destruct H5 |].
  destruct (String.eqb last ""); apply Atoi_range; [now destruct H5 | exact H6].
Qed.

End RegexFacts.

(* ------------------------------------------------------------------ *)
(** ** The phases of VerifyFile *)

Module PhaseFacts.
Import GoString Regexp Effects Lib verify Spec Props EffectsFacts StampFacts.







Section WithLib.
Context `{GoLib}.





End WithLib.
End PhaseFacts.

(* ------------------------------------------------------------------ *)
(** ** The further properties on the sample world *)

Module MoreExamples.
Import GoString Regexp Effects Lib verify report Spec Props Sample.

Lemma VerifyFile_results_well_formed_witness :
  exists results,
    out (run (handler bare) (@VerifyFile lib "notes.qmd" DefaultOptions) 0%nat)
    = Done (Ok results)
    /\ results <> []
    /\ forall r, In r results -> reported_for "notes.qmd" r.
Proof.
  eexists. split; [vm_compute; reflexivity |]. split; [discriminate |].
  apply (PipelineFacts.VerifyFile_results_well_formed (H := lib) nat (handler bare) 0%nat
           "notes.qmd" DefaultOptions).
  vm_compute. reflexivity.
Defined.

Lemma VerifyFiles_report_partitions_witness :
  exists report,
    out (run (handler bare) (@VerifyFiles lib ["notes.qmd"; "missing.qmd"] DefaultOptions)
           0%nat) = Done report
    /\ ContentFiles report = ["notes.qmd"; "missing.qmd"]
    /\ Permutation (Results report)
         (FilterByStatus report CheckStatusPass ++ FilterByStatus report CheckStatusFail
          ++ FilterByStatus report CheckStatusWarn)
    /\ (Passed (Summary report) + Failed (Summary report) + Warnings (Summary report)
        = TotalChecks (Summary report))%Z.
Proof.
  assert (Hrun : exists report,
            out (run (handler bare)
                   (@VerifyFiles lib ["notes.qmd"; "missing.qmd"] DefaultOptions) 0%nat)
            = Done report)
    by (eexists; vm_compute; reflexivity).
  destruct Hrun as (report & Hrun). exists report. split; [exact Hrun |].
  destruct (PipelineFacts.VerifyFiles_report_partitions (H := lib) nat (handler bare) 0%nat
              ["notes.qmd"; "missing.qmd"] DefaultOptions report Hrun)
    as (Hfiles & _ & Hstatus & _ & Hsum).
  split; [exact Hfiles |]. split; [exact Hstatus | exact Hsum].
Defined.

Lemma with_gh_reads_nothing (files : list string) : unreadable (handler with_gh) files.
Proof. intros f _ w. eexists. reflexivity. Qed.

Lemma VerifyFiles_unreadable_files_witness :
  unreadable (handler with_gh) ["a.qmd"; "b.qmd"]
  /\ exists report,
       out (run (handler with_gh) (@VerifyFiles lib ["a.qmd"; "b.qmd"] DefaultOptions) 0%nat)
       = Done report
       /\ ContentFiles report = ["a.qmd"; "b.qmd"]
       /\ Forall2 (fun (answer : res string) r => answer = Err (Message r))
            [Err "open a.qmd: no such file or directory";
             Err "open b.qmd: no such file or directory"]
            (Results report)
       /\ ExitCode report = 1%Z.
Proof.
  split; [apply with_gh_reads_nothing |].
  destruct (PipelineFacts.VerifyFiles_unreadable_files (H := lib) nat (handler with_gh) 0%nat
              ["a.qmd"; "b.qmd"] DefaultOptions (with_gh_reads_nothing _))
    as (report & Hrun & Hfiles & _ & Hmsg & _ & Hexit).
  exists report. split; [exact Hrun |]. split; [exact Hfiles |].
  split; [exact Hmsg | exact Hexit].
Defined.

Lemma with_gh_always_30 a b :
  always (handler with_gh) (metadata_call (link_to "abc123def456" a b)) (exit0 "30").
Proof. intros w. reflexivity. Qed.

Lemma strict_VerifyCodeLink_pass_iff_witness :
  installed (handler with_gh) "gh"
  /\ always (handler with_gh) (metadata_call (link_to "abc123def456" 0 1)) (exit0 "30")
  /\ exists r,
       out (run (handler with_gh)
              (@strict.VerifyCodeLink lib (link_to "abc123def456" 0 1) "notes.qmd" 1 "")
              0%nat) = Done r
       /\ Status r = CheckStatusPass.
Proof.
  split; [exact Examples.with_gh_has_gh |]. split; [apply with_gh_always_30 |].
  destruct (VerifierMore.strict_VerifyCodeLink_pass_iff (H := lib) (handler with_gh)
              (link_to "abc123def456" 0 1) "notes.qmd" 1 "" (exit0 "30") 30 0%nat
              Examples.with_gh_has_gh (with_gh_always_30 0 1) eq_refl eq_refl)
    as (r & Hrun & _ & Hpass).
  exists r. split; [exact Hrun |]. apply Hpass. simpl. lia.
Defined.

Lemma VerifyClaim_heuristics_decide_witness :
  exists r,
    out (run (handler bare)
           (@VerifyClaim lib "Method A is 40% faster than method B." "notes.qmd" 2 false false)
           0%nat) = Done r
    /\ Status r = CheckStatusFail.
Proof.
  destruct (VerifierMore.VerifyClaim_heuristics_decide (H := lib) (handler bare)
              "Method A is 40% faster than method B." "notes.qmd" 2 false 0%nat
              (or_introl eq_refl))
    as (r & action & Hrun & Hstatus & _).
  exists r. rewrite Hrun. split; [reflexivity | exact Hstatus].
Defined.

Lemma with_claude_has_claude reply : installed (handler (with_claude reply)) "claude".
Proof. intros w. reflexivity. Qed.

Lemma with_claude_replies reply sentence :
  always (handler (with_claude reply)) (claude_call (H := lib) sentence) reply.
Proof. intros w. reflexivity. Qed.

Lemma VerifyClaim_llm_verdict_witness :
  (AnalyzeClaimWithHeuristics plain_sentence).1.2 = "low"
  /\ exists r,
       out (run (handler (with_claude (exit0 "yes")))
              (@VerifyClaim lib plain_sentence "notes.qmd" 3 false true) 0%nat) = Done r
       /\ Status r = CheckStatusFail.
Proof.
  split; [vm_compute; reflexivity |].
  destruct (VerifierMore.VerifyClaim_llm_verdict (H := lib) (handler (with_claude (exit0 "yes")))
              plain_sentence "notes.qmd" 3 (exit0 "yes") 0%nat
              ltac:(vm_compute; reflexivity) (with_claude_has_claude _)
              (with_claude_replies _ _))
    as (r & Hrun & _ & Hverdict).
  exists r. split; [exact Hrun |]. exact (proj1 Hverdict).
Defined.

Lemma bare_links_long : links_long (handler bare) ["notes.qmd"; "missing.qmd"].
Proof.
  intros f [<- | [<- | []]] w content Hread; vm_compute in Hread; [| discriminate].
  injection Hread as <-. vm_compute. reflexivity.
Qed.

Lemma VerifyFiles_returns_witness :
  links_long (handler bare) ["notes.qmd"; "missing.qmd"]
  /\ exists report,
       out (run (handler bare) (@VerifyFiles lib ["notes.qmd"; "missing.qmd"] DefaultOptions)
              0%nat) = Done report
       /\ ContentFiles report = ["notes.qmd"; "missing.qmd"].
Proof.
  split; [exact bare_links_long |].
  exact (ReturnFacts.VerifyFiles_returns (H := lib) nat (handler bare) 0%nat
           ["notes.qmd"; "missing.qmd"] DefaultOptions bare_links_long).
Defined.

Lemma ExtractURLs_shape_witness :
  In "https://example.org/a." (ExtractURLs prose)
  /\ exists tail before after,
       ("https://example.org/a." = "http://" +:+ tail
        \/ "https://example.org/a." = "https://" +:+ tail)
       /\ tail <> "" /\ all_bytes cls_url tail = true
       /\ prose = before +:+ "https://example.org/a." +:+ after
       /\ stops cls_url after.
Proof.
  assert (Hin : In "https://example.org/a." (ExtractURLs prose))
    by (vm_compute; left; reflexivity).
  split; [exact Hin |].
  exact (RegexFacts.ExtractURLs_shape prose "https://example.org/a." Hin).
Defined.

Lemma ExtractCitations_shape_witness :
  In "tavare1986" (ExtractCitations prose)
  /\ "tavare1986" <> "" /\ all_bytes cls_cite "tavare1986" = true
  /\ exists before after,
       prose = before +:+ "@paper:" +:+ "tavare1986" +:+ after /\ stops cls_cite after.
Proof.
  assert (Hin : In "tavare1986" (ExtractCitations prose))
    by (vm_compute; left; reflexivity).
  split; [exact Hin |].
  exact (RegexFacts.ExtractCitations_shape prose "tavare1986" Hin).
Defined.

Lemma ExtractCodeLinks_shape_witness :
  In (link_to "abc123def456" 10 20) (ExtractCodeLinks prose)
  /\ exists before after,
       prose = before +:+ FullURL (link_to "abc123def456" 10 20) +:+ after.
Proof.
  assert (Hin : In (link_to "abc123def456" 10 20) (ExtractCodeLinks prose))
    by (vm_compute; left; reflexivity).
  split; [exact Hin |].
  destruct (RegexFacts.ExtractCodeLinks_shape prose (link_to "abc123def456" 10 20) Hin)
    as (first & last & before & after & _ & Hcontent & _).
  exists before, after. exact Hcontent.
Defined.


End MoreExamples.
